(** * Quarter-CA: consolidation, ratios, scoring and trends

    A shallow embedding of [backend/financial_utils.py], of
    [run_analysis] from [backend/analyze_financials.py] and of the
    upload endpoint of [backend/server.py].

    Conventions of the embedding.
    - The numbers in the cells (numpy float64 / int64 scalars and
      Python ints) are exact rationals [Q]: rounding and overflow are
      not represented there.  Division is kept partial ([py_div]), as
      in Python.  The ratio formulas are given a second time in
      binary64 ([Binary64]), where a quotient can overflow, and the
      floats that [run_analysis] compares are finite values,
      infinities or NaN ([pyfloat]).
    - A pandas DataFrame is a list of column labels together with a list
      of rows, each row a list of cells aligned with the labels.  The
      dtype of a column of a sheet is read off its cells: it is numeric
      when the sheet has rows and every cell is a number or missing;
      a concatenation takes it from the sheets that have the column.
    - Column labels are Python strings or Python ints, as [read_excel]
      produces them from the header row.
    - Python exceptions are values of [exn], threaded by a small error
      monad; Python dicts are association lists in insertion order.
    - Strings are held in UTF-8, so that [str.strip] removes the
      blanks of every script and the order of strings is that of their
      code points.  [int(s)] is given for ASCII text; on other text it
      is a parameter of the development, and so are [float(s)] and
      [pd.to_numeric(s, errors="coerce")] on text, the call to the
      external service and the text of an exception.
    - The endpoint runs against the files on disk, a finite map from
      paths to contents that the handler threads through.  The
      sanitiser of file names, the Excel parser, and whether a write
      or the JSON serialisation of a result raises are parameters;
      removing a file that exists is taken to succeed, and paths are
      joined with the POSIX separator. *)

From Stdlib Require Import List String Ascii Bool ZArith QArith Qminmax Lia Lqa.
From Stdlib Require Import DecimalString DecimalPos Permutation Sorted.
From Stdlib Require Floats.
Import ListNotations.

Local Open Scope string_scope.
Local Open Scope list_scope.

(** ** Exceptions and the error monad *)

Inductive exn : Set :=
| KeyError
| AttributeError
| TypeError
| ValueError
| ZeroDivisionError.

Inductive result (A : Type) : Type :=
| Ok (a : A)
| Raise (e : exn).

Arguments Ok {A} a.
Arguments Raise {A} e.

Definition bind {A B : Type} (m : result A) (k : A -> result B) : result B :=
  match m with
  | Ok a => k a
  | Raise e => Raise e
  end.

Notation "x <- m ;; k" := (bind m (fun x => k))
  (at level 61, m at next level, right associativity).

Fixpoint mapM {A B : Type} (f : A -> result B) (l : list A) : result (list B) :=
  match l with
  | [] => Ok []
  | a :: t => b <- f a ;; bs <- mapM f t ;; Ok (b :: bs)
  end.

(** ** Python strings *)

(** Strings are held in UTF-8.  [str.isspace] holds for the ASCII
    characters TAB..CR, FS..US and the space, ... *)
Definition is_space (c : ascii) : bool :=
  let n := nat_of_ascii c in
  ((9 <=? n) && (n <=? 13) || (28 <=? n) && (n <=? 32))%nat.

(** ... for U+0085 and U+00A0, two bytes each, ... *)
Definition is_space2 (a b : ascii) : bool :=
  let n := nat_of_ascii b in
  ((nat_of_ascii a =? 194) && ((n =? 133) || (n =? 160)))%nat.

(** ... and for U+1680, U+2000..U+200A, U+2028, U+2029, U+202F, U+205F
    and U+3000, three bytes each. *)
Definition is_space3 (a b c : ascii) : bool :=
  let x := nat_of_ascii a in
  let y := nat_of_ascii b in
  let z := nat_of_ascii c in
  ((x =? 225) && (y =? 154) && (z =? 128)
   || (x =? 226) && (y =? 128)
      && ((128 <=? z) && (z <=? 138) || (z =? 168) || (z =? 169) || (z =? 175))
   || (x =? 226) && (y =? 129) && (z =? 159)
   || (x =? 227) && (y =? 128) && (z =? 128))%nat.

Definition is_digit (c : ascii) : bool :=
  let n := nat_of_ascii c in ((48 <=? n) && (n <=? 57))%nat.

Fixpoint lstrip (s : string) : string :=
  match s with
  | String a r =>
      if is_space a then lstrip r
      else
        match r with
        | String b r' =>
            if is_space2 a b then lstrip r'
            else
              match r' with
              | String c r'' => if is_space3 a b c then lstrip r'' else s
              | EmptyString => s
              end
        | EmptyString => s
        end
  | EmptyString => EmptyString
  end.

Fixpoint rstrip (s : string) : string :=
  match s with
  | String a r =>
      match rstrip r with
      | EmptyString => if is_space a then EmptyString else String a EmptyString
      | String b EmptyString =>
          if is_space2 a b then EmptyString else String a (String b EmptyString)
      | String b (String c EmptyString) =>
          if is_space3 a b c then EmptyString
          else String a (String b (String c EmptyString))
      | r' => String a r'
      end
  | EmptyString => EmptyString
  end.

(** [str.strip()] *)
Definition strip (s : string) : string := rstrip (lstrip s).

(** The digit part of an integer literal: digits, with single
    underscores allowed between two digits; the underscores are dropped. *)
Fixpoint digitpart (prev_digit : bool) (s : string) : option string :=
  match s with
  | EmptyString => if prev_digit then Some EmptyString else None
  | String c r =>
      if is_digit c then option_map (String c) (digitpart true r)
      else if Ascii.eqb c "_" && prev_digit then digitpart false r
      else None
  end.

Definition parse_digits (s : string) : option Z :=
  match digitpart false s with
  | Some d => option_map Z.of_uint (NilZero.uint_of_string d)
  | None => None
  end.

(** The blanks that [int] skips around an ASCII literal: TAB..CR and
    the space, and not FS..US, which [str.strip] removes. *)
Definition int_space (c : ascii) : bool :=
  let n := nat_of_ascii c in
  ((9 <=? n) && (n <=? 13) || (n =? 32))%nat.

Fixpoint int_lstrip (s : string) : string :=
  match s with
  | String c r => if int_space c then int_lstrip r else s
  | EmptyString => EmptyString
  end.

Fixpoint int_rstrip (s : string) : string :=
  match s with
  | String c r =>
      match int_rstrip r with
      | EmptyString => if int_space c then EmptyString else String c EmptyString
      | r' => String c r'
      end
  | EmptyString => EmptyString
  end.

(** [int(s)] for ASCII text; [None] stands for [ValueError]. *)
Definition int_ascii (s : string) : option Z :=
  match int_rstrip (int_lstrip s) with
  | String "+" r => parse_digits r
  | String "-" r => option_map Z.opp (parse_digits r)
  | t => parse_digits t
  end.

Definition is_ascii (s : string) : bool :=
  forallb (fun c => (nat_of_ascii c <? 128)%nat) (list_ascii_of_string s).

(** [str(z)] for an int [z]. *)
Definition py_str_int (z : Z) : string := NilZero.string_of_int (Z.to_int z).

(** ** Column labels and cells *)

Inductive label : Set :=
| LStr (s : string)
| LInt (z : Z).

Definition label_eqb (a b : label) : bool :=
  match a, b with
  | LStr s, LStr t => String.eqb s t
  | LInt x, LInt y => Z.eqb x y
  | _, _ => false
  end.

(** [str(col)] *)
Definition label_str (l : label) : string :=
  match l with
  | LStr s => s
  | LInt z => py_str_int z
  end.

Inductive cell : Type :=
| CNum (q : Q)
| CNaN
| CStr (s : string).

Definition Field : label := LStr "Field".

Record DataFrame : Type := mkDF {
  columns : list label;
  rows : list (list cell)
}.

(** [l in df.columns] *)
Definition in_columns (l : label) (df : DataFrame) : bool :=
  existsb (label_eqb l) (columns df).

Fixpoint col_index (l : label) (cols : list label) : option nat :=
  match cols with
  | [] => None
  | c :: t => if label_eqb l c then Some O else option_map S (col_index l t)
  end.

(** The cell of a row under a label; a cell that is not there is missing. *)
Definition cell_at (cols : list label) (row : list cell) (l : label) : cell :=
  match col_index l cols with
  | Some i => nth i row CNaN
  | None => CNaN
  end.

(** [df[l]]: the cells of one column, [KeyError] when it is not a column. *)
Definition column (df : DataFrame) (l : label) : result (list cell) :=
  match col_index l (columns df) with
  | Some i => Ok (map (fun r => nth i r CNaN) (rows df))
  | None => Raise KeyError
  end.

Fixpoint set_nth {A : Type} (i : nat) (f : A -> A) (l : list A) : list A :=
  match l, i with
  | [], _ => []
  | a :: t, O => f a :: t
  | a :: t, S j => a :: set_nth j f t
  end.

(** [df[l] = f(df[l])], cell by cell. *)
Definition update_column (df : DataFrame) (l : label) (f : cell -> cell)
  : result DataFrame :=
  match col_index l (columns df) with
  | Some i => Ok (mkDF (columns df) (map (set_nth i f) (rows df)))
  | None => Raise KeyError
  end.

(** [Series.fillna("")] *)
Definition fillna_empty (c : cell) : cell :=
  match c with
  | CNaN => CStr ""
  | _ => c
  end.

(** ** Python arithmetic *)

(** [a / b]: true division, an error on a zero divisor. *)
Definition py_div (a b : Q) : result Q :=
  if Qeq_bool b 0 then Raise ZeroDivisionError else Ok (a / b)%Q.

(** [a != 0] *)
Definition nonzero (a : Q) : bool := negb (Qeq_bool a 0).

(** [min(a, b)]: the first argument unless the second is smaller. *)
Definition py_min (a b : Q) : Q :=
  if Qle_bool a b then a else b.

(** A Python dict with string keys, in insertion order. *)
Definition dict (V : Type) : Type := list (string * V).

Fixpoint dict_get {V : Type} (d : dict V) (k : string) (default : V) : V :=
  match d with
  | [] => default
  | (k', v) :: t => if String.eqb k k' then v else dict_get t k default
  end.

Definition dict_keys {V : Type} (d : dict V) : list string := map fst d.
Definition dict_values {V : Type} (d : dict V) : list V := map snd d.

Fixpoint dict_find {V : Type} (d : dict V) (k : string) : option V :=
  match d with
  | [] => None
  | (k', v) :: t => if String.eqb k k' then Some v else dict_find t k
  end.

(** [sum(xs)]: the running total starts from 0 and adds left to right. *)
Definition py_sum (xs : list Q) : Q := fold_left Qplus xs 0%Q.

(** [sorted(xs, key=...)] for keys already computed: a stable sort that
    only asks whether one key is smaller than another, and fails with
    the comparison. *)
Section Sorted.
Context {A : Type}.
Variable lt : A -> A -> result bool.

Fixpoint insert_sorted (x : A) (l : list A) : result (list A) :=
  match l with
  | [] => Ok [x]
  | y :: t =>
      b <- lt x y ;;
      if b then Ok (x :: y :: t)
      else t' <- insert_sorted x t ;; Ok (y :: t')
  end.

Definition py_sorted (l : list A) : result (list A) :=
  fold_left (fun acc x => s <- acc ;; insert_sorted x s) l (Ok []).
End Sorted.

(** [a < b] on column labels: defined inside one type only. *)
Definition label_lt (a b : label) : result bool :=
  match a, b with
  | LStr s, LStr t => Ok (String.ltb s t)
  | LInt x, LInt y => Ok (Z.ltb x y)
  | _, _ => Raise TypeError
  end.

(** What [read_financials] returns for one path: [None], or the sheets
    of the workbook by name. *)
Definition workbook : Type := option (dict DataFrame).

(** ** Sample data *)

(** A text parser that recognises no number. *)
Definition no_number (s : string) : option Q := None.

(** A statement in which one label occurs on two rows. *)
Definition duplicate_rows : DataFrame :=
  mkDF [Field; LInt 2024]
       [[CStr "Revenue from operations"; CNum 5];
        [CStr "Revenue from operations"; CNum 7]].

(** Statements whose year column is the int 2024. *)
Definition income_2024 : DataFrame :=
  mkDF [Field; LInt 2024]
       [[CStr "Profit/(Loss) for the year"; CNum 100];
        [CStr "Revenue from operations"; CNum 1000]].

Definition balance_2024 : DataFrame :=
  mkDF [Field; LInt 2024]
       [[CStr "Current assets"; CNum 200];
        [CStr "Current liabilities"; CNum 0]].

Definition financials_2024 : dict DataFrame :=
  [("Income Statement", income_2024); ("Balance Sheet", balance_2024)].

(** The ratios of a year closed with a loss. *)
Definition loss_ratios : dict Q :=
  [("Net Profit Margin", (-1 # 2)%Q);
   ("Return on Assets (ROA)", (-1 # 10)%Q);
   ("Debt to Equity Ratio", 1%Q);
   ("Current Ratio", 1%Q);
   ("Gross Margin", (1 # 5)%Q);
   ("Quick Ratio", (1 # 2)%Q)].


(** Ratios at or beyond every threshold of the scorer. *)
Definition capped_ratios : dict Q :=
  [("Net Profit Margin", (1 # 10)%Q);
   ("Return on Assets (ROA)", (1 # 5)%Q);
   ("Debt to Equity Ratio", 4%Q);
   ("Current Ratio", 2%Q);
   ("Gross Margin", (2 # 5)%Q);
   ("Quick Ratio", (3 # 2)%Q)].

(** A workbook whose year headers are the number 2023 and the text
    "FY22". *)
Definition mixed_income : DataFrame :=
  mkDF [Field; LInt 2023; LStr "FY22"]
       [[CStr "Revenue from operations"; CNum 1000; CNum 900];
        [CStr "Profit/(Loss) for the year"; CNum 100; CNum 90]].

Definition mixed_balance : DataFrame :=
  mkDF [Field; LInt 2023; LStr "FY22"]
       [[CStr "Current assets"; CNum 200; CNum 180];
        [CStr "Current liabilities"; CNum 100; CNum 90];
        [CStr "Equity"; CNum 500; CNum 450]].

Definition mixed_workbook : workbook :=
  Some [("Income Statement", mixed_income); ("Balance Sheet", mixed_balance)].

(** An insight requester that always answers. *)
Definition fixed_insights (ratios sub_scores : dict Q) (overall : Q) : result string :=
  Ok "advice".

Definition class_name (e : exn) : string :=
  match e with
  | KeyError => "KeyError"
  | AttributeError => "AttributeError"
  | TypeError => "TypeError"
  | ValueError => "ValueError"
  | ZeroDivisionError => "ZeroDivisionError"
  end.



(** Two sheets whose label differs by surrounding blanks only. *)
Definition padded_income : DataFrame :=
  mkDF [Field; LInt 2024] [[CStr " Revenue "; CNum 10]].

Definition plain_income : DataFrame :=
  mkDF [Field; LInt 2024] [[CStr "Revenue"; CNum 7]].

Definition padded_workbook : workbook :=
  Some [("Income Statement", padded_income); ("Balance Sheet", balance_2024)].

Definition plain_workbook : workbook :=
  Some [("Income Statement", plain_income); ("Balance Sheet", balance_2024)].

(** A sheet with its header row and no data row. *)
Definition header_only : DataFrame := mkDF [Field; LInt 2024] [].

Definition header_only_workbook : workbook :=
  Some [("Income Statement", header_only); ("Balance Sheet", balance_2024)].

(** Two workbooks that report different years. *)
Definition income_2023 : DataFrame :=
  mkDF [Field; LInt 2023] [[CStr "Revenue from operations"; CNum 900]].

Definition balance_2023 : DataFrame :=
  mkDF [Field; LInt 2023] [[CStr "Equity"; CNum 400]].

Definition workbook_2023 : workbook :=
  Some [("Income Statement", income_2023); ("Balance Sheet", balance_2023)].

Definition workbook_2024 : workbook :=
  Some [("Income Statement", income_2024); ("Balance Sheet", balance_2024)].




(** A workbook whose year headers are text cells. *)
Definition text_year_income : DataFrame :=
  mkDF [Field; LStr "2023"; LStr "2024"]
       [[CStr "Revenue from operations"; CNum 900; CNum 1000];
        [CStr "Profit/(Loss) for the year"; CNum 90; CNum 100]].

Definition text_year_balance : DataFrame :=
  mkDF [Field; LStr "2023"; LStr "2024"]
       [[CStr "Current assets"; CNum 180; CNum 200];
        [CStr "Current liabilities"; CNum 90; CNum 100];
        [CStr "Equity"; CNum 400; CNum 500]].

Definition text_year_workbook : workbook :=
  Some [("Income Statement", text_year_income); ("Balance Sheet", text_year_balance)].

(** A workbook whose first year header is the text [nan]. *)
Definition nan_header_income : DataFrame :=
  mkDF [Field; LStr "nan"; LStr "2024"]
       [[CStr "Revenue from operations"; CNum 900; CNum 1000];
        [CStr "Profit/(Loss) for the year"; CNum 90; CNum 100]].

Definition nan_header_balance : DataFrame :=
  mkDF [Field; LStr "nan"; LStr "2024"]
       [[CStr "Current assets"; CNum 180; CNum 200];
        [CStr "Current liabilities"; CNum 90; CNum 100];
        [CStr "Equity"; CNum 400; CNum 500]].

Definition nan_header_workbook : workbook :=
  Some [("Income Statement", nan_header_income); ("Balance Sheet", nan_header_balance)].





(** ** The ratio formulas in binary64

    The arithmetic of [compute_ratios] on the numbers that [get_value]
    returns, done as the interpreter does it on float64 values. *)
Module Binary64.
Import PrimFloat.

(** [(a / b) if b != 0 else 0] *)
Definition guarded_ratio (a b : float) : float :=
  if negb (b =? 0)%float then (a / b)%float else 0%float.

(** The last part of [compute_ratios]; [income name] and
    [balance name] stand for [get_value(income, name, latest_year)] and
    [get_value(balance, name, latest_year)]. *)
Definition ratio_set (income balance : string -> float) : list (string * float) :=
  let revenue := income "Revenue from operations" in
  let net_profit := income "Profit/(Loss) for the year" in
  let cogs_materials := income "Cost of materials consumed" in
  let cogs_purchases := income "Purchases of stock-in-trade" in
  let cogs_changes :=
    income "Changes in inventories of goods, work-in-progress and stock-in-trade" in
  let current_assets := balance "Current assets" in
  let non_current_assets := balance "Non-current assets" in
  let total_assets := (current_assets + non_current_assets)%float in
  let current_liabilities := balance "Current liabilities" in
  let nc_borrowings := balance "Borrowings, non-current" in
  let c_borrowings := balance "Borrowings, current" in
  let total_debt := (nc_borrowings + c_borrowings)%float in
  let total_equity := balance "Equity" in
  let inventories := balance "Inventories" in
  let net_profit_margin := guarded_ratio net_profit revenue in
  let roa := guarded_ratio net_profit total_assets in
  let debt_to_equity := guarded_ratio total_debt total_equity in
  let current_ratio := guarded_ratio current_assets current_liabilities in
  let total_cogs := (cogs_materials + cogs_purchases + cogs_changes)%float in
  let gross_profit := (revenue - total_cogs)%float in
  let gross_margin := guarded_ratio gross_profit revenue in
  let quick_assets := (current_assets - inventories)%float in
  let quick_ratio := guarded_ratio quick_assets current_liabilities in
  [("Net Profit Margin", net_profit_margin);
   ("Return on Assets (ROA)", roa);
   ("Debt to Equity Ratio", debt_to_equity);
   ("Current Ratio", current_ratio);
   ("Gross Margin", gross_margin);
   ("Quick Ratio", quick_ratio)].



End Binary64.

(** ** Floats

    A Python float as far as [run_analysis] looks at it: a finite
    value, an infinity or NaN, with the comparisons of IEEE 754. *)
Inductive pyfloat : Type :=
| FNum (q : Q)
| FInf
| FNegInf
| FNaN.

(** [a > b]: false as soon as one side is NaN. *)
Definition float_gt (a b : pyfloat) : bool :=
  match a, b with
  | FNaN, _ => false
  | _, FNaN => false
  | FNegInf, _ => false
  | _, FInf => false
  | FInf, _ => true
  | FNum _, FNegInf => true
  | FNum x, FNum y => negb (Qle_bool x y)
  end.

(** [a == b]: NaN is equal to nothing, not even to itself. *)
Definition float_eq (a b : pyfloat) : bool :=
  match a, b with
  | FNum x, FNum y => Qeq_bool x y
  | FInf, FInf => true
  | FNegInf, FNegInf => true
  | _, _ => false
  end.

(** A float object: its identity and its value. *)
Definition float_obj : Type := (nat * pyfloat)%type.

(** Two keys of a dict are the same key when they are the same object
    or have equal values. *)
Definition same_key (a b : float_obj) : bool :=
  Nat.eqb (fst a) (fst b) || float_eq (snd a) (snd b).

(** A reading of [float(s)] for the year labels of the examples:
    decimal integers, which floats hold exactly up to 2^53, and the
    text [nan]. *)
Definition year_float (s : string) : option pyfloat :=
  if String.eqb s "nan" then Some FNaN
  else option_map (fun z => FNum (inject_Z z)) (int_ascii s).

(** [int(s)] outside ASCII, for examples whose year labels are ASCII. *)
Definition no_unicode_int (s : string) : option Z := None.

(** ** The pipeline *)

Section Pipeline.

(** [int(s)] on text that holds a character outside ASCII, where the
    blanks and the decimal digits of every script count; [None] when it
    raises [ValueError]. *)
Variable int_unicode : string -> option Z.

(** [int(s)] for a string [s]; [None] stands for [ValueError]. *)
Definition py_int (s : string) : option Z :=
  if is_ascii s then int_ascii s else int_unicode s.

(** [int(x)] on a label: an int is returned as it is, a string is parsed. *)
Definition label_int (l : label) : option Z :=
  match l with
  | LStr s => py_int s
  | LInt z => Some z
  end.

(** [float(s)] on text; [None] when it raises [ValueError]. *)
Variable py_float : string -> option pyfloat.

(** [pd.to_numeric(s, errors="coerce")] on text; [None] is NaN. *)
Variable to_numeric_text : string -> option Q.

(** [generate_ai_insights], the call to the external service. *)
Variable generate_ai_insights : dict Q -> dict Q -> Q -> result string.

(** [str(e)], the interpreter's text for an exception. *)
Variable exn_text : exn -> string.

(** *** Consolidation *)

(** The loop of [consolidate_financials] over the files: the sheets
    collected so far for both statements. *)
Definition collect_step (acc : list DataFrame * list DataFrame) (sheets : workbook)
  : list DataFrame * list DataFrame :=
  match sheets with
  | None => acc
  | Some sh =>
      let income :=
        match dict_find sh "Income Statement" with
        | Some df => fst acc ++ [df]
        | None => fst acc
        end in
      let balance :=
        match dict_find sh "Balance Sheet" with
        | Some df => snd acc ++ [df]
        | None => snd acc
        end in
      (income, balance)
  end.

Definition collect_sheets (files : list workbook) : list DataFrame * list DataFrame :=
  fold_left collect_step files ([], []).

(** One more label of the union: appended unless already there. *)
Definition add_label (acc : list label) (c : label) : list label :=
  if existsb (label_eqb c) acc then acc else acc ++ [c].

(** The columns of [pd.concat(frames)]: every label, in the order of
    its first appearance. *)
Definition union_columns (frames : list DataFrame) : list label :=
  fold_left (fun acc df => fold_left add_label (columns df) acc) frames [].

(** The rows of a frame under the columns of the concatenation; a
    column the frame does not have is filled with NaN. *)
Definition reindex (cols : list label) (df : DataFrame) : list (list cell) :=
  map (fun r => map (cell_at (columns df) r) cols) (rows df).

(** [pd.concat(frames)] *)
Definition pd_concat (frames : list DataFrame) : result DataFrame :=
  match frames with
  | [] => Raise ValueError
  | _ =>
      let cols := union_columns frames in
      Ok (mkDF cols (flat_map (reindex cols) frames))
  end.

Definition is_text (c : cell) : bool :=
  match c with
  | CStr _ => true
  | _ => false
  end.

Definition is_numeric (c : cell) : bool :=
  match c with
  | CStr _ => false
  | _ => true
  end.

(** [Series.str.strip()]: the accessor is refused on a series that
    holds values but no text; an element that is not text becomes NaN. *)
Definition str_strip (cells : list cell) : result (list cell) :=
  match cells with
  | [] => Ok []
  | _ =>
      if existsb is_text cells
      then Ok (map (fun c => match c with CStr s => CStr (strip s) | _ => CNaN end) cells)
      else Raise AttributeError
  end.

Fixpoint set_column (i : nat) (vals : list cell) (rs : list (list cell))
  : list (list cell) :=
  match rs, vals with
  | r :: rt, v :: vt => set_nth i (fun _ => v) r :: set_column i vt rt
  | _, _ => rs
  end.

(** [df["Field"] = df["Field"].fillna("").str.strip()] *)
Definition normalize_field (df : DataFrame) : result DataFrame :=
  match col_index Field (columns df) with
  | None => Raise KeyError
  | Some i =>
      field <- column df Field ;;
      stripped <- str_strip (map fillna_empty field) ;;
      Ok (mkDF (columns df) (set_column i stripped (rows df)))
  end.

(** The group keys of [groupby("Field")]: the text labels, each once,
    in ascending order; a NaN key forms no group. *)
Fixpoint insert_key (k : string) (l : list string) : list string :=
  match l with
  | [] => [k]
  | y :: t =>
      match String.compare k y with
      | Lt => k :: y :: t
      | Eq => y :: t
      | Gt => y :: insert_key k t
      end
  end.

Definition text_of (c : cell) : list string :=
  match c with
  | CStr s => [s]
  | _ => []
  end.

Definition group_keys (field : list cell) : list string :=
  fold_left (fun acc c => fold_left (fun a k => insert_key k a) (text_of c) acc)
            field [].

(** Whether a column of a sheet, as [read_excel] returns it, has a
    numeric dtype: it has in a sheet with data rows whose cells in the
    column are numbers or missing; the columns of a sheet without data
    rows, like a column with a text cell, have dtype [object]. *)
Definition is_numeric_col (df : DataFrame) (l : label) : bool :=
  match rows df with
  | [] => false
  | _ => forallb (fun r => is_numeric (cell_at (columns df) r l)) (rows df)
  end.

(** The dtype test of [sum(numeric_only=True)] on [pd.concat(frames)].
    The concatenation takes the dtype of a column from the frames that
    have the column, and it is numeric when it is in each of them; a
    frame without the column adds missing cells only. *)
Definition concat_numeric (frames : list DataFrame) (l : label) : bool :=
  forallb (fun df => negb (in_columns l df) || is_numeric_col df l) frames.

Definition num_of (c : cell) : Q :=
  match c with
  | CNum q => q
  | _ => 0%Q
  end.

Definition field_is (name : string) (c : cell) : bool :=
  match c with
  | CStr s => String.eqb s name
  | _ => false
  end.

(** The sum of one column over the rows of one group, NaN skipped. *)
Definition group_sum (df : DataFrame) (k : string) (l : label) : Q :=
  py_sum (map (fun r => num_of (cell_at (columns df) r l))
              (filter (fun r => field_is k (cell_at (columns df) r Field)) (rows df))).

(** [df.groupby("Field").sum(numeric_only=True).reset_index()], given
    which columns of [df] have a numeric dtype. *)
Definition groupby_sum (numeric : label -> bool) (df : DataFrame) : result DataFrame :=
  field <- column df Field ;;
  let value_cols :=
    filter (fun l => negb (label_eqb l Field) && numeric l) (columns df) in
  Ok (mkDF (Field :: value_cols)
           (map (fun k => CStr k :: map (fun l => CNum (group_sum df k l)) value_cols)
                (group_keys field))).

(** Step 3 of [consolidate_financials] for one statement: [pd.concat],
    the normalisation of [Field], and the grouped sum.  The source has
    these three lines once for each of the two statements. *)
Definition consolidate_statement (frames : list DataFrame) : result DataFrame :=
  all <- pd_concat frames ;;
  all <- normalize_field all ;;
  groupby_sum (concat_numeric frames) all.

(** [consolidate_financials], over what [read_financials] gave for each
    path; [None] is the Python [None]. *)
Definition consolidate_financials (files : list workbook) : option (dict DataFrame) :=
  let data := collect_sheets files in
  match fst data, snd data with
  | [], _ => None
  | _, [] => None
  | income, balance =>
      match (final_income <- consolidate_statement income ;;
             final_balance <- consolidate_statement balance ;;
             Ok [("Income Statement", final_income); ("Balance Sheet", final_balance)])
      with
      | Ok d => Some d
      | Raise _ => None
      end
  end.

(** *** Ratios *)

(** [pd.to_numeric(val, errors="coerce")]; [None] is NaN. *)
Definition to_numeric (c : cell) : option Q :=
  match c with
  | CNum q => Some q
  | CNaN => None
  | CStr s => to_numeric_text s
  end.

(** [get_value], the helper nested in [compute_ratios] and, with the
    same body, in [analyze_trends]. *)
Definition get_value (df : DataFrame) (field_name : string) (year : label)
  : result Q :=
  field <- column df Field ;;
  values <- column df year ;;
  let matched :=
    map snd (filter (fun p => field_is field_name (fst p)) (combine field values)) in
  let val :=
    match matched with
    | v :: _ => v
    | [] => CNum 0
    end in
  Ok (match to_numeric val with
      | Some q => q
      | None => 0%Q
      end).

(** [(a / b) if b != 0 else 0] *)
Definition ratio_or_zero (a b : Q) : result Q :=
  if nonzero b then py_div a b else Ok 0%Q.

(** The validation of the fiscal year: the column label used, if any. *)
Definition resolve_year (income balance : DataFrame) (fiscal_year : label)
  : option label :=
  let year_str := label_str fiscal_year in
  let year_int := label_int fiscal_year in
  if in_columns (LStr year_str) income && in_columns (LStr year_str) balance
  then Some (LStr year_str)
  else
    match year_int with
    | Some z =>
        if in_columns (LInt z) income && in_columns (LInt z) balance
        then Some (LInt z)
        else None
    | None => None
    end.

Definition compute_ratios (financials : option (dict DataFrame)) (fiscal_year : label)
  : result (dict Q) :=
  match financials with
  | None => Ok []
  | Some fin =>
      match dict_find fin "Income Statement", dict_find fin "Balance Sheet" with
      | Some income, Some balance =>
          income <- update_column income Field fillna_empty ;;
          balance <- update_column balance Field fillna_empty ;;
          match resolve_year income balance fiscal_year with
          | None => Ok []
          | Some latest_year =>
              revenue <- get_value income "Revenue from operations" latest_year ;;
              net_profit <- get_value income "Profit/(Loss) for the year" latest_year ;;
              cogs_materials <- get_value income "Cost of materials consumed" latest_year ;;
              cogs_purchases <- get_value income "Purchases of stock-in-trade" latest_year ;;
              cogs_changes <-
                get_value income
                  "Changes in inventories of goods, work-in-progress and stock-in-trade"
                  latest_year ;;
              current_assets <- get_value balance "Current assets" latest_year ;;
              non_current_assets <- get_value balance "Non-current assets" latest_year ;;
              let total_assets := (current_assets + non_current_assets)%Q in
              current_liabilities <- get_value balance "Current liabilities" latest_year ;;
              nc_borrowings <- get_value balance "Borrowings, non-current" latest_year ;;
              c_borrowings <- get_value balance "Borrowings, current" latest_year ;;
              let total_debt := (nc_borrowings + c_borrowings)%Q in
              total_equity <- get_value balance "Equity" latest_year ;;
              inventories <- get_value balance "Inventories" latest_year ;;
              net_profit_margin <- ratio_or_zero net_profit revenue ;;
              roa <- ratio_or_zero net_profit total_assets ;;
              debt_to_equity <- ratio_or_zero total_debt total_equity ;;
              current_ratio <- ratio_or_zero current_assets current_liabilities ;;
              let total_cogs := (cogs_materials + cogs_purchases + cogs_changes)%Q in
              let gross_profit := (revenue - total_cogs)%Q in
              gross_margin <- ratio_or_zero gross_profit revenue ;;
              let quick_assets := (current_assets - inventories)%Q in
              quick_ratio <- ratio_or_zero quick_assets current_liabilities ;;
              Ok [("Net Profit Margin", net_profit_margin);
                  ("Return on Assets (ROA)", roa);
                  ("Debt to Equity Ratio", debt_to_equity);
                  ("Current Ratio", current_ratio);
                  ("Gross Margin", gross_margin);
                  ("Quick Ratio", quick_ratio)]
          end
      | _, _ => Ok []
      end
  end.

(** What [compute_ratios] leaves in the tables it was given: the
    [Field] column of both statements with NaN replaced by [""]. *)
Definition dict_set {V : Type} (d : dict V) (k : string) (v : V) : dict V :=
  map (fun kv => if String.eqb k (fst kv) then (fst kv, v) else kv) d.

Definition after_compute_ratios (fin : dict DataFrame) : dict DataFrame :=
  match dict_find fin "Income Statement", dict_find fin "Balance Sheet" with
  | Some income, Some balance =>
      match update_column income Field fillna_empty with
      | Ok income' =>
          let fin := dict_set fin "Income Statement" income' in
          match update_column balance Field fillna_empty with
          | Ok balance' => dict_set fin "Balance Sheet" balance'
          | Raise _ => fin
          end
      | Raise _ => fin
      end
  | _, _ => fin
  end.

(** *** Scores *)

Definition score_ratios (ratios : dict Q) : dict Q * Q :=
  match ratios with
  | [] => ([], 0%Q)
  | _ =>
      let sub_scores :=
        [("Profitability",
           ((dict_get ratios "Net Profit Margin" 0 * 100
             + dict_get ratios "Gross Margin" 0 * 100) / 2)%Q);
         ("Liquidity",
           ((py_min (dict_get ratios "Current Ratio" 0 / 2) 1 * 100
             + py_min (dict_get ratios "Quick Ratio" 0 / 1) 1 * 100) / 2)%Q);
         ("Leverage",
           ((1 - py_min (dict_get ratios "Debt to Equity Ratio" 0 / 3) 1) * 100)%Q);
         ("Efficiency",
           (py_min (dict_get ratios "Return on Assets (ROA)" 0 / (1 # 10)) 1 * 100)%Q)]
      in
      (sub_scores,
       (py_sum (dict_values sub_scores)
        / inject_Z (Z.of_nat (List.length sub_scores)))%Q)
  end.

(** *** Trends *)

(** The table [analyze_trends] returns: one column per year, one named
    row per metric.  [pd.DataFrame()] has neither. *)
Record TrendTable : Type := mkTrend {
  trend_years : list label;
  trend_rows : list (string * list Q)
}.

Definition empty_trend : TrendTable := mkTrend [] [].

(** [int(str(x))], with its [ValueError]. *)
Definition year_key (x : label) : result Z :=
  match label_int x with
  | Some z => Ok z
  | None => Raise ValueError
  end.

(** The [try] / [except ValueError] around the two calls of [sorted]. *)
Definition sort_years (years : list label) : result (list label) :=
  match mapM year_key years with
  | Ok keys =>
      s <- py_sorted (fun a b : Z * label => Ok (Z.ltb (fst a) (fst b)))
                     (combine keys years) ;;
      Ok (map snd s)
  | Raise ValueError => py_sorted label_lt years
  | Raise e => Raise e
  end.

Record TrendEntry : Type := mkEntry {
  entry_year : label;
  entry_revenue : Q;
  entry_net_profit : Q;
  entry_net_margin : Q
}.

Definition trend_entry (income : DataFrame) (year : label) : result TrendEntry :=
  revenue <- get_value income "Revenue from operations" year ;;
  pat <- get_value income "Profit/(Loss) for the year" year ;;
  margin <- (if nonzero revenue
             then q <- py_div pat revenue ;; Ok (q * 100)%Q
             else Ok 0%Q) ;;
  Ok (mkEntry year revenue pat margin).

Definition analyze_trends (financials : option (dict DataFrame)) : result TrendTable :=
  match financials with
  | None => Ok empty_trend
  | Some fin =>
      match dict_find fin "Income Statement" with
      | None => Ok empty_trend
      | Some income =>
          let years := filter (fun col => negb (label_eqb col Field)) (columns income) in
          match years with
          | [] => Ok empty_trend
          | _ =>
              sorted_years <- sort_years years ;;
              trend_data <- mapM (trend_entry income) sorted_years ;;
              match trend_data with
              | [] => Ok empty_trend
              | _ =>
                  Ok (mkTrend (map entry_year trend_data)
                        [("Revenue (in currency)", map entry_revenue trend_data);
                         ("Net Profit (in currency)", map entry_net_profit trend_data);
                         ("Net Margin (%)", map entry_net_margin trend_data)])
              end
          end
      end
  end.

(** *** The orchestrator *)

(** The values of the dict [run_analysis] returns. *)
Inductive value : Type :=
| VStr (s : string)
| VNum (q : Q)
| VDict (d : dict Q)
| VRecords (r : list (string * list (label * Q))).

(** [float(str(col))]; [None] when it raises. *)
Definition label_float (col : label) : option pyfloat := py_float (label_str col).

(** [numeric_years[k] = col]: an entry with the same key keeps its key
    object and takes the new value. *)
Fixpoint numeric_years_set (d : list (float_obj * label)) (k : float_obj) (col : label)
  : list (float_obj * label) :=
  match d with
  | [] => [(k, col)]
  | (k', v) :: t =>
      if same_key k k' then (k', col) :: t
      else (k', v) :: numeric_years_set t k col
  end.

Fixpoint numeric_years_get (d : list (float_obj * label)) (k : float_obj)
  : option label :=
  match d with
  | [] => None
  | (k', v) :: t => if same_key k k' then Some v else numeric_years_get t k
  end.

(** The loop that fills [numeric_years], from the column at position
    [i] on; the float made for the column at position [i] is the
    object [i]. *)
Fixpoint fill_numeric_years (i : nat) (year_columns : list label)
         (d : list (float_obj * label)) : list (float_obj * label) :=
  match year_columns with
  | [] => d
  | col :: rest =>
      fill_numeric_years (S i) rest
        match label_float col with
        | Some k => numeric_years_set d (i, k) col
        | None => d
        end
  end.

Definition numeric_years_of (year_columns : list label) : list (float_obj * label) :=
  fill_numeric_years 0 year_columns [].

(** [max(xs)] on a list that is not empty: the first item is the
    running maximum, and an item takes its place when it is greater. *)
Definition py_max (x : float_obj) (xs : list float_obj) : float_obj :=
  fold_left (fun cur y => if float_gt (snd y) (snd cur) then y else cur) xs x.

Definition error_result (msg : string) : dict value := [("error", VStr msg)].

Definition trend_records (t : TrendTable) : list (string * list (label * Q)) :=
  map (fun row => (fst row, combine (trend_years t) (snd row))) (trend_rows t).

(** Steps 2 to 6 of [run_analysis], once the fiscal year is detected. *)
Definition analyze_year (financials : dict DataFrame) (detected_fiscal_year : string)
  : result (dict value) :=
  ratios <- compute_ratios (Some financials) (LStr detected_fiscal_year) ;;
  let financials := after_compute_ratios financials in
  match ratios with
  | [] =>
      Ok (error_result
            ("Failed to compute ratios for auto-detected year '"
             ++ detected_fiscal_year ++ "'. Check data integrity."))
  | _ =>
      let scored := score_ratios ratios in
      trend_df <- analyze_trends (Some financials) ;;
      ai_insights <- generate_ai_insights ratios (fst scored) (snd scored) ;;
      Ok [("ratios", VDict ratios);
          ("sub_scores", VDict (fst scored));
          ("overall_score", VNum (snd scored));
          ("trends", VRecords (trend_records trend_df));
          ("ai_insights", VStr ai_insights);
          ("detected_fiscal_year", VStr detected_fiscal_year)]
  end.

(** The body of the [try] of [run_analysis], after consolidation. *)
Definition analyze_consolidated (financials : dict DataFrame) : result (dict value) :=
  match dict_find financials "Income Statement" with
  | None => Ok (error_result "Consolidated data is missing 'Income Statement' sheet.")
  | Some income_df =>
      let year_columns :=
        filter (fun col => negb (label_eqb col Field)) (columns income_df) in
      match year_columns with
      | [] => Ok (error_result "No fiscal year columns found in the consolidated data.")
      | _ =>
          let numeric_years := numeric_years_of year_columns in
          match map fst numeric_years with
          | [] =>
              Ok (error_result
                    "Could not detect any numeric fiscal year columns (e.g., 2023, 2024).")
          | k :: ks =>
              let latest_numeric_year := py_max k ks in
              match numeric_years_get numeric_years latest_numeric_year with
              | None => Raise KeyError
              | Some col => analyze_year financials (label_str col)
              end
          end
      end
  end.

Definition run_analysis (files : list workbook) : dict value :=
  match consolidate_financials files with
  | None =>
      error_result
        "Failed to read or consolidate financial data. Ensure files are valid .xlsx and contain 'Income Statement' and 'Balance Sheet' sheets."
  | Some financials =>
      match analyze_consolidated financials with
      | Ok r => r
      | Raise e =>
          error_result ("An error occurred during analysis: " ++ exn_text e
                        ++ ". Check the Excel file formats.")
      end
  end.

(** *** Specification-side definitions

    The definitions below follow the wording of the specification, or
    name the notions the statements need; the theorems compare them
    with the functions above. *)

(** The first row of a table whose [Field] cell is the text [name]. *)
Definition first_match (df : DataFrame) (name : string) : option (list cell) :=
  find (fun r => field_is name (cell_at (columns df) r Field)) (rows df).

(** The rows of a table whose [Field] cell is the text [name]. *)
Definition matching_rows (df : DataFrame) (name : string) : list (list cell) :=
  filter (fun r => field_is name (cell_at (columns df) r Field)) (rows df).

(** A cell read as a number, 0 when it is missing or not numeric. *)
Definition cell_value (c : cell) : Q :=
  match to_numeric c with
  | Some q => q
  | None => 0%Q
  end.

(** The line item [name] of a statement for a year column. *)
Definition line_item (df : DataFrame) (name : string) (year : label) : Q :=
  match first_match df name with
  | Some r => cell_value (cell_at (columns df) r year)
  | None => 0%Q
  end.

(** [a / b], and 0 when [b] is 0. *)
Definition guarded_ratio (a b : Q) : Q :=
  if Qeq_bool b 0 then 0%Q else (a / b)%Q.

(** A statement with its missing [Field] labels replaced by [""]. *)
Definition filled (df : DataFrame) : DataFrame :=
  match update_column df Field fillna_empty with
  | Ok df' => df'
  | Raise _ => df
  end.

(** The ratio set in the words of the specification. *)
Definition ratio_set (income balance : DataFrame) (year : label) : dict Q :=
  let revenue := line_item income "Revenue from operations" year in
  let net_profit := line_item income "Profit/(Loss) for the year" year in
  let total_cogs :=
    (line_item income "Cost of materials consumed" year
     + line_item income "Purchases of stock-in-trade" year
     + line_item income
         "Changes in inventories of goods, work-in-progress and stock-in-trade" year)%Q in
  let current_assets := line_item balance "Current assets" year in
  let total_assets := (current_assets + line_item balance "Non-current assets" year)%Q in
  let current_liabilities := line_item balance "Current liabilities" year in
  let total_debt :=
    (line_item balance "Borrowings, non-current" year
     + line_item balance "Borrowings, current" year)%Q in
  let total_equity := line_item balance "Equity" year in
  let inventories := line_item balance "Inventories" year in
  [("Net Profit Margin", guarded_ratio net_profit revenue);
   ("Return on Assets (ROA)", guarded_ratio net_profit total_assets);
   ("Debt to Equity Ratio", guarded_ratio total_debt total_equity);
   ("Current Ratio", guarded_ratio current_assets current_liabilities);
   ("Gross Margin", guarded_ratio (revenue - total_cogs) revenue);
   ("Quick Ratio", guarded_ratio (current_assets - inventories) current_liabilities)].


(** A label is a column of both statements. *)
Definition in_both (income balance : DataFrame) (l : label) : bool :=
  in_columns l income && in_columns l balance.

(** The sub-scores and the overall score in the words of the
    specification. *)
Definition spec_profitability (net_profit_margin gross_margin : Q) : Q :=
  ((net_profit_margin * 100 + gross_margin * 100) / 2)%Q.

Definition spec_liquidity (current_ratio quick_ratio : Q) : Q :=
  ((Qmin (current_ratio / 2) 1 * 100 + Qmin (quick_ratio / 1) 1 * 100) / 2)%Q.

Definition spec_leverage (debt_to_equity : Q) : Q :=
  ((1 - Qmin (debt_to_equity / 3) 1) * 100)%Q.

Definition spec_efficiency (roa : Q) : Q :=
  (Qmin (roa / (1 # 10)) 1 * 100)%Q.

Definition spec_mean4 (a b c d : Q) : Q := ((a + b + c + d) / 4)%Q.


(** The year columns of a statement: every column but [Field]. *)
Definition year_columns_of (income : DataFrame) : list label :=
  filter (fun col => negb (label_eqb col Field)) (columns income).

(** [a <= b] *)
Definition float_le (a b : pyfloat) : bool :=
  match a, b with
  | FNaN, _ => false
  | _, FNaN => false
  | FNegInf, _ => true
  | _, FInf => true
  | FInf, _ => false
  | FNum _, FNegInf => false
  | FNum x, FNum y => Qle_bool x y
  end.

(** [y] is the text of a year column that parses as a number and whose
    number is the largest among the year columns that parse. *)
Definition is_latest_year (year_columns : list label) (y : string) : Prop :=
  exists col k,
    In col year_columns /\ y = label_str col /\ label_float col = Some k /\
    forall col' k', In col' year_columns -> label_float col' = Some k' ->
                    float_le k' k = true.





(** Consolidation in the words of the specification: over the rows
    collected from the sheets, each row with the columns of its sheet. *)
Definition collected (frames : list DataFrame) : list (list label * list cell) :=
  flat_map (fun df => map (fun r => (columns df, r)) (rows df)) frames.

Definition row_cell (cr : list label * list cell) (l : label) : cell :=
  cell_at (fst cr) (snd cr) l.

(** The [Field] label after [fillna("")] and [str.strip()]. *)
Definition norm_label (c : cell) : cell :=
  match fillna_empty c with
  | CStr s => CStr (strip s)
  | _ => CNaN
  end.

(** The group a collected row belongs to: its trimmed label, [""] when
    the label is missing; a row whose label is a number is in no group. *)
Definition row_label (cr : list label * list cell) : option string :=
  match row_cell cr Field with
  | CStr s => Some (strip s)
  | CNaN => Some ""
  | CNum _ => None
  end.

Definition in_group (k : string) (cr : list label * list cell) : bool :=
  match row_label cr with
  | Some s => String.eqb s k
  | None => false
  end.

(** The number a cell adds to a sum: a missing cell adds none. *)
Definition cell_amount (c : cell) : list Q :=
  match c with
  | CNum q => [q]
  | CNaN => []
  | CStr _ => []
  end.

(** The numbers found in a column over the rows of a group, in the
    order of the collected rows. *)
Definition group_amounts (frames : list DataFrame) (k : string) (l : label) : list Q :=
  flat_map (fun cr => cell_amount (row_cell cr l)) (filter (in_group k) (collected frames)).

(** The sum of a column over a group. *)
Definition spec_sum (frames : list DataFrame) (k : string) (l : label) : Q :=
  py_sum (group_amounts frames k l).


(** The same as a test. *)
Definition numeric_column (frames : list DataFrame) (l : label) : bool :=
  forallb (fun df =>
             if in_columns l df
             then match rows df with
                  | [] => false
                  | _ => forallb (fun r => match cell_at (columns df) r l with
                                           | CStr _ => false
                                           | _ => true
                                           end) (rows df)
                  end
             else true)
          frames.

Definition spec_value_columns (frames : list DataFrame) : list label :=
  filter (fun l => negb (label_eqb l Field) && numeric_column frames l)
         (union_columns frames).

Definition spec_keys (frames : list DataFrame) : list string :=
  group_keys (map (fun cr => norm_label (row_cell cr Field)) (collected frames)).

Definition spec_statement (frames : list DataFrame) : DataFrame :=
  mkDF (Field :: spec_value_columns frames)
       (map (fun k => CStr k
                      :: map (fun l => CNum (spec_sum frames k l))
                             (spec_value_columns frames))
            (spec_keys frames)).

(** Some collected label is text or missing, or there is no row: the
    condition under which the [.str] accessor is accepted. *)
Definition labels_usable (frames : list DataFrame) : bool :=
  match collected frames with
  | [] => true
  | _ => existsb (fun cr => is_text (fillna_empty (row_cell cr Field))) (collected frames)
  end.

(** A sheet with a [Field] column whose labels are text or missing. *)
Definition sheet_ok (df : DataFrame) : bool :=
  in_columns Field df
  && forallb (fun r => match cell_at (columns df) r Field with
                       | CNum _ => false
                       | _ => true
                       end) (rows df).

Definition string_lt (a b : string) : Prop := String.compare a b = Lt.

(** A collected row after concatenation and normalisation of its label,
    [i] being the position of [Field]. *)
Definition normalized_row (cols : list label) (i : nat) (cr : list label * list cell)
  : list cell :=
  set_nth i norm_label (map (row_cell cr) cols).


(** The sheets of one name that the readable workbooks hold. *)
Definition sheets_named (name : string) (files : list workbook) : list DataFrame :=
  flat_map (fun f : workbook =>
              match f with
              | Some sh =>
                  match dict_find sh name with
                  | Some df => [df]
                  | None => []
                  end
              | None => []
              end) files.

(** Two statements consolidated from the same sheets taken in two
    orders: the same columns up to their order, the same labels row by
    row, and under every other column the sum of the same numbers,
    added in the order of the sheets. *)
Definition same_sums (frames frames' : list DataFrame) (a b : DataFrame) : Prop :=
  Permutation (columns a) (columns b) /\
  Forall2 (fun ra rb =>
             exists k,
               cell_at (columns a) ra Field = CStr k /\
               cell_at (columns b) rb Field = CStr k /\
               forall l, l <> Field -> In l (columns a) ->
                 cell_at (columns a) ra l = CNum (py_sum (group_amounts frames k l)) /\
                 cell_at (columns b) rb l = CNum (py_sum (group_amounts frames' k l)) /\
                 Permutation (group_amounts frames k l) (group_amounts frames' k l))
          (rows a) (rows b).


(** The two orders of the trend columns: by the integer a label
    parses to, and by the text of a label. *)
Definition year_le (a b : label) : Prop :=
  match label_int a, label_int b with
  | Some x, Some y => (x <= y)%Z
  | _, _ => False
  end.

Definition text_le (a b : label) : Prop :=
  match a, b with
  | LStr s, LStr t => String.ltb t s = false
  | _, _ => False
  end.

Definition is_text_label (l : label) : bool :=
  match l with
  | LStr _ => true
  | LInt _ => false
  end.

Definition is_int_label (l : label) : bool := negb (is_text_label l).

(** [a < b] on labels that are both text. *)
Definition text_ltb (a b : label) : bool :=
  match a, b with
  | LStr s, LStr t => String.ltb s t
  | _, _ => false
  end.

(** The step of the loop inside [py_sorted], for labels. *)
Definition sort_step (acc : result (list label)) (x : label) : result (list label) :=
  s <- acc ;; insert_sorted label_lt x s.

(** [a] may stand before [b] in a sorted list: [b] is not smaller. *)
Definition not_after {A : Type} (ltb : A -> A -> bool) (a b : A) : Prop :=
  ltb b a = false.

(** [(pat / revenue * 100) if revenue != 0 else 0] *)
Definition trend_margin (revenue pat : Q) : Q :=
  if Qeq_bool revenue 0 then 0%Q else (pat / revenue * 100)%Q.

(** The trend table of an Income Statement for its year columns in a
    given order. *)
Definition trend_table_of (income : DataFrame) (ys : list label) : TrendTable :=
  mkTrend ys
    [("Revenue (in currency)", map (line_item income "Revenue from operations") ys);
     ("Net Profit (in currency)", map (line_item income "Profit/(Loss) for the year") ys);
     ("Net Margin (%)",
      map (fun y => trend_margin (line_item income "Revenue from operations" y)
                                 (line_item income "Profit/(Loss) for the year" y)) ys)].


(** *** The upload endpoint ([backend/server.py])

    The endpoint is embedded with its environment made explicit: the
    files on disk are a finite map from paths to contents, threaded
    through the handler; the library calls whose result the code does
    not determine are parameters. *)

(** [werkzeug.utils.secure_filename] *)
Variable secure_filename : string -> string.

(** [pd.read_excel(path, sheet_name=None)] on the contents of a file;
    [None] when it raises. *)
Variable read_excel : string -> option (dict DataFrame).

(** [file.save(path)]: the text of the exception it raises for a path,
    [None] when the file is written. *)
Variable save_error : string -> option string.

(** What a [file.save(path)] that raises leaves at the path, for the
    path and the contents being saved: [None] when the path was not
    opened for writing, otherwise what was written before the
    exception. *)
Variable save_leaves : string -> string -> option string.

(** [jsonify(result)] on the result of an analysis: the text of the
    exception it raises, [None] when the result is serialised. *)
Variable jsonify_error : dict value -> option string.

(** The files on disk; the first binding of a path is the file. *)
Definition file_system : Type := list (string * string).

Definition os_path_exists (fs : file_system) (path : string) : bool :=
  match dict_find fs path with
  | Some _ => true
  | None => false
  end.

(** [os.remove] of a file that exists; it is taken to succeed. *)
Definition os_remove (fs : file_system) (path : string) : file_system :=
  filter (fun kv => negb (String.eqb path (fst kv))) fs.

(** Writing a file creates it or replaces its contents. *)
Definition fs_write (fs : file_system) (path data : string) : file_system :=
  (path, data) :: os_remove fs path.

(** [read_financials]: a missing file and a file that cannot be parsed
    both give [None]. *)
Definition read_financials (fs : file_system) (file_path : string) : workbook :=
  match dict_find fs file_path with
  | Some data => read_excel data
  | None => None
  end.

Definition UPLOAD_FOLDER : string := "uploads".
Definition ALLOWED_EXTENSIONS : list string := ["xlsx"].
Definition MAX_FILES : nat := 5.

(** [str.lower] on the ASCII range. *)
Definition lower_char (c : ascii) : ascii :=
  let n := nat_of_ascii c in
  if ((65 <=? n) && (n <=? 90))%nat then ascii_of_nat (n + 32) else c.

Fixpoint lower (s : string) : string :=
  match s with
  | EmptyString => EmptyString
  | String c r => String (lower_char c) (lower r)
  end.

(** ["." in s] *)
Fixpoint contains_dot (s : string) : bool :=
  match s with
  | EmptyString => false
  | String c r => Ascii.eqb c "." || contains_dot r
  end.

(** The split of a string at its last dot, if it has one. *)
Fixpoint split_last_dot (s : string) : option (string * string) :=
  match s with
  | EmptyString => None
  | String c r =>
      match split_last_dot r with
      | Some (h, t) => Some (String c h, t)
      | None => if Ascii.eqb c "." then Some (EmptyString, r) else None
      end
  end.

(** [s.rsplit(".", 1)] *)
Definition rsplit_dot (s : string) : list string :=
  match split_last_dot s with
  | Some (h, t) => [h; t]
  | None => [s]
  end.

(** [allowed_file]; the index 1 is only read behind the test for a
    dot, where it exists. *)
Definition allowed_file (filename : string) : bool :=
  contains_dot filename
  && match nth_error (rsplit_dot filename) 1 with
     | Some ext => existsb (String.eqb (lower ext)) ALLOWED_EXTENSIONS
     | None => false
     end.

(** [os.path.join(folder, name)] with the POSIX separator. *)
Definition os_path_join (folder name : string) : string :=
  match name with
  | String "/" _ => name
  | _ =>
      match folder with
      | EmptyString => name
      | _ => if String.eqb (substring (String.length folder - 1) 1 folder) "/"
             then folder ++ name
             else folder ++ "/" ++ name
      end
  end.

(** An uploaded file: its name as sent and its contents. *)
Record FileStorage : Type := mkFile {
  filename : string;
  stream : string
}.

Record response : Type := mkResponse {
  status : nat;
  body : dict value
}.

(** How the loop over the uploaded files ends. *)
Inductive upload_outcome : Type :=
| AllSaved
| NotAllowed
| SaveRaised (msg : string).

(** The loop that checks and saves the uploaded files; it returns the
    files on disk and [file_paths] as they are when it ends.  A path
    is appended to [file_paths] only after [file.save] has returned:
    what a failing [file.save] wrote is on disk, its path is not in
    the list. *)
Fixpoint save_uploads (fs : file_system) (files : list FileStorage)
         (file_paths : list string)
  : file_system * list string * upload_outcome :=
  match files with
  | [] => (fs, file_paths, AllSaved)
  | file :: rest =>
      if negb (String.eqb (filename file) "") && allowed_file (filename file)
      then
        let name := secure_filename (filename file) in
        let file_path := os_path_join UPLOAD_FOLDER name in
        match save_error file_path with
        | Some msg =>
            (match save_leaves file_path (stream file) with
             | Some written => fs_write fs file_path written
             | None => fs
             end, file_paths, SaveRaised msg)
        | None =>
            save_uploads (fs_write fs file_path (stream file)) rest
                         (file_paths ++ [file_path])
        end
      else (fs, file_paths, NotAllowed)
  end.

(** The [finally] clause. *)
Definition remove_uploads (fs : file_system) (file_paths : list string)
  : file_system :=
  fold_left (fun fs fp => if os_path_exists fs fp then os_remove fs fp else fs)
            file_paths fs.

(** ["error" in result] *)
Definition has_error (result : dict value) : bool :=
  match dict_find result "error" with
  | Some _ => true
  | None => false
  end.

(** [analyze_file]: [request_files] is the list under the key ["file"]
    of [request.files], [None] when the key is absent.  The handler
    returns the files on disk after the request and the response. *)
Definition analyze_file (fs : file_system) (request_files : option (list FileStorage))
  : file_system * response :=
  match request_files with
  | None => (fs, mkResponse 400 (error_result "No file part in the request"))
  | Some files =>
      if match files with
         | [] => true
         | first :: _ => String.eqb (filename first) ""
         end
      then (fs, mkResponse 400 (error_result "No files selected"))
      else if (MAX_FILES <? List.length files)%nat
      then (fs, mkResponse 400
                  (error_result ("You can upload a maximum of "
                                 ++ py_str_int (Z.of_nat MAX_FILES) ++ " files.")))
      else
        let '(fs1, file_paths, outcome) := save_uploads fs files [] in
        let resp :=
          match outcome with
          | NotAllowed =>
              mkResponse 400
                (error_result "File type not allowed. Please upload only .xlsx files")
          | SaveRaised msg =>
              mkResponse 500 (error_result ("An internal error occurred: " ++ msg))
          | AllSaved =>
              let result := run_analysis (map (read_financials fs1) file_paths) in
              match jsonify_error result with
              | Some msg =>
                  mkResponse 500 (error_result ("An internal error occurred: " ++ msg))
              | None =>
                  if has_error result then mkResponse 500 result
                  else mkResponse 200 result
              end
          end in
        (remove_uploads fs1 file_paths, resp)
  end.

(** The path under which the handler saves an uploaded file. *)
Definition upload_path (file : FileStorage) : string :=
  os_path_join UPLOAD_FOLDER (secure_filename (filename file)).

(** The contents that the path [p] holds once all of [files] are
    saved: those of the last file saved under [p]. *)
Fixpoint last_saved (files : list FileStorage) (p : string) : option string :=
  match files with
  | [] => None
  | file :: rest =>
      match last_saved rest p with
      | Some data => Some data
      | None => if String.eqb p (upload_path file) then Some (stream file) else None
      end
  end.


(** What a request leaves on disk at the path [q], given what was
    there before: nothing under the paths of the files it saved, what
    a failing save wrote under its path, and what was there before
    elsewhere. *)
Definition left_on_disk (before : option string) (saved : list string)
           (leftover : option (string * string)) (q : string) : option string :=
  if existsb (String.eqb q) saved then None
  else match leftover with
       | Some (p, written) => if String.eqb q p then Some written else before
       | None => before
       end.

(** What the analysis reads for an uploaded file: the workbook parsed
    from the contents last saved under its path. *)
Definition uploaded_workbook (files : list FileStorage) (file : FileStorage)
  : workbook :=
  match last_saved files (upload_path file) with
  | Some data => read_excel data
  | None => None
  end.

(** A request that passes every check of the handler: one to
    [MAX_FILES] files, each with an allowed name, each written without
    an exception. *)
Definition accepted (files : list FileStorage) : Prop :=
  files <> [] /\ (List.length files <= MAX_FILES)%nat /\
  forall f, In f files ->
    allowed_file (filename f) = true /\ save_error (upload_path f) = None.

(** The response to a request whose analysis gave [result]. *)
Definition analysis_response (result : dict value) : response :=
  match jsonify_error result with
  | Some msg => mkResponse 500 (error_result ("An internal error occurred: " ++ msg))
  | None => if has_error result then mkResponse 500 result else mkResponse 200 result
  end.


(** Sample uploads: two files sent under one name, a parser that
    knows three contents, and a sanitiser that keeps the name. *)
Definition same_name_uploads : list FileStorage :=
  [mkFile "report.xlsx" "year 2023"; mkFile "report.xlsx" "year 2024"].

Definition sample_read_excel (data : string) : option (dict DataFrame) :=
  if String.eqb data "year 2023" then workbook_2023
  else if String.eqb data "year 2024" then workbook_2024
  else if String.eqb data "years as text" then text_year_workbook
  else None.

Definition text_year_uploads : list FileStorage :=
  [mkFile "report.xlsx" "years as text"].

Definition keep_name (name : string) : string := name.

(** A disk on which every write succeeds. *)
Definition save_succeeds (path : string) : option string := None.

Definition nothing_written (path data : string) : option string := None.

(** A disk that is full when the second file is written, after half
    of it. *)
Definition two_uploads : list FileStorage :=
  [mkFile "first.xlsx" "year 2023"; mkFile "second.xlsx" "year 2024"].

Definition full_on_second (path : string) : option string :=
  if String.eqb path "uploads/second.xlsx"
  then Some "[Errno 28] No space left on device"
  else None.

Definition half_written (path data : string) : option string :=
  Some (substring 0 (Nat.div (String.length data) 2) data).

(** [jsonify] as Flask provides it: the keys of every dict are sorted
    before it is written.  A trend record has the text key ["Metric"]
    beside its years, so sorting its keys raises [TypeError] as soon
    as a year is an integer; every other dict of a result has text
    keys only. *)
Definition flask_jsonify_error (result : dict value) : option string :=
  if existsb (fun v => match v with
                       | VRecords records =>
                           existsb (fun record =>
                                      existsb (fun kv => is_int_label (fst kv))
                                              (snd record))
                                   records
                       | _ => false
                       end)
             (dict_values result)
  then Some "'<' not supported between instances of 'int' and 'str'"
  else None.


(** ** Facts about tables *)

Lemma label_eqb_eq (a b : label) : label_eqb a b = true <-> a = b.
Proof.
  destruct a, b; simpl; split; intros H; try discriminate.
  - apply String.eqb_eq in H. now subst.
  - injection H as ->. apply String.eqb_refl.
  - apply Z.eqb_eq in H. now subst.
  - injection H as ->. apply Z.eqb_refl.
Qed.

Lemma label_eqb_refl (a : label) : label_eqb a a = true.
Proof. now apply label_eqb_eq. Qed.

Lemma col_index_in (l : label) (cols : list label) :
  existsb (label_eqb l) cols = true <-> exists i, col_index l cols = Some i.
Proof.
  induction cols as [|c t IH]; simpl.
  - split; [discriminate | intros [i H]; discriminate].
  - destruct (label_eqb l c); simpl.
    + split; eauto.
    + rewrite IH. split; intros [i H].
      * exists (S i). now rewrite H.
      * destruct (col_index l t); [eauto | discriminate].
Qed.

Lemma col_index_none (l : label) (cols : list label) :
  existsb (label_eqb l) cols = false <-> col_index l cols = None.
Proof.
  split; intros E.
  - destruct (col_index l cols) as [i|] eqn:C; [|reflexivity].
    assert (existsb (label_eqb l) cols = true) by (apply col_index_in; eauto).
    congruence.
  - destruct (existsb (label_eqb l) cols) eqn:X; [|reflexivity].
    apply col_index_in in X as [i X]. congruence.
Qed.

Lemma column_cells (df : DataFrame) (l : label) :
  in_columns l df = true ->
  column df l = Ok (map (fun r => cell_at (columns df) r l) (rows df)).
Proof.
  unfold in_columns, column, cell_at. intros H.
  apply col_index_in in H as [i ->]. reflexivity.
Qed.

Lemma columns_filled (df : DataFrame) : columns (filled df) = columns df.
Proof.
  unfold filled, update_column.
  destruct (col_index Field (columns df)); reflexivity.
Qed.

Lemma update_column_filled (df : DataFrame) :
  in_columns Field df = true ->
  update_column df Field fillna_empty = Ok (filled df).
Proof.
  unfold in_columns, filled, update_column. intros H.
  apply col_index_in in H as [i ->]. reflexivity.
Qed.

Lemma in_columns_filled (l : label) (df : DataFrame) :
  in_columns l (filled df) = in_columns l df.
Proof. unfold in_columns. now rewrite columns_filled. Qed.

(** [get_value] finds the first matching row and never raises on a
    table that has the two columns. *)
Lemma get_value_line_item (df : DataFrame) (name : string) (year : label) :
  in_columns Field df = true ->
  in_columns year df = true ->
  get_value df name year = Ok (line_item df name year).
Proof.
  intros HF HY. unfold get_value.
  rewrite (column_cells df Field HF), (column_cells df year HY). simpl.
  f_equal. unfold line_item, first_match, cell_value.
  induction (rows df) as [|r t IH]; simpl.
  - reflexivity.
  - destruct (field_is name (cell_at (columns df) r Field)); simpl.
    + reflexivity.
    + apply IH.
Qed.

Lemma first_match_head (df : DataFrame) (name : string) :
  first_match df name = hd_error (matching_rows df name).
Proof.
  unfold first_match, matching_rows.
  induction (rows df) as [|r t IH]; simpl; [reflexivity|].
  destruct (field_is name (cell_at (columns df) r Field)); simpl; auto.
Qed.

Lemma ratio_or_zero_guarded (a b : Q) :
  ratio_or_zero a b = Ok (guarded_ratio a b).
Proof.
  unfold ratio_or_zero, nonzero, py_div, guarded_ratio.
  destruct (Qeq_bool b 0); reflexivity.
Qed.



Lemma resolve_year_in_both (income balance : DataFrame) (y ly : label) :
  resolve_year income balance y = Some ly ->
  in_columns ly income = true /\ in_columns ly balance = true.
Proof.
  unfold resolve_year.
  destruct (in_columns (LStr (label_str y)) income
            && in_columns (LStr (label_str y)) balance) eqn:E.
  - intros [= <-]. now apply andb_true_iff.
  - destruct (label_int y) as [z|]; [|discriminate].
    destruct (in_columns (LInt z) income && in_columns (LInt z) balance) eqn:E2;
      [|discriminate].
    intros [= <-]. now apply andb_true_iff.
Qed.

Lemma resolve_year_filled (income balance : DataFrame) (y : label) :
  resolve_year (filled income) (filled balance) y = resolve_year income balance y.
Proof.
  unfold resolve_year. cbv zeta. rewrite !in_columns_filled.
  destruct (label_int y) as [z|]; [|reflexivity].
  now rewrite !in_columns_filled.
Qed.

(** On tables that have a [Field] column, [compute_ratios] depends on
    the year only through its resolution, and never raises. *)
Lemma compute_ratios_resolution (fin : dict DataFrame) (income balance : DataFrame)
      (y : label) :
  dict_find fin "Income Statement" = Some income ->
  dict_find fin "Balance Sheet" = Some balance ->
  in_columns Field income = true ->
  in_columns Field balance = true ->
  compute_ratios (Some fin) y =
  match resolve_year income balance y with
  | Some ly => Ok (ratio_set (filled income) (filled balance) ly)
  | None => Ok []
  end.
Proof.
  intros HI HB FI FB. unfold compute_ratios. rewrite HI, HB.
  rewrite (update_column_filled income FI), (update_column_filled balance FB).
  cbn [bind]. rewrite resolve_year_filled.
  destruct (resolve_year income balance y) as [ly|] eqn:R; [|reflexivity].
  apply resolve_year_in_both in R as [YI YB].
  assert (FI' : in_columns Field (filled income) = true)
    by now rewrite in_columns_filled.
  assert (FB' : in_columns Field (filled balance) = true)
    by now rewrite in_columns_filled.
  assert (YI' : in_columns ly (filled income) = true)
    by now rewrite in_columns_filled.
  assert (YB' : in_columns ly (filled balance) = true)
    by now rewrite in_columns_filled.
  rewrite !(get_value_line_item (filled income) _ ly FI' YI').
  cbn [bind].
  rewrite !(get_value_line_item (filled balance) _ ly FB' YB').
  cbn [bind].
  rewrite !ratio_or_zero_guarded. reflexivity.
Qed.


(** ** The ratio engine *)


(** C4. The fiscal year is looked up first in its string form, then in
    its integer-parsed form, each time as a column of both statements;
    [compute_ratios] gives the empty outcome exactly when neither form
    is a column of both.  A year held as the int column 2024 and asked
    for as the string "2024" resolves to that int column. *)
Theorem compute_ratios_year_validation
        (fin : dict DataFrame) (income balance : DataFrame) (y : label) :
  dict_find fin "Income Statement" = Some income ->
  dict_find fin "Balance Sheet" = Some balance ->
  in_columns Field income = true ->
  in_columns Field balance = true ->
  (compute_ratios (Some fin) y = Ok [] <->
     in_both income balance (LStr (label_str y)) = false /\
     (forall z, label_int y = Some z -> in_both income balance (LInt z) = false)) /\
  (in_both income balance (LStr (label_str y)) = true ->
     resolve_year income balance y = Some (LStr (label_str y))) /\
  (in_both income balance (LStr (label_str y)) = false ->
     forall z, label_int y = Some z ->
     in_both income balance (LInt z) = true ->
     resolve_year income balance y = Some (LInt z)) /\
  (in_both income balance (LStr "2024") = false ->
     in_both income balance (LInt 2024) = true ->
     resolve_year income balance (LStr "2024") = Some (LInt 2024) /\
     resolve_year income balance (LInt 2024) = Some (LInt 2024) /\
     compute_ratios (Some fin) (LStr "2024") <> Ok []).
Proof.
  intros HI HB FI FB.
  assert (RES : forall y', compute_ratios (Some fin) y' = Ok [] <->
                           resolve_year income balance y' = None).
  { intros y'. rewrite (compute_ratios_resolution fin income balance y' HI HB FI FB).
    destruct (resolve_year income balance y'); split; intros H;
      try reflexivity; discriminate. }
  split; [|split; [|split]].
  - rewrite RES. unfold resolve_year, in_both. cbv zeta.
    destruct (in_columns (LStr (label_str y)) income
              && in_columns (LStr (label_str y)) balance).
    + split; [discriminate | intros [H _]; discriminate].
    + destruct (label_int y) as [z|].
      * destruct (in_columns (LInt z) income && in_columns (LInt z) balance) eqn:E.
        -- split; [discriminate|]. intros [_ H]. specialize (H z eq_refl). congruence.
        -- split; [|reflexivity]. intros _. split; [reflexivity|].
           intros z' [= <-]. exact E.
      * split; [|reflexivity]. intros _. split; [reflexivity | discriminate].
  - unfold in_both, resolve_year. cbv zeta. now intros ->.
  - unfold in_both, resolve_year. cbv zeta. intros -> z -> ->. reflexivity.
  - intros S I.
    assert (S24 : resolve_year income balance (LStr "2024") = Some (LInt 2024)).
    { unfold in_both in S, I. unfold resolve_year. cbv zeta. cbn [label_str].
      rewrite S. change (label_int (LStr "2024")) with (Some 2024%Z).
      cbv iota beta. now rewrite I. }
    split; [exact S24|split].
    + unfold in_both in S, I. unfold resolve_year. cbv zeta.
      cbn [label_str label_int]. change (py_str_int 2024) with "2024".
      rewrite S. cbv iota beta. now rewrite I.
    + intros C. apply RES in C. congruence.
Qed.

(** C7 (amended). On a table that has the [Field] column and the year
    column, [get_value] never raises.  It returns 0 when no row has the
    label, and otherwise reads the year cell of the first row that has
    it, also when several rows have it: the number in the cell, the
    number its text is read as, or 0 when the cell is missing or its
    text is no number. *)
Theorem get_value_first_match (df : DataFrame) (name : string) (year : label) :
  in_columns Field df = true ->
  in_columns year df = true ->
  exists q : Q,
    get_value df name year = Ok q /\
    (matching_rows df name = [] -> q = 0%Q) /\
    (forall r rest, matching_rows df name = r :: rest ->
       match cell_at (columns df) r year with
       | CNum v => q = v
       | CNaN => q = 0%Q
       | CStr s =>
           match to_numeric_text s with
           | Some v => q = v
           | None => q = 0%Q
           end
       end).
Proof.
  intros HF HY. exists (line_item df name year).
  split; [now apply get_value_line_item|].
  unfold line_item. rewrite first_match_head.
  split.
  - now intros ->.
  - intros r rest ->. cbn [hd_error]. unfold cell_value, to_numeric.
    destruct (cell_at (columns df) r year) as [v| |s]; try reflexivity.
    destruct (to_numeric_text s); reflexivity.
Qed.

(** ** The scorer *)

Lemma py_min_Qmin (a b : Q) : (py_min a b == Qmin a b)%Q.
Proof.
  unfold py_min. destruct (Qle_bool a b) eqn:E.
  - apply Qle_bool_iff in E. symmetry. now apply Q.min_l.
  - assert (H : ~ (a <= b)%Q) by (intros H; apply Qle_bool_iff in H; congruence).
    apply Qnot_le_lt in H. symmetry. apply Q.min_r. now apply Qlt_le_weak.
Qed.


Lemma py_min_le_l (a b : Q) : (py_min a b <= a)%Q.
Proof. rewrite py_min_Qmin. apply Q.le_min_l. Qed.


(** C2. For a ratio set that is not empty [score_ratios] returns exactly
    the four sub-scores Profitability, Liquidity, Leverage and
    Efficiency, computed by the formulas of the specification from the
    ratios (a ratio that is absent counts as 0), and their arithmetic
    mean as the overall score. *)
Theorem score_ratios_formulas (ratios : dict Q) :
  ratios <> [] ->
  exists p l v e o : Q,
    score_ratios ratios =
      ([("Profitability", p); ("Liquidity", l); ("Leverage", v); ("Efficiency", e)], o) /\
    (p == spec_profitability (dict_get ratios "Net Profit Margin" 0)
                             (dict_get ratios "Gross Margin" 0))%Q /\
    (l == spec_liquidity (dict_get ratios "Current Ratio" 0)
                         (dict_get ratios "Quick Ratio" 0))%Q /\
    (v == spec_leverage (dict_get ratios "Debt to Equity Ratio" 0))%Q /\
    (e == spec_efficiency (dict_get ratios "Return on Assets (ROA)" 0))%Q /\
    (o == spec_mean4 p l v e)%Q.
Proof.
  intros NE. destruct ratios as [|kv t]; [contradiction|].
  unfold score_ratios. do 5 eexists. split; [reflexivity|].
  unfold spec_profitability, spec_liquidity, spec_leverage, spec_efficiency, spec_mean4.
  rewrite <- !py_min_Qmin.
  repeat split; try reflexivity.
  unfold py_sum, dict_values. cbn [map snd fold_left List.length].
  change (inject_Z (Z.of_nat 4)) with (4 # 1)%Q. field.
Qed.


(** ** The orchestrator *)





Lemma float_le_not_nan (a b : pyfloat) :
  float_le a b = true -> a <> FNaN /\ b <> FNaN.
Proof using.
  destruct a, b; cbn; intros H; try discriminate; split; discriminate.
Qed.

























Lemma insert_sorted_perm {A : Type} (lt : A -> A -> result bool) (x : A)
      (l l' : list A) :
  insert_sorted lt x l = Ok l' -> Permutation l' (x :: l).
Proof using.
  revert l'. induction l as [|y t IH]; simpl; intros l' H.
  - injection H as <-. reflexivity.
  - destruct (lt x y) as [b|e]; [|discriminate]. cbn [bind] in H.
    destruct b.
    + injection H as <-. reflexivity.
    + destruct (insert_sorted lt x t) as [t'|e]; [|discriminate].
      cbn [bind] in H. injection H as <-.
      rewrite (IH t' eq_refl). apply perm_swap.
Qed.

Lemma py_sorted_fold_perm {A : Type} (lt : A -> A -> result bool)
      (l : list A) (acc : result (list A)) (l' : list A) :
  fold_left (fun acc x => s <- acc ;; insert_sorted lt x s) l acc = Ok l' ->
  exists a, acc = Ok a /\ Permutation l' (a ++ l).
Proof using.
  revert acc. induction l as [|x t IH]; simpl; intros acc H.
  - exists l'. split; [assumption | now rewrite app_nil_r].
  - destruct (IH _ H) as (a' & E & Pm).
    destruct acc as [a|e]; [|discriminate]. cbn [bind] in E.
    exists a. split; [reflexivity|].
    rewrite Pm, (insert_sorted_perm lt x a a' E). now apply Permutation_middle.
Qed.

(** Whatever the comparison, what [sorted] returns is a rearrangement
    of the list. *)
Lemma py_sorted_perm {A : Type} (lt : A -> A -> result bool) (l l' : list A) :
  py_sorted lt l = Ok l' -> Permutation l' l.
Proof using.
  unfold py_sorted. intros H.
  destruct (py_sorted_fold_perm lt l (Ok []) l' H) as (a & [= <-] & Pm).
  exact Pm.
Qed.

Lemma mapM_length {A B : Type} (f : A -> result B) (l : list A) (l' : list B) :
  mapM f l = Ok l' -> List.length l' = List.length l.
Proof using.
  revert l'. induction l as [|a t IH]; simpl; intros l' H.
  - now injection H as <-.
  - destruct (f a) as [b|e]; [|discriminate]. cbn [bind] in H.
    destruct (mapM f t) as [bs|e]; [|discriminate]. cbn [bind] in H.
    injection H as <-. simpl. now rewrite (IH bs eq_refl).
Qed.

Lemma mapM_year_key_keys (years : list label) (keys : list Z) :
  mapM year_key years = Ok keys -> map snd (combine keys years) = years.
Proof using.
  revert keys. induction years as [|y t IH]; simpl; intros keys H.
  - injection H as <-. reflexivity.
  - destruct (year_key y) as [k|e]; [|discriminate]. cbn [bind] in H.
    destruct (mapM year_key t) as [ks|e]; [|discriminate]. cbn [bind] in H.
    injection H as <-. simpl. now rewrite (IH ks eq_refl).
Qed.

Lemma sort_years_perm (years ys : list label) :
  sort_years years = Ok ys -> Permutation ys years.
Proof using.
  unfold sort_years. destruct (mapM year_key years) as [keys|e] eqn:E.
  - destruct (py_sorted _ (combine keys years)) as [s|e] eqn:Es; [|discriminate].
    cbn [bind]. intros [= <-]. apply py_sorted_perm in Es.
    rewrite <- (mapM_year_key_keys years keys E). now apply Permutation_map.
  - destruct e; try discriminate. apply py_sorted_perm.
Qed.

Lemma trend_entries_years (income : DataFrame) (ys : list label)
      (data : list TrendEntry) :
  mapM (trend_entry income) ys = Ok data -> map entry_year data = ys.
Proof using.
  revert data. induction ys as [|y t IH]; simpl; intros data H.
  - now injection H as <-.
  - unfold trend_entry at 1 in H.
    destruct (get_value income "Revenue from operations" y) as [rv|e];
      [|discriminate]. cbn [bind] in H.
    destruct (get_value income "Profit/(Loss) for the year" y) as [pt|e];
      [|discriminate]. cbn [bind] in H.
    destruct (if nonzero rv then q <- py_div pt rv;; Ok (q * 100)%Q else Ok 0%Q)
      as [mg|e]; [|discriminate]. cbn [bind] in H.
    destruct (mapM (trend_entry income) t) as [ds|e]; [|discriminate].
    cbn [bind] in H. injection H as <-. simpl. now rewrite (IH ds eq_refl).
Qed.

(** When it returns, the columns of the trend table are the year
    columns of the Income Statement as [sort_years] orders them. *)
Lemma analyze_trends_order (fin : dict DataFrame) (income : DataFrame)
      (trend : TrendTable) :
  dict_find fin "Income Statement" = Some income ->
  analyze_trends (Some fin) = Ok trend ->
  sort_years (year_columns_of income) = Ok (trend_years trend).
Proof using.
  intros HI. unfold analyze_trends. rewrite HI. cbv zeta.
  fold (year_columns_of income).
  destruct (year_columns_of income) as [|c t] eqn:EY.
  { intros [= <-]. reflexivity. }
  rewrite <- EY.
  destruct (sort_years (year_columns_of income)) as [ys|e] eqn:ES; [|discriminate].
  cbn [bind].
  destruct (mapM (trend_entry income) ys) as [data|e] eqn:EM; [|discriminate].
  cbn [bind]. apply trend_entries_years in EM.
  destruct data as [|d ds].
  - intros [= <-]. simpl in EM. now subst ys.
  - intros [= <-]. simpl in EM |- *. now rewrite EM.
Qed.

(** When it returns, [analyze_trends] gives one column to every year
    column of the Income Statement. *)
Lemma analyze_trends_years (fin : dict DataFrame) (income : DataFrame)
      (trend : TrendTable) :
  dict_find fin "Income Statement" = Some income ->
  analyze_trends (Some fin) = Ok trend ->
  Permutation (trend_years trend) (year_columns_of income).
Proof using.
  intros HI HT. apply sort_years_perm. now apply (analyze_trends_order fin).
Qed.



(** ** Consolidation *)

Lemma set_nth_const (i : nat) (g : cell -> cell) (r : list cell) :
  set_nth i (fun _ => g (nth i r CNaN)) r = set_nth i g r.
Proof.
  revert i. induction r as [|c t IH]; intros [|i]; simpl; try reflexivity.
  now rewrite IH.
Qed.

Lemma set_column_map (i : nat) (g : cell -> cell) (rs : list (list cell)) :
  set_column i (map (fun r => g (nth i r CNaN)) rs) rs = map (set_nth i g) rs.
Proof.
  induction rs as [|r t IH]; simpl; [reflexivity|].
  now rewrite set_nth_const, IH.
Qed.

Lemma nth_set_nth_same (i : nat) (g : cell -> cell) (r : list cell) :
  (i < List.length r)%nat -> nth i (set_nth i g r) CNaN = g (nth i r CNaN).
Proof.
  revert i. induction r as [|c t IH]; intros [|i] H; simpl in *; try lia.
  - reflexivity.
  - apply IH. lia.
Qed.

Lemma nth_set_nth_other (i j : nat) (g : cell -> cell) (r : list cell) :
  i <> j -> nth j (set_nth i g r) CNaN = nth j r CNaN.
Proof.
  revert i j. induction r as [|c t IH]; intros [|i] [|j] H; simpl; try reflexivity.
  - contradiction.
  - apply IH. congruence.
Qed.

Lemma col_index_nth (l : label) (cols : list label) (i : nat) :
  col_index l cols = Some i -> (i < List.length cols)%nat /\ nth i cols l = l.
Proof.
  revert i. induction cols as [|c t IH]; simpl; intros i H; [discriminate|].
  destruct (label_eqb l c) eqn:E.
  - injection H as <-. apply label_eqb_eq in E. subst. split; [lia | reflexivity].
  - destruct (col_index l t) as [j|]; [|discriminate]. injection H as <-.
    destruct (IH j eq_refl). split; [lia | assumption].
Qed.

Lemma col_index_inj (a b : label) (cols : list label) (i : nat) :
  col_index a cols = Some i -> col_index b cols = Some i -> a = b.
Proof.
  revert i. induction cols as [|c t IH]; simpl; intros i Ha Hb; [discriminate|].
  destruct (label_eqb a c) eqn:Ea, (label_eqb b c) eqn:Eb.
  - apply label_eqb_eq in Ea, Eb. congruence.
  - destruct (col_index b t); [|discriminate]. injection Ha as <-. discriminate.
  - destruct (col_index a t); [|discriminate]. injection Hb as <-. discriminate.
  - destruct (col_index a t) as [ja|]; [|discriminate].
    destruct (col_index b t) as [jb|]; [|discriminate].
    injection Ha as <-. injection Hb as [= ->]. now apply (IH ja).
Qed.

(** Reading a reindexed row gives the cell of the original row. *)
Lemma cell_at_reindexed (c cols : list label) (r : list cell) (l : label) :
  (existsb (label_eqb l) c = true -> existsb (label_eqb l) cols = true) ->
  cell_at cols (map (cell_at c r) cols) l = cell_at c r l.
Proof.
  intros Hincl. unfold cell_at at 1.
  destruct (col_index l cols) as [i|] eqn:E.
  - destruct (col_index_nth _ _ _ E) as [Hlt Hn].
    rewrite (nth_indep _ CNaN (cell_at c r l)) by now rewrite length_map.
    rewrite (map_nth (cell_at c r) cols l i). now rewrite Hn.
  - apply col_index_none in E. unfold cell_at.
    destruct (col_index l c) as [j|] eqn:Ec; [|reflexivity].
    rewrite Hincl in E; [discriminate|]. apply col_index_in. eauto.
Qed.

Lemma existsb_app_label (l : label) (a b : list label) :
  existsb (label_eqb l) (a ++ b) = existsb (label_eqb l) a || existsb (label_eqb l) b.
Proof. apply existsb_app. Qed.

Lemma add_label_mem (l c : label) (acc : list label) :
  existsb (label_eqb l) (add_label acc c)
  = existsb (label_eqb l) acc || label_eqb l c.
Proof.
  unfold add_label. destruct (existsb (label_eqb c) acc) eqn:E.
  - destruct (label_eqb l c) eqn:Elc.
    + apply label_eqb_eq in Elc. subst. rewrite E. reflexivity.
    + now rewrite orb_false_r.
  - rewrite existsb_app. simpl. now rewrite orb_false_r.
Qed.

Lemma fold_add_label_mem (l : label) (cs acc : list label) :
  existsb (label_eqb l) (fold_left add_label cs acc)
  = existsb (label_eqb l) acc || existsb (label_eqb l) cs.
Proof.
  revert acc. induction cs as [|c t IH]; intros acc; simpl.
  - now rewrite orb_false_r.
  - rewrite IH, add_label_mem. now rewrite orb_assoc.
Qed.

Lemma union_fold_mem (l : label) (frames : list DataFrame) (acc : list label) :
  existsb (label_eqb l)
    (fold_left (fun acc df => fold_left add_label (columns df) acc) frames acc)
  = existsb (label_eqb l) acc || existsb (in_columns l) frames.
Proof.
  revert acc. induction frames as [|df t IH]; intros acc; simpl.
  - now rewrite orb_false_r.
  - rewrite IH, fold_add_label_mem. unfold in_columns. now rewrite orb_assoc.
Qed.

(** A label is a column of the concatenation when it is one of a sheet. *)
Lemma union_columns_mem (l : label) (frames : list DataFrame) :
  existsb (label_eqb l) (union_columns frames) = existsb (in_columns l) frames.
Proof. unfold union_columns. now rewrite union_fold_mem. Qed.

Lemma existsb_In_label (l : label) (cols : list label) :
  existsb (label_eqb l) cols = true <-> In l cols.
Proof.
  rewrite existsb_exists. split.
  - intros (x & Hx & E). apply label_eqb_eq in E. now subst.
  - intros H. exists l. split; [assumption | apply label_eqb_refl].
Qed.

Lemma add_label_NoDup (acc : list label) (c : label) :
  NoDup acc -> NoDup (add_label acc c).
Proof.
  intros H. unfold add_label. destruct (existsb (label_eqb c) acc) eqn:E; [assumption|].
  apply NoDup_app; [assumption | repeat constructor; intros [] |].
  intros x Hx [<-|[]].
  apply existsb_In_label in Hx. congruence.
Qed.

Lemma union_columns_NoDup (frames : list DataFrame) : NoDup (union_columns frames).
Proof.
  unfold union_columns.
  assert (G : forall cs acc, NoDup acc -> NoDup (fold_left add_label cs acc)).
  { induction cs as [|c t IH]; intros acc H; simpl; [assumption|].
    apply IH. now apply add_label_NoDup. }
  assert (F : forall fs acc, NoDup acc ->
            NoDup (fold_left (fun acc df => fold_left add_label (columns df) acc) fs acc)).
  { induction fs as [|df t IH]; intros acc H; simpl; [assumption|].
    apply IH. now apply G. }
  apply F. constructor.
Qed.

Lemma collected_columns (frames : list DataFrame) (cr : list label * list cell) :
  In cr (collected frames) -> exists df, In df frames /\ fst cr = columns df.
Proof.
  unfold collected. rewrite in_flat_map. intros (df & Hdf & Hin).
  apply in_map_iff in Hin as (r & <- & _). now exists df.
Qed.

Lemma collected_incl (frames : list DataFrame) (cr : list label * list cell) (l : label) :
  In cr (collected frames) ->
  existsb (label_eqb l) (fst cr) = true ->
  existsb (label_eqb l) (union_columns frames) = true.
Proof.
  intros Hin Hl. destruct (collected_columns _ _ Hin) as (df & Hdf & E).
  rewrite union_columns_mem. apply existsb_exists. exists df.
  split; [assumption|]. unfold in_columns. now rewrite <- E.
Qed.

(** The rows of the concatenation are the collected rows, each read
    under the columns of the concatenation. *)
Lemma concat_rows_collected (cols : list label) (frames : list DataFrame) :
  flat_map (reindex cols) frames
  = map (fun cr => map (row_cell cr) cols) (collected frames).
Proof.
  unfold collected, reindex, row_cell.
  induction frames as [|df t IH]; simpl; [reflexivity|].
  rewrite map_app, map_map, IH. reflexivity.
Qed.

Lemma filter_map_swap {A B : Type} (p : B -> bool) (h : A -> B) (l : list A) :
  filter p (map h l) = map h (filter (fun a => p (h a)) l).
Proof.
  induction l as [|a t IH]; simpl; [reflexivity|].
  destruct (p (h a)); simpl; now rewrite IH.
Qed.

Lemma forallb_map_comp {A B : Type} (p : B -> bool) (h : A -> B) (l : list A) :
  forallb p (map h l) = forallb (fun a => p (h a)) l.
Proof. induction l as [|a t IH]; simpl; [reflexivity | now rewrite IH]. Qed.

Lemma existsb_map_comp {A B : Type} (p : B -> bool) (h : A -> B) (l : list A) :
  existsb p (map h l) = existsb (fun a => p (h a)) l.
Proof. induction l as [|a t IH]; simpl; [reflexivity | now rewrite IH]. Qed.

Lemma forallb_ext_in {A : Type} (p q : A -> bool) (l : list A) :
  (forall a, In a l -> p a = q a) -> forallb p l = forallb q l.
Proof.
  induction l as [|a t IH]; simpl; intros H; [reflexivity|].
  rewrite (H a (or_introl eq_refl)), IH; [reflexivity|].
  intros b Hb. apply H. now right.
Qed.

Lemma existsb_ext_in {A : Type} (p q : A -> bool) (l : list A) :
  (forall a, In a l -> p a = q a) -> existsb p l = existsb q l.
Proof.
  induction l as [|a t IH]; simpl; intros H; [reflexivity|].
  rewrite (H a (or_introl eq_refl)), IH; [reflexivity|].
  intros b Hb. apply H. now right.
Qed.

Lemma field_is_norm_label (k : string) (cr : list label * list cell) :
  field_is k (norm_label (row_cell cr Field)) = in_group k cr.
Proof.
  unfold in_group, row_label, norm_label.
  destruct (row_cell cr Field); reflexivity.
Qed.

Section Concatenated.

Variable frames : list DataFrame.
Variable i : nat.
Hypothesis field_at : col_index Field (union_columns frames) = Some i.

Lemma concat_cell (cr : list label * list cell) (l : label) :
  In cr (collected frames) ->
  cell_at (union_columns frames) (map (row_cell cr) (union_columns frames)) l
  = row_cell cr l.
Proof.
  intros Hin. unfold row_cell. apply cell_at_reindexed.
  now apply collected_incl.
Qed.

Lemma concat_field_cell (cr : list label * list cell) :
  In cr (collected frames) ->
  nth i (map (row_cell cr) (union_columns frames)) CNaN = row_cell cr Field.
Proof.
  intros Hin. rewrite <- (concat_cell cr Field Hin).
  unfold cell_at. now rewrite field_at.
Qed.

Lemma normalized_field_cell (cr : list label * list cell) :
  In cr (collected frames) ->
  nth i (normalized_row (union_columns frames) i cr) CNaN
  = norm_label (row_cell cr Field).
Proof.
  intros Hin. unfold normalized_row.
  rewrite nth_set_nth_same.
  - now rewrite concat_field_cell.
  - rewrite length_map. now apply (col_index_nth Field).
Qed.

Lemma normalized_cell_field (cr : list label * list cell) :
  In cr (collected frames) ->
  cell_at (union_columns frames) (normalized_row (union_columns frames) i cr) Field
  = norm_label (row_cell cr Field).
Proof.
  intros Hin. unfold cell_at. rewrite field_at. now apply normalized_field_cell.
Qed.

Lemma normalized_cell_other (cr : list label * list cell) (l : label) :
  In cr (collected frames) ->
  label_eqb l Field = false ->
  cell_at (union_columns frames) (normalized_row (union_columns frames) i cr) l
  = row_cell cr l.
Proof.
  intros Hin Hl. rewrite <- (concat_cell cr l Hin).
  unfold cell_at, normalized_row.
  destruct (col_index l (union_columns frames)) as [j|] eqn:E; [|reflexivity].
  apply nth_set_nth_other. intros <-.
  assert (l = Field) by (eapply col_index_inj; eassumption).
  subst. rewrite label_eqb_refl in Hl. discriminate.
Qed.

(** [normalize_field] on the concatenation. *)
Lemma normalize_concat :
  normalize_field
    (mkDF (union_columns frames) (flat_map (reindex (union_columns frames)) frames))
  = if labels_usable frames
    then Ok (mkDF (union_columns frames)
                  (map (normalized_row (union_columns frames) i) (collected frames)))
    else Raise AttributeError.
Proof.
  unfold normalize_field, column. cbn [columns rows]. rewrite field_at. cbn [bind].
  rewrite concat_rows_collected. unfold labels_usable.
  rewrite !map_map.
  assert (E : map (fun cr => fillna_empty
                     (nth i (map (row_cell cr) (union_columns frames)) CNaN))
                  (collected frames)
              = map (fun cr => fillna_empty (row_cell cr Field)) (collected frames)).
  { apply map_ext_in. intros cr Hin. now rewrite concat_field_cell. }
  rewrite E. clear E.
  destruct (collected frames) as [|c0 ct] eqn:EC; [reflexivity|].
  rewrite <- EC. unfold str_strip.
  destruct (map (fun cr => fillna_empty (row_cell cr Field)) (collected frames))
    as [|x xs] eqn:EM.
  { rewrite EC in EM. discriminate. }
  rewrite <- EM. rewrite existsb_map_comp.
  destruct (existsb (fun cr => is_text (fillna_empty (row_cell cr Field)))
                    (collected frames)); [|reflexivity].
  cbn [bind]. do 2 f_equal.
  transitivity
    (set_column i
       (map (fun r => norm_label (nth i r CNaN))
            (map (fun cr => map (row_cell cr) (union_columns frames)) (collected frames)))
       (map (fun cr => map (row_cell cr) (union_columns frames)) (collected frames))).
  - f_equal. rewrite !map_map. apply map_ext_in. intros cr Hin.
    rewrite concat_field_cell by assumption. reflexivity.
  - rewrite set_column_map, map_map. reflexivity.
Qed.

Lemma Qplus_0_r_eq (q : Q) : (q + 0)%Q = q.
Proof using.
  destruct q as [n d]. unfold Qplus. cbn [Qnum Qden].
  now rewrite Z.mul_1_r, Z.add_0_r, Pos.mul_1_r.
Qed.

(** Adding 0 for a cell without a number is leaving the cell out. *)
Lemma py_sum_amounts {A : Type} (f : A -> cell) (xs : list A) :
  py_sum (map (fun x => num_of (f x)) xs)
  = py_sum (flat_map (fun x => cell_amount (f x)) xs).
Proof using.
  unfold py_sum. generalize 0%Q as a.
  induction xs as [|x t IH]; intros a; cbn [map flat_map fold_left]; [reflexivity|].
  destruct (f x) as [q| |s]; cbn [num_of cell_amount app fold_left].
  - apply IH.
  - rewrite Qplus_0_r_eq. apply IH.
  - rewrite Qplus_0_r_eq. apply IH.
Qed.

Lemma normalized_group_sum (k : string) (l : label) :
  label_eqb l Field = false ->
  group_sum (mkDF (union_columns frames)
                  (map (normalized_row (union_columns frames) i) (collected frames)))
            k l
  = spec_sum frames k l.
Proof.
  intros Hl. unfold group_sum, spec_sum, group_amounts. cbn [columns rows].
  rewrite filter_map_swap, map_map.
  rewrite <- (py_sum_amounts (fun cr => row_cell cr l)). f_equal.
  rewrite (filter_ext_in
             (fun a => field_is k (cell_at (union_columns frames)
                                     (normalized_row (union_columns frames) i a) Field))
             (in_group k)).
  - apply map_ext_in. intros cr Hin. apply filter_In in Hin as [Hin _].
    now rewrite normalized_cell_other.
  - intros cr Hin. rewrite normalized_cell_field by assumption.
    apply field_is_norm_label.
Qed.

Lemma concat_numeric_column (l : label) :
  concat_numeric frames l = numeric_column frames l.
Proof.
  unfold concat_numeric, numeric_column. apply forallb_ext_in. intros df _.
  unfold is_numeric_col. destruct (in_columns l df); [|reflexivity].
  cbn [negb orb]. destruct (rows df); reflexivity.
Qed.

(** [groupby("Field").sum(numeric_only=True).reset_index()] on the
    normalised concatenation is the statement of the specification. *)
Lemma groupby_concat :
  groupby_sum (concat_numeric frames)
              (mkDF (union_columns frames)
                    (map (normalized_row (union_columns frames) i) (collected frames)))
  = Ok (spec_statement frames).
Proof.
  unfold groupby_sum, column. cbn [columns rows]. rewrite field_at. cbn [bind].
  unfold spec_statement, spec_keys, spec_value_columns. f_equal.
  assert (EV : filter (fun l => negb (label_eqb l Field) && concat_numeric frames l)
                      (union_columns frames)
               = filter (fun l => negb (label_eqb l Field) && numeric_column frames l)
                        (union_columns frames)).
  { apply filter_ext. intros l. now rewrite concat_numeric_column. }
  rewrite EV. f_equal.
  rewrite map_map.
  rewrite (map_ext_in _ (fun cr => norm_label (row_cell cr Field)))
    by (intros cr Hin; now apply normalized_field_cell).
  apply map_ext. intros k. f_equal.
  apply map_ext_in. intros l Hl. f_equal.
  apply normalized_group_sum.
  apply filter_In in Hl as [_ Hl]. apply andb_true_iff in Hl as [Hl _].
  now destruct (label_eqb l Field).
Qed.

End Concatenated.

(** [consolidate_statement], entirely. *)
Lemma consolidate_statement_spec (frames : list DataFrame) :
  frames <> [] ->
  consolidate_statement frames
  = if existsb (in_columns Field) frames
    then if labels_usable frames
         then Ok (spec_statement frames)
         else Raise AttributeError
    else Raise KeyError.
Proof.
  intros NE. unfold consolidate_statement, pd_concat.
  destruct frames as [|df t] eqn:EF; [contradiction|]. rewrite <- EF. clear EF NE.
  cbn [bind].
  rewrite <- union_columns_mem.
  destruct (col_index Field (union_columns frames)) as [i|] eqn:EI.
  - assert (M : existsb (label_eqb Field) (union_columns frames) = true)
      by (apply col_index_in; eauto).
    rewrite M, (normalize_concat frames i EI).
    destruct (labels_usable frames); [|reflexivity].
    cbn [bind]. now apply groupby_concat.
  - assert (M : existsb (label_eqb Field) (union_columns frames) = false)
      by now apply col_index_none.
    rewrite M. unfold normalize_field. cbn [columns]. now rewrite EI.
Qed.

(** *** The group keys *)

Lemma ascii_compare_refl (a : ascii) : Ascii.compare a a = Eq.
Proof. unfold Ascii.compare. apply N.compare_refl. Qed.

Lemma ascii_compare_lt_trans (a b c : ascii) :
  Ascii.compare a b = Lt -> Ascii.compare b c = Lt -> Ascii.compare a c = Lt.
Proof.
  unfold Ascii.compare. rewrite !N.compare_lt_iff. apply N.lt_trans.
Qed.

Lemma string_compare_refl (s : string) : String.compare s s = Eq.
Proof.
  induction s as [|a t IH]; simpl; [reflexivity|].
  now rewrite ascii_compare_refl.
Qed.

Lemma string_lt_irrefl (s : string) : ~ string_lt s s.
Proof. unfold string_lt. rewrite string_compare_refl. discriminate. Qed.

Lemma string_lt_trans (a b c : string) :
  string_lt a b -> string_lt b c -> string_lt a c.
Proof.
  unfold string_lt. revert b c.
  induction a as [|x a IH]; intros [|y b] [|z c]; simpl; try congruence.
  destruct (Ascii.compare x y) eqn:Exy; try discriminate.
  - apply Ascii.compare_eq_iff in Exy. subst y.
    destruct (Ascii.compare x z) eqn:Exz; try congruence.
    apply IH.
  - destruct (Ascii.compare y z) eqn:Eyz; try discriminate.
    + apply Ascii.compare_eq_iff in Eyz. subst z. now rewrite Exy.
    + now rewrite (ascii_compare_lt_trans x y z Exy Eyz).
Qed.

Lemma string_compare_gt_lt (a b : string) :
  String.compare a b = Gt -> string_lt b a.
Proof.
  unfold string_lt. intros H. rewrite String.compare_antisym, H. reflexivity.
Qed.

Lemma insert_key_In (k x : string) (l : list string) :
  In k (insert_key x l) <-> k = x \/ In k l.
Proof using.
  induction l as [|y t IH]; simpl.
  - split; [intros [<-|[]]; now left | intros [->|[]]; now left].
  - destruct (String.compare x y) eqn:E; simpl.
    + apply String.compare_eq_iff in E. subst.
      split; [intros H; now right | intros [->|H]; [now left | assumption]].
    + split; [intros [<-|H]; [now left | now right]
             | intros [->|H]; [now left | now right]].
    + rewrite IH.
      split; [intros [H|[H|H]]; auto | intros [H|[H|H]]; auto].
Qed.

Lemma insert_key_sorted (x : string) (l : list string) :
  StronglySorted string_lt l -> StronglySorted string_lt (insert_key x l).
Proof using.
  induction 1 as [|y t Ht IH Hy]; simpl.
  - repeat constructor.
  - destruct (String.compare x y) eqn:E.
    + now constructor.
    + constructor; [now constructor|]. constructor; [exact E|].
      eapply Forall_impl; [|exact Hy]. intros z Hz.
      now apply string_lt_trans with y.
    + constructor; [assumption|].
      apply Forall_forall. intros z Hz. apply insert_key_In in Hz as [->|Hz].
      * now apply string_compare_gt_lt.
      * rewrite Forall_forall in Hy. now apply Hy.
Qed.

Lemma group_keys_fold (field : list cell) (acc : list string) :
  StronglySorted string_lt acc ->
  StronglySorted string_lt
    (fold_left (fun acc c => fold_left (fun a k => insert_key k a) (text_of c) acc)
               field acc) /\
  forall k,
    In k (fold_left (fun acc c => fold_left (fun a k => insert_key k a) (text_of c) acc)
                    field acc)
    <-> In k acc \/ In (CStr k) field.
Proof using.
  revert acc. induction field as [|c t IH]; intros acc Hs; simpl.
  - split; [assumption|]. intros k. split; [now left | intros [H|[]]; assumption].
  - destruct c as [q| |s]; simpl.
    + destruct (IH acc Hs) as [S M]. split; [assumption|].
      intros k. rewrite M.
      split; [intros [H|H]; auto | intros [H|[H|H]]; auto; discriminate].
    + destruct (IH acc Hs) as [S M]. split; [assumption|].
      intros k. rewrite M.
      split; [intros [H|H]; auto | intros [H|[H|H]]; auto; discriminate].
    + destruct (IH (insert_key s acc) (insert_key_sorted s acc Hs)) as [S M].
      split; [assumption|].
      intros k. rewrite M, insert_key_In.
      split.
      * intros [[->|H]|H]; auto.
      * intros [H|[[= ->]|H]]; auto.
Qed.

Lemma group_keys_sorted (field : list cell) :
  StronglySorted string_lt (group_keys field).
Proof using. apply group_keys_fold. constructor. Qed.

Lemma group_keys_In (field : list cell) (k : string) :
  In k (group_keys field) <-> In (CStr k) field.
Proof using.
  unfold group_keys. destruct (group_keys_fold field [] (SSorted_nil _)) as [_ M].
  rewrite M. simpl. split; [intros [[]|H]; assumption | intros H; now right].
Qed.


(** A strictly ascending list is determined by its elements. *)
Lemma sorted_unique (l1 l2 : list string) :
  StronglySorted string_lt l1 -> StronglySorted string_lt l2 ->
  (forall k, In k l1 <-> In k l2) -> l1 = l2.
Proof.
  intros S1. revert l2. induction S1 as [|x t1 Ht1 IH Hx]; intros l2 S2 M.
  - destruct l2 as [|y t2]; [reflexivity|].
    destruct (proj2 (M y) (or_introl eq_refl)).
  - destruct S2 as [|y t2 Ht2 Hy].
    { destruct (proj1 (M x) (or_introl eq_refl)). }
    rewrite Forall_forall in Hx, Hy.
    assert (x = y).
    { destruct (proj1 (M x) (or_introl eq_refl)) as [E|Hin]; [now symmetry|].
      destruct (proj2 (M y) (or_introl eq_refl)) as [E|Hin']; [assumption|].
      exfalso. apply (string_lt_irrefl x).
      apply string_lt_trans with y; [now apply Hx | now apply Hy]. }
    subst y. f_equal. apply IH; [assumption|].
    intros k. split; intros Hk.
    + destruct (proj1 (M k) (or_intror Hk)) as [E|H]; [|assumption].
      subst k. exfalso. exact (string_lt_irrefl x (Hx x Hk)).
    + destruct (proj2 (M k) (or_intror Hk)) as [E|H]; [|assumption].
      subst k. exfalso. exact (string_lt_irrefl x (Hy x Hk)).
Qed.

(** *** The consolidated statement *)

Lemma col_index_map_nth {B : Type} (f : label -> B) (d : B) (l : label)
      (cols : list label) (j : nat) :
  col_index l cols = Some j -> nth j (map f cols) d = f l.
Proof.
  intros E. destruct (col_index_nth _ _ _ E) as [Hlt Hn].
  rewrite (nth_indep _ d (f l)) by now rewrite length_map.
  rewrite (map_nth f cols l j). now rewrite Hn.
Qed.

(** Reading a row of the consolidated statement by label. *)
Lemma cell_at_spec_row (vcols : list label) (f : label -> cell) (k : string) (l : label) :
  cell_at (Field :: vcols) (CStr k :: map f vcols) l
  = if label_eqb l Field then CStr k
    else if existsb (label_eqb l) vcols then f l else CNaN.
Proof.
  unfold cell_at. cbn [col_index].
  destruct (label_eqb l Field); [reflexivity|].
  destruct (col_index l vcols) as [j|] eqn:E; cbn [option_map].
  - assert (M : existsb (label_eqb l) vcols = true) by (apply col_index_in; eauto).
    rewrite M. cbn [nth]. now apply col_index_map_nth.
  - apply col_index_none in E. now rewrite E.
Qed.


Lemma spec_keys_In (frames : list DataFrame) (k : string) :
  In k (spec_keys frames)
  <-> exists cr, In cr (collected frames) /\ row_label cr = Some k.
Proof using.
  unfold spec_keys. rewrite group_keys_In, in_map_iff.
  split; intros (cr & H1 & H2); exists cr.
  - split; [assumption|]. unfold row_label, norm_label in *.
    destruct (row_cell cr Field); cbn [fillna_empty] in H1;
      try change (strip "") with "" in H1; congruence.
  - split; [|assumption]. unfold row_label, norm_label in *.
    destruct (row_cell cr Field); cbn [fillna_empty];
      try change (strip "") with ""; congruence.
Qed.

Lemma spec_value_columns_In (frames : list DataFrame) (l : label) :
  In l (spec_value_columns frames)
  <-> l <> Field /\ In l (union_columns frames) /\ numeric_column frames l = true.
Proof.
  unfold spec_value_columns. rewrite filter_In, andb_true_iff, negb_true_iff.
  split.
  - intros (H1 & H2 & H3). repeat split; try assumption.
    intros ->. rewrite label_eqb_refl in H2. discriminate.
  - intros (H1 & H2 & H3). repeat split; try assumption.
    destruct (label_eqb l Field) eqn:E; [|reflexivity].
    apply label_eqb_eq in E. contradiction.
Qed.

Lemma consolidate_statement_ok (frames : list DataFrame) (out : DataFrame) :
  consolidate_statement frames = Ok out -> out = spec_statement frames.
Proof.
  destruct frames as [|df t] eqn:E; [discriminate|]. rewrite <- E.
  rewrite consolidate_statement_spec by (rewrite E; discriminate).
  destruct (existsb (in_columns Field) frames); [|discriminate].
  destruct (labels_usable frames); [|discriminate].
  now intros [= <-].
Qed.



(** *** Failure of the consolidation *)

Lemma collect_sheets_fold (files : list workbook) (a b : list DataFrame) :
  fold_left collect_step files (a, b)
  = (a ++ sheets_named "Income Statement" files,
     b ++ sheets_named "Balance Sheet" files).
Proof using.
  revert a b. induction files as [|f t IH]; intros a b; simpl.
  - now rewrite !app_nil_r.
  - destruct f as [sh|]; simpl.
    + rewrite IH.
      destruct (dict_find sh "Income Statement"), (dict_find sh "Balance Sheet");
        simpl; now rewrite <- ?app_assoc.
    + apply IH.
Qed.

Lemma collect_sheets_named (files : list workbook) :
  collect_sheets files
  = (sheets_named "Income Statement" files, sheets_named "Balance Sheet" files).
Proof using. unfold collect_sheets. now rewrite collect_sheets_fold. Qed.

Lemma sheets_named_nil (name : string) (files : list workbook) :
  sheets_named name files = []
  <-> forall sh, In (Some sh) files -> dict_find sh name = None.
Proof using.
  unfold sheets_named. induction files as [|f t IH]; simpl.
  - split; [intros _ sh [] | reflexivity].
  - destruct f as [sh|]; simpl.
    + destruct (dict_find sh name) as [df|] eqn:E; simpl.
      * split; [discriminate|]. intros H. specialize (H sh (or_introl eq_refl)).
        congruence.
      * rewrite IH. split.
        -- intros H sh' [[= <-]|Hin]; [assumption | now apply H].
        -- intros H sh' Hin. apply H. now right.
    + rewrite IH. split.
      * intros H sh' [[=]|Hin]. now apply H.
      * intros H sh' Hin. apply H. now right.
Qed.

Lemma sheet_ok_field (df : DataFrame) : sheet_ok df = true -> in_columns Field df = true.
Proof using. unfold sheet_ok. intros H. now apply andb_true_iff in H as [H _]. Qed.

Lemma sheets_ok_usable (frames : list DataFrame) :
  (forall df, In df frames -> sheet_ok df = true) -> labels_usable frames = true.
Proof using.
  intros H. unfold labels_usable.
  destruct (collected frames) as [|cr t] eqn:E; [reflexivity|]. rewrite <- E.
  apply existsb_exists. exists cr. split; [rewrite E; now left|].
  assert (Hin : In cr (collected frames)) by (rewrite E; now left).
  unfold collected in Hin. apply in_flat_map in Hin as (df & Hdf & Hr).
  apply in_map_iff in Hr as (r & <- & Hr).
  specialize (H df Hdf). unfold sheet_ok in H.
  apply andb_true_iff in H as [_ H]. rewrite forallb_forall in H.
  specialize (H r Hr). unfold row_cell. cbn [fst snd].
  destruct (cell_at (columns df) r Field); [discriminate | reflexivity | reflexivity].
Qed.

Lemma sheets_ok_consolidate (frames : list DataFrame) :
  frames <> [] ->
  (forall df, In df frames -> sheet_ok df = true) ->
  consolidate_statement frames = Ok (spec_statement frames).
Proof using.
  intros NE H. rewrite consolidate_statement_spec by assumption.
  rewrite (sheets_ok_usable frames H).
  destruct frames as [|df t]; [contradiction|].
  cbn [existsb]. now rewrite (sheet_ok_field df (H df (or_introl eq_refl))).
Qed.

(** C6 (amended). When every collected sheet has a [Field] column whose
    labels are text or missing, [consolidate_financials] fails exactly
    when no readable workbook holds an Income Statement sheet or none
    holds a Balance Sheet sheet; otherwise it returns the two
    consolidated statements, whatever their number of rows. *)
Theorem consolidate_financials_fails_iff (files : list workbook) :
  (forall df, In df (sheets_named "Income Statement" files) -> sheet_ok df = true) ->
  (forall df, In df (sheets_named "Balance Sheet" files) -> sheet_ok df = true) ->
  (consolidate_financials files = None <->
     sheets_named "Income Statement" files = []
     \/ sheets_named "Balance Sheet" files = []) /\
  (forall name, sheets_named name files = []
                <-> forall sh, In (Some sh) files -> dict_find sh name = None) /\
  (sheets_named "Income Statement" files <> [] ->
   sheets_named "Balance Sheet" files <> [] ->
   consolidate_financials files =
     Some [("Income Statement", spec_statement (sheets_named "Income Statement" files));
           ("Balance Sheet", spec_statement (sheets_named "Balance Sheet" files))]).
Proof using.
  intros HI HB.
  assert (OK : sheets_named "Income Statement" files <> [] ->
               sheets_named "Balance Sheet" files <> [] ->
               consolidate_financials files =
                 Some [("Income Statement",
                        spec_statement (sheets_named "Income Statement" files));
                       ("Balance Sheet",
                        spec_statement (sheets_named "Balance Sheet" files))]).
  { intros NI NB. unfold consolidate_financials. rewrite collect_sheets_named.
    cbn [fst snd].
    pose proof (sheets_ok_consolidate _ NI HI) as EI.
    pose proof (sheets_ok_consolidate _ NB HB) as EB.
    destruct (sheets_named "Income Statement" files) as [|i0 it] eqn:SI;
      [contradiction|].
    destruct (sheets_named "Balance Sheet" files) as [|b0 bt] eqn:SB;
      [contradiction|].
    rewrite EI. cbn [bind]. rewrite EB. reflexivity. }
  split; [|split; [intros name; apply sheets_named_nil | exact OK]].
  split.
  - intros F.
    destruct (sheets_named "Income Statement" files) as [|i0 it] eqn:SI; [now left|].
    destruct (sheets_named "Balance Sheet" files) as [|b0 bt] eqn:SB; [now right|].
    rewrite OK in F by discriminate. discriminate.
  - unfold consolidate_financials. rewrite collect_sheets_named. cbn [fst snd].
    intros [-> | ->]; [reflexivity|].
    now destruct (sheets_named "Income Statement" files).
Qed.

(** *** The order of the files *)

Lemma filter_perm {A : Type} (p : A -> bool) (l l' : list A) :
  Permutation l l' -> Permutation (filter p l) (filter p l').
Proof using.
  induction 1 as [|x l l' _ IH|x y l|l l' l'' _ IH1 _ IH2]; simpl.
  - constructor.
  - destruct (p x); [now constructor | assumption].
  - destruct (p x), (p y); try reflexivity. constructor.
  - now transitivity (filter p l').
Qed.

Lemma forallb_perm {A : Type} (p : A -> bool) (l l' : list A) :
  Permutation l l' -> forallb p l = forallb p l'.
Proof using.
  induction 1 as [|x l l' _ IH|x y l|l l' l'' _ IH1 _ IH2]; simpl.
  - reflexivity.
  - now rewrite IH.
  - now rewrite !andb_assoc, (andb_comm (p y)).
  - now rewrite IH1.
Qed.

Lemma existsb_perm {A : Type} (p : A -> bool) (l l' : list A) :
  Permutation l l' -> existsb p l = existsb p l'.
Proof using.
  induction 1 as [|x l l' _ IH|x y l|l l' l'' _ IH1 _ IH2]; simpl.
  - reflexivity.
  - now rewrite IH.
  - now rewrite !orb_assoc, (orb_comm (p y)).
  - now rewrite IH1.
Qed.

Section Reordered.

Variables frames frames' : list DataFrame.
Hypothesis reordered : Permutation frames frames'.

Lemma collected_perm : Permutation (collected frames) (collected frames').
Proof using reordered.
  unfold collected. now apply Permutation_flat_map.
Qed.

Lemma group_amounts_perm (k : string) (l : label) :
  Permutation (group_amounts frames k l) (group_amounts frames' k l).
Proof using reordered.
  unfold group_amounts. apply Permutation_flat_map, filter_perm, collected_perm.
Qed.

Lemma numeric_column_perm (l : label) :
  numeric_column frames l = numeric_column frames' l.
Proof using reordered.
  unfold numeric_column. apply forallb_perm, reordered.
Qed.

Lemma labels_usable_perm : labels_usable frames = labels_usable frames'.
Proof using reordered.
  unfold labels_usable. pose proof collected_perm as P.
  rewrite (existsb_perm _ _ _ P).
  destruct (collected frames) as [|c t].
  - apply Permutation_nil in P. now rewrite P.
  - destruct (collected frames') as [|c' t']; [|reflexivity].
    symmetry in P. apply Permutation_nil in P. discriminate.
Qed.

Lemma spec_keys_perm : spec_keys frames = spec_keys frames'.
Proof using reordered.
  apply sorted_unique; try apply group_keys_sorted.
  intros k. rewrite !spec_keys_In.
  split; intros (cr & Hin & Hl); exists cr; split; try assumption.
  - now apply (Permutation_in _ collected_perm).
  - now apply (Permutation_in _ (Permutation_sym collected_perm)).
Qed.

Lemma union_columns_perm : Permutation (union_columns frames) (union_columns frames').
Proof using reordered.
  apply NoDup_Permutation; try apply union_columns_NoDup.
  intros l. rewrite <- !existsb_In_label, !union_columns_mem.
  now rewrite (existsb_perm _ _ _ reordered).
Qed.

Lemma spec_value_columns_perm :
  Permutation (spec_value_columns frames) (spec_value_columns frames').
Proof using reordered.
  apply NoDup_Permutation.
  - apply NoDup_filter, union_columns_NoDup.
  - apply NoDup_filter, union_columns_NoDup.
  - intros l. rewrite !spec_value_columns_In, numeric_column_perm.
    split; intros (H1 & H2 & H3); repeat split; try assumption.
    + now apply (Permutation_in _ union_columns_perm).
    + now apply (Permutation_in _ (Permutation_sym union_columns_perm)).
Qed.

Lemma spec_statement_same_sums :
  same_sums frames frames' (spec_statement frames) (spec_statement frames').
Proof using reordered.
  unfold same_sums, spec_statement. cbn [columns rows]. split.
  - constructor. apply spec_value_columns_perm.
  - rewrite <- spec_keys_perm.
    induction (spec_keys frames) as [|k t IH]; cbn [map]; constructor; [|assumption].
    exists k. rewrite !cell_at_spec_row, label_eqb_refl.
    split; [reflexivity|]. split; [reflexivity|].
    intros l NF [E|Hl]; [symmetry in E; contradiction|].
    rewrite !cell_at_spec_row.
    destruct (label_eqb l Field) eqn:E; [apply label_eqb_eq in E; contradiction|].
    rewrite <- (existsb_perm _ _ _ spec_value_columns_perm).
    apply existsb_In_label in Hl. rewrite Hl.
    split; [reflexivity|]. split; [reflexivity|]. apply group_amounts_perm.
Qed.

(** Reordering the sheets changes neither the failure nor the labels
    of the consolidated statement, and its sums are over the same
    numbers. *)
Lemma consolidate_statement_perm :
  match consolidate_statement frames, consolidate_statement frames' with
  | Ok a, Ok b => same_sums frames frames' a b
  | Raise e, Raise e' => e = e'
  | _, _ => False
  end.
Proof using reordered.
  pose proof reordered as R.
  assert (C : frames = [] \/ frames <> []).
  { clear. destruct frames; [now left | right; discriminate]. }
  destruct C as [E|NE].
  - rewrite E in R. apply Permutation_nil in R. rewrite E, R. reflexivity.
  - assert (NE' : frames' <> []).
    { intros E'. rewrite E' in R. apply Permutation_sym, Permutation_nil in R.
      contradiction. }
    rewrite !consolidate_statement_spec by assumption.
    rewrite <- (existsb_perm _ _ _ reordered), <- labels_usable_perm.
    destruct (existsb (in_columns Field) frames); [|reflexivity].
    destruct (labels_usable frames); [|reflexivity].
    apply spec_statement_same_sums.
Qed.

End Reordered.

Lemma spec_value_columns_swap (a b : DataFrame) :
  columns a = columns b -> spec_value_columns [a; b] = spec_value_columns [b; a].
Proof using.
  intros E.
  assert (P : Permutation [a; b] [b; a]) by constructor.
  unfold spec_value_columns, union_columns. cbn [fold_left]. rewrite E.
  apply filter_ext. intros l. now rewrite (numeric_column_perm _ _ P).
Qed.

(** C10 (amended). For two readable workbooks that hold both sheets,
    consolidating them in either order fails in the same cases and
    otherwise gives statements with the same labels, row by row, and
    the same columns up to their order, in the same order when the two
    workbooks list the same columns in the same order.  A cell under a
    column is, in both statements, the sum of the numbers that the rows
    of its label hold in that column: the same numbers, added in the
    order of the files. *)
Theorem consolidate_financials_file_order
        (sa sb : dict DataFrame) (ia ba ib bb : DataFrame) :
  dict_find sa "Income Statement" = Some ia ->
  dict_find sa "Balance Sheet" = Some ba ->
  dict_find sb "Income Statement" = Some ib ->
  dict_find sb "Balance Sheet" = Some bb ->
  match consolidate_financials [Some sa; Some sb],
        consolidate_financials [Some sb; Some sa] with
  | Some f1, Some f2 =>
      exists i1 b1 i2 b2,
        f1 = [("Income Statement", i1); ("Balance Sheet", b1)] /\
        f2 = [("Income Statement", i2); ("Balance Sheet", b2)] /\
        same_sums [ia; ib] [ib; ia] i1 i2 /\
        same_sums [ba; bb] [bb; ba] b1 b2 /\
        (columns ia = columns ib -> columns i1 = columns i2) /\
        (columns ba = columns bb -> columns b1 = columns b2)
  | None, None => True
  | _, _ => False
  end.
Proof using.
  intros Hia Hba Hib Hbb.
  unfold consolidate_financials. rewrite !collect_sheets_named.
  unfold sheets_named. cbn [flat_map fst snd]. rewrite Hia, Hba, Hib, Hbb.
  cbn [app].
  pose proof (consolidate_statement_perm [ia; ib] [ib; ia] (perm_swap _ _ _)) as PI.
  pose proof (consolidate_statement_perm [ba; bb] [bb; ba] (perm_swap _ _ _)) as PB.
  destruct (consolidate_statement [ia; ib]) as [i1|e1] eqn:E1,
           (consolidate_statement [ib; ia]) as [i2|e2] eqn:E2;
    try contradiction; cbn [bind]; [|exact I].
  destruct (consolidate_statement [ba; bb]) as [b1|e3] eqn:E3,
           (consolidate_statement [bb; ba]) as [b2|e4] eqn:E4;
    try contradiction; cbn [bind]; [|exact I].
  exists i1, b1, i2, b2.
  split; [reflexivity|]. split; [reflexivity|].
  split; [exact PI|]. split; [exact PB|]. split.
  - intros E. apply consolidate_statement_ok in E1, E2. subst.
    unfold spec_statement. cbn [columns]. f_equal.
    now apply spec_value_columns_swap.
  - intros E. apply consolidate_statement_ok in E3, E4. subst.
    unfold spec_statement. cbn [columns]. f_equal.
    now apply spec_value_columns_swap.
Qed.

(** ** The order of the trend columns *)

Section StableSort.

Context {A : Type}.
Variable lt : A -> A -> result bool.
Variable ltb : A -> A -> bool.
Variable P : A -> Prop.
Hypothesis lt_ltb : forall a b, P a -> P b -> lt a b = Ok (ltb a b).
Hypothesis ltb_trans : forall a b c, ltb a b = true -> ltb b c = true -> ltb a c = true.
Hypothesis ltb_irrefl : forall a, ltb a a = false.

Lemma insert_sorted_ok (x : A) (l : list A) :
  P x -> Forall P l -> StronglySorted (not_after ltb) l ->
  exists l', insert_sorted lt x l = Ok l' /\ Permutation l' (x :: l)
             /\ StronglySorted (not_after ltb) l'.
Proof using lt_ltb ltb_trans ltb_irrefl.
  intros Px Pl S. induction S as [|y t St IH Hy]; simpl.
  - exists [x]. repeat split; [reflexivity | repeat constructor].
  - inversion Pl as [|? ? Py Pt]; subst.
    rewrite (lt_ltb x y Px Py). cbn [bind].
    destruct (ltb x y) eqn:E.
    + exists (x :: y :: t). split; [reflexivity|]. split; [reflexivity|].
      constructor; [now constructor|].
      constructor.
      * unfold not_after. destruct (ltb y x) eqn:E'; [|reflexivity].
        rewrite <- (ltb_irrefl x). symmetry. now apply ltb_trans with y.
      * eapply Forall_impl; [|exact Hy]. intros z Hz. unfold not_after in *.
        destruct (ltb z x) eqn:E'; [|reflexivity].
        rewrite <- Hz. symmetry. now apply ltb_trans with x.
    + destruct (IH Pt) as (t' & Et & Pt' & St'). rewrite Et. cbn [bind].
      exists (y :: t'). split; [reflexivity|]. split.
      * rewrite Pt'. apply perm_swap.
      * constructor; [assumption|].
        apply Forall_forall. intros z Hz.
        apply (Permutation_in _ Pt') in Hz. destruct Hz as [<-|Hz].
        -- exact E.
        -- rewrite Forall_forall in Hy. now apply Hy.
Qed.

Lemma py_sorted_fold_ok (l acc : list A) :
  Forall P l -> Forall P acc -> StronglySorted (not_after ltb) acc ->
  exists l',
    fold_left (fun acc x => s <- acc ;; insert_sorted lt x s) l (Ok acc) = Ok l'
    /\ Permutation l' (acc ++ l) /\ StronglySorted (not_after ltb) l'.
Proof using lt_ltb ltb_trans ltb_irrefl.
  revert acc. induction l as [|x t IH]; intros acc Pl Pa S; simpl.
  - exists acc. rewrite app_nil_r. now repeat split.
  - inversion Pl as [|? ? Px Pt]; subst.
    destruct (insert_sorted_ok x acc Px Pa S) as (acc' & E & Pm & S').
    rewrite E.
    assert (Pa' : Forall P acc').
    { apply Forall_forall. intros z Hz. apply (Permutation_in _ Pm) in Hz.
      destruct Hz as [<-|Hz]; [assumption|].
      rewrite Forall_forall in Pa. now apply Pa. }
    destruct (IH acc' Pt Pa' S') as (l' & El & Pl' & Sl').
    exists l'. split; [exact El|]. split; [|exact Sl'].
    rewrite Pl', Pm. now apply Permutation_middle.
Qed.

(** On elements it can compare, [sorted] returns the elements in
    ascending order. *)
Lemma py_sorted_ok (l : list A) :
  Forall P l ->
  exists l', py_sorted lt l = Ok l' /\ Permutation l' l /\ StronglySorted (not_after ltb) l'.
Proof using lt_ltb ltb_trans ltb_irrefl.
  intros Pl. unfold py_sorted.
  destruct (py_sorted_fold_ok l [] Pl (Forall_nil _) (SSorted_nil _))
    as (l' & E & Pm & S).
  now exists l'.
Qed.

End StableSort.

Lemma mapM_year_key_ok (years : list label) (keys : list Z) :
  mapM year_key years = Ok keys ->
  Forall2 (fun y k => label_int y = Some k) years keys.
Proof using.
  revert keys. induction years as [|y t IH]; simpl; intros keys H.
  - injection H as <-. constructor.
  - unfold year_key in H at 1. destruct (label_int y) as [k|] eqn:E; [|discriminate].
    cbn [bind] in H. destruct (mapM year_key t) as [ks|e]; [|discriminate].
    cbn [bind] in H. injection H as <-. constructor; [assumption | now apply IH].
Qed.

Lemma mapM_year_key_raise (years : list label) :
  (exists y, In y years /\ label_int y = None) ->
  mapM year_key years = Raise ValueError.
Proof using.
  induction years as [|y t IH]; simpl; intros (x & Hin & Hx); [destruct Hin|].
  unfold year_key at 1. destruct (label_int y) as [k|] eqn:E; [|reflexivity].
  cbn [bind]. rewrite IH; [reflexivity|].
  destruct Hin as [<-|Hin]; [congruence | now exists x].
Qed.

Lemma combine_keys_years (years : list label) (keys : list Z) :
  Forall2 (fun y k => label_int y = Some k) years keys ->
  map snd (combine keys years) = years /\
  Forall (fun p => label_int (snd p) = Some (fst p)) (combine keys years).
Proof using.
  induction 1 as [|y k t ks Hy _ [IH1 IH2]]; simpl.
  - split; constructor.
  - split; [now rewrite IH1 | now constructor].
Qed.

(** When every label parses, the columns come in ascending order of
    their integers. *)
Lemma sort_years_numeric (years : list label) (keys : list Z) :
  mapM year_key years = Ok keys ->
  exists ys, sort_years years = Ok ys /\ Permutation ys years
             /\ StronglySorted year_le ys.
Proof using.
  intros H. unfold sort_years. rewrite H.
  destruct (combine_keys_years _ _ (mapM_year_key_ok _ _ H)) as [Hs Hk].
  destruct (py_sorted_ok (fun a b : Z * label => Ok (Z.ltb (fst a) (fst b)))
              (fun a b => Z.ltb (fst a) (fst b)) (fun _ => True)
              (fun a b _ _ => eq_refl)) with (l := combine keys years)
    as (s & Es & Ps & Ss).
  - intros a b c Hab Hbc. apply Z.ltb_lt in Hab, Hbc. apply Z.ltb_lt. lia.
  - intros a. apply Z.ltb_irrefl.
  - apply Forall_forall. trivial.
  - rewrite Es. cbn [bind]. exists (map snd s). split; [reflexivity|]. split.
    + rewrite <- Hs. now apply Permutation_map.
    + assert (Hk' : Forall (fun p => label_int (snd p) = Some (fst p)) s).
      { apply Forall_forall. intros p Hp. rewrite Forall_forall in Hk. apply Hk.
        now apply (Permutation_in _ Ps). }
      clear - Ss Hk'. induction Ss as [|p t St IH Hp]; simpl; constructor.
      * apply IH. now inversion Hk'.
      * inversion Hk' as [|? ? Hp' Ht']; subst.
        rewrite Forall_forall in Hp, Ht'. apply Forall_forall. intros y Hy.
        apply in_map_iff in Hy as (q & <- & Hq).
        unfold year_le. rewrite Hp', (Ht' q Hq).
        specialize (Hp q Hq). unfold not_after in Hp. apply Z.ltb_ge in Hp. exact Hp.
Qed.

Lemma text_ltb_trans (a b c : label) :
  text_ltb a b = true -> text_ltb b c = true -> text_ltb a c = true.
Proof using.
  destruct a as [s|], b as [t|], c as [u|]; simpl; try discriminate.
  unfold String.ltb. intros H1 H2.
  destruct (String.compare s t) eqn:E1; try discriminate.
  destruct (String.compare t u) eqn:E2; try discriminate.
  now rewrite (string_lt_trans s t u E1 E2).
Qed.

Lemma text_ltb_irrefl (a : label) : text_ltb a a = false.
Proof using.
  destruct a as [s|]; simpl; [|reflexivity].
  unfold String.ltb. now rewrite string_compare_refl.
Qed.

(** When the labels are all text and one of them is no integer, the
    columns come in ascending order of their text. *)
Lemma sort_years_text (years : list label) :
  forallb is_text_label years = true ->
  (exists y, In y years /\ label_int y = None) ->
  exists ys, sort_years years = Ok ys /\ Permutation ys years
             /\ StronglySorted text_le ys.
Proof using.
  intros Ht Hn. unfold sort_years. rewrite (mapM_year_key_raise years Hn).
  destruct (py_sorted_ok label_lt text_ltb (fun l => is_text_label l = true))
    with (l := years) as (ys & E & Pm & S).
  - intros [s|] [t|]; simpl; try discriminate. reflexivity.
  - apply text_ltb_trans.
  - apply text_ltb_irrefl.
  - apply Forall_forall. now apply forallb_forall.
  - exists ys. split; [exact E|]. split; [exact Pm|].
    assert (Hy : Forall (fun l => is_text_label l = true) ys).
    { apply Forall_forall. intros l Hl. apply (Permutation_in _ Pm) in Hl.
      rewrite forallb_forall in Ht. now apply Ht. }
    clear - S Hy. induction S as [|p t St IH Hp]; constructor.
    + apply IH. now inversion Hy.
    + inversion Hy as [|? ? Hp' Ht']; subst.
      rewrite Forall_forall in Hp, Ht'. apply Forall_forall. intros y Hin.
      specialize (Hp y Hin). specialize (Ht' y Hin).
      unfold not_after in Hp. destruct p as [s|], y as [u|]; try discriminate. exact Hp.
Qed.

Lemma sort_step_raise (l : list label) (e : exn) :
  fold_left sort_step l (Raise e) = Raise e.
Proof using. induction l as [|x t IH]; simpl; [reflexivity | exact IH]. Qed.

Lemma insert_same_kind (x : label) (acc : list label) :
  (forall y, In y acc -> is_text_label y = is_text_label x) ->
  exists acc',
    insert_sorted label_lt x acc = Ok acc' /\ acc' <> [] /\
    forall y, In y acc' -> is_text_label y = is_text_label x.
Proof using.
  induction acc as [|y t IH]; simpl; intros H.
  - exists [x]. split; [reflexivity|]. split; [discriminate|].
    intros y [<-|[]]. reflexivity.
  - assert (Hy := H y (or_introl eq_refl)).
    destruct (label_lt x y) as [b|e] eqn:E.
    2: { destruct x, y; simpl in *; discriminate. }
    cbn [bind]. destruct b.
    + exists (x :: y :: t). split; [reflexivity|]. split; [discriminate|].
      intros z [<-|Hz]; [reflexivity | now apply H].
    + destruct IH as (t' & Et & _ & Ht'); [intros z Hz; apply H; now right|].
      rewrite Et. cbn [bind]. exists (y :: t'). split; [reflexivity|].
      split; [discriminate|]. intros z [<-|Hz]; [assumption | now apply Ht'].
Qed.

Lemma sort_fold_mixed (l acc : list label) (b : bool) :
  acc <> [] ->
  (forall y, In y acc -> is_text_label y = b) ->
  (exists x, In x l /\ is_text_label x <> b) ->
  fold_left sort_step l (Ok acc) = Raise TypeError.
Proof using.
  revert acc. induction l as [|x t IH]; intros acc NE Hacc (z & Hz & Kz);
    [destruct Hz|].
  change (fold_left sort_step t (insert_sorted label_lt x acc) = Raise TypeError).
  destruct (Bool.bool_dec (is_text_label x) b) as [Kx|Kx].
  - destruct (insert_same_kind x acc) as (acc' & E & NE' & H').
    { intros y Hy. rewrite Kx. now apply Hacc. }
    rewrite E. apply IH; [assumption | |].
    + intros y Hy. rewrite <- Kx. now apply H'.
    + destruct Hz as [<-|Hz]; [contradiction | now exists z].
  - destruct acc as [|y acc]; [contradiction|].
    assert (Ky := Hacc y (or_introl eq_refl)).
    cbn [insert_sorted].
    assert (E : label_lt x y = Raise TypeError).
    { destruct x, y; simpl in *; subst; try reflexivity; contradiction. }
    rewrite E. cbn [bind]. apply sort_step_raise.
Qed.

(** [sorted(years)] on labels of both kinds raises [TypeError]. *)
Lemma py_sorted_mixed (l : list label) :
  existsb is_text_label l = true ->
  existsb is_int_label l = true ->
  py_sorted label_lt l = Raise TypeError.
Proof using.
  intros Ht Hi. unfold py_sorted. change (fold_left sort_step l (Ok []) = Raise TypeError).
  destruct l as [|x t]; [discriminate|].
  change (fold_left sort_step t (Ok [x]) = Raise TypeError).
  apply sort_fold_mixed with (b := is_text_label x).
  - discriminate.
  - intros y [<-|[]]. reflexivity.
  - simpl in Ht, Hi. unfold is_int_label in Hi.
    destruct (is_text_label x) eqn:Kx; simpl in Ht, Hi.
    + apply existsb_exists in Hi as (z & Hz & Kz). exists z. split; [assumption|].
      apply negb_true_iff in Kz. rewrite Kz. discriminate.
    + apply existsb_exists in Ht as (z & Hz & Kz). exists z. split; [assumption|].
      rewrite Kz. discriminate.
Qed.

(** With an int label and a text label that is no integer among the
    year columns, [analyze_trends] raises [TypeError]. *)
Lemma analyze_trends_mixed_raise (fin : dict DataFrame) (income : DataFrame)
      (z : Z) (s : string) :
  dict_find fin "Income Statement" = Some income ->
  In (LInt z) (columns income) ->
  In (LStr s) (columns income) -> s <> "Field" -> py_int s = None ->
  analyze_trends (Some fin) = Raise TypeError.
Proof using.
  intros HI Hz Hs NF Hp. unfold analyze_trends. rewrite HI. cbv zeta.
  fold (year_columns_of income).
  assert (Yz : In (LInt z) (year_columns_of income)).
  { apply filter_In. split; [assumption | reflexivity]. }
  assert (Ys : In (LStr s) (year_columns_of income)).
  { apply filter_In. split; [assumption|]. apply negb_true_iff.
    destruct (label_eqb (LStr s) Field) eqn:E; [|reflexivity].
    apply label_eqb_eq in E. injection E as ->. contradiction. }
  assert (SY : sort_years (year_columns_of income) = Raise TypeError).
  { unfold sort_years. rewrite mapM_year_key_raise by (exists (LStr s); now split).
    apply py_sorted_mixed; apply existsb_exists.
    - now exists (LStr s).
    - now exists (LInt z). }
  destruct (year_columns_of income) as [|c t]; [destruct Yz|].
  now rewrite SY.
Qed.

(** ** Ratios of consolidated statements *)

Lemma spec_statement_has_field (frames : list DataFrame) :
  in_columns Field (spec_statement frames) = true.
Proof using. reflexivity. Qed.

(** What [consolidate_financials] returns holds both statements, each
    with its [Field] column. *)
Lemma consolidated_tables (files : list workbook) (fin : dict DataFrame) :
  consolidate_financials files = Some fin ->
  exists income balance,
    fin = [("Income Statement", income); ("Balance Sheet", balance)] /\
    in_columns Field income = true /\ in_columns Field balance = true.
Proof using.
  unfold consolidate_financials.
  destruct (fst (collect_sheets files)) as [|i0 it] eqn:EI; [discriminate|].
  destruct (snd (collect_sheets files)) as [|b0 bt] eqn:EB; [discriminate|].
  destruct (consolidate_statement (i0 :: it)) as [income|e] eqn:CI; [|discriminate].
  cbn [bind].
  destruct (consolidate_statement (b0 :: bt)) as [balance|e] eqn:CB; [|discriminate].
  cbn [bind]. intros [= <-]. exists income, balance.
  apply consolidate_statement_ok in CI, CB. subst.
  repeat split; apply spec_statement_has_field.
Qed.

(** On consolidated statements [compute_ratios] never raises: it gives
    the empty outcome or the six ratios. *)
Lemma compute_ratios_consolidated (files : list workbook) (fin : dict DataFrame)
      (y : label) :
  consolidate_financials files = Some fin ->
  exists d, compute_ratios (Some fin) y = Ok d /\
    (d = [] \/
     dict_keys d = ["Net Profit Margin"; "Return on Assets (ROA)";
                    "Debt to Equity Ratio"; "Current Ratio"; "Gross Margin";
                    "Quick Ratio"]).
Proof using.
  intros H. apply consolidated_tables in H as (income & balance & -> & FI & FB).
  rewrite (compute_ratios_resolution
             [("Income Statement", income); ("Balance Sheet", balance)]
             income balance y eq_refl eq_refl FI FB).
  destruct (resolve_year income balance y) as [ly|].
  - eexists. split; [reflexivity|]. right. reflexivity.
  - exists []. split; [reflexivity|]. now left.
Qed.


(** ** The result of the pipeline *)


(** ** Further properties of the ratio engine *)

Lemma fillna_empty_idem (c : cell) : fillna_empty (fillna_empty c) = fillna_empty c.
Proof using. now destruct c. Qed.

Lemma set_nth_twice (i : nat) (f : cell -> cell) (r : list cell) :
  set_nth i f (set_nth i f r) = set_nth i (fun c => f (f c)) r.
Proof using.
  revert i. induction r as [|c t IH]; intros [|i]; simpl; try reflexivity.
  now rewrite IH.
Qed.

Lemma set_nth_ext (i : nat) (f g : cell -> cell) (r : list cell) :
  (forall c, f c = g c) -> set_nth i f r = set_nth i g r.
Proof using.
  intros H. revert i. induction r as [|c t IH]; intros [|i]; simpl; try reflexivity.
  - now rewrite H.
  - now rewrite IH.
Qed.

Lemma filled_idem (df : DataFrame) : filled (filled df) = filled df.
Proof using.
  unfold filled at 2. unfold update_column.
  destruct (col_index Field (columns df)) as [i|] eqn:E.
  - unfold filled, update_column. cbn [columns rows]. rewrite E. f_equal.
    rewrite map_map. apply map_ext. intros r. rewrite set_nth_twice.
    apply set_nth_ext, fillna_empty_idem.
  - unfold filled, update_column. now rewrite E.
Qed.

Lemma dict_find_set_same {V : Type} (d : dict V) (k : string) (v : V) :
  dict_find (dict_set d k v) k
  = match dict_find d k with Some _ => Some v | None => None end.
Proof using.
  unfold dict_set. induction d as [|[k' v'] t IH]; simpl; [reflexivity|].
  destruct (String.eqb k k') eqn:E; simpl; rewrite E; [reflexivity | exact IH].
Qed.

Lemma dict_find_set_other {V : Type} (d : dict V) (k k' : string) (v : V) :
  k <> k' -> dict_find (dict_set d k v) k' = dict_find d k'.
Proof using.
  intros NE. unfold dict_set. induction d as [|[k0 v0] t IH]; simpl; [reflexivity|].
  destruct (String.eqb k k0) eqn:E; simpl.
  - apply String.eqb_eq in E. subst k0.
    destruct (String.eqb k' k) eqn:E'; [|exact IH].
    apply String.eqb_eq in E'. now subst.
  - destruct (String.eqb k' k0); [reflexivity | exact IH].
Qed.


Lemma update_column_ok (df df' : DataFrame) :
  update_column df Field fillna_empty = Ok df' ->
  df' = filled df /\ in_columns Field df = true.
Proof using.
  intros H. unfold filled. rewrite H. split; [reflexivity|].
  unfold update_column in H. unfold in_columns.
  destruct (col_index Field (columns df)) as [i|] eqn:E; [|discriminate].
  apply col_index_in. eauto.
Qed.


Lemma field_is_fillna (name : string) (c : cell) :
  name <> "" -> field_is name (fillna_empty c) = field_is name c.
Proof using.
  intros NE. destruct c as [q| |s]; simpl; try reflexivity.
  destruct name; [contradiction | reflexivity].
Qed.

Lemma nth_set_nth_fillna (i : nat) (r : list cell) :
  nth i (set_nth i fillna_empty r) CNaN
  = match nth i r CNaN with CNaN => nth i (set_nth i fillna_empty r) CNaN
                          | c => c end.
Proof using.
  revert i. induction r as [|c t IH]; intros [|i]; simpl; try reflexivity.
  - now destruct c.
  - apply IH.
Qed.

Lemma matched_filled_cell (name : string) (i j : nat) (r : list cell) :
  name <> "" ->
  field_is name (nth i (set_nth i fillna_empty r) CNaN)
  = field_is name (nth i r CNaN) /\
  (field_is name (nth i r CNaN) = true ->
   nth j (set_nth i fillna_empty r) CNaN = nth j r CNaN).
Proof using.
  intros NE. split.
  - revert i. induction r as [|c t IH]; intros [|i]; simpl; try reflexivity.
    + now apply field_is_fillna.
    + apply IH.
  - intros M. destruct (Nat.eq_dec i j) as [<-|D].
    + rewrite nth_set_nth_fillna.
      destruct (nth i r CNaN); try reflexivity. discriminate.
    + now apply nth_set_nth_other.
Qed.

(** Replacing the missing labels by [""] changes no lookup of a label
    that is not empty. *)
Lemma get_value_filled (df : DataFrame) (name : string) (year : label) :
  name <> "" -> get_value (filled df) name year = get_value df name year.
Proof using.
  intros NE. unfold filled, update_column.
  destruct (col_index Field (columns df)) as [i|] eqn:EI; [|reflexivity].
  unfold get_value, column. cbn [columns rows]. rewrite EI. cbn [bind].
  destruct (col_index year (columns df)) as [j|] eqn:EJ; [|reflexivity].
  cbn [bind]. do 2 f_equal. rewrite !map_map.
  induction (rows df) as [|r t IH]; simpl; [reflexivity|].
  destruct (matched_filled_cell name i j r NE) as [E1 E2].
  rewrite E1. destruct (field_is name (nth i r CNaN)) eqn:M; simpl.
  - now rewrite E2.
  - apply IH.
Qed.

Lemma trend_entry_filled (df : DataFrame) (year : label) :
  trend_entry (filled df) year = trend_entry df year.
Proof using.
  unfold trend_entry. now rewrite !get_value_filled by discriminate.
Qed.

Lemma analyze_trends_income (fin fin' : dict DataFrame) (income : DataFrame) :
  dict_find fin "Income Statement" = Some income ->
  dict_find fin' "Income Statement" = Some (filled income) ->
  analyze_trends (Some fin') = analyze_trends (Some fin).
Proof using.
  intros H H'. unfold analyze_trends. rewrite H, H'. cbv zeta.
  rewrite columns_filled.
  destruct (filter _ (columns income)) as [|c t]; [reflexivity|].
  destruct (sort_years (c :: t)) as [ys|e]; [|reflexivity]. cbn [bind].
  assert (E : mapM (trend_entry (filled income)) ys = mapM (trend_entry income) ys).
  { induction ys as [|y0 t0 IH]; simpl; [reflexivity|].
    now rewrite trend_entry_filled, IH. }
  now rewrite E.
Qed.

(** What [compute_ratios] writes into the tables it is given (the
    missing labels replaced by [""]) changes neither the ratios of a
    second call nor the trends computed afterwards. *)
Theorem compute_ratios_mutation_harmless (fin : dict DataFrame) (y : label) :
  compute_ratios (Some (after_compute_ratios fin)) y = compute_ratios (Some fin) y /\
  analyze_trends (Some (after_compute_ratios fin)) = analyze_trends (Some fin).
Proof using.
  unfold after_compute_ratios.
  destruct (dict_find fin "Income Statement") as [income|] eqn:HI; [|now split].
  destruct (dict_find fin "Balance Sheet") as [balance|] eqn:HB; [|now split].
  destruct (update_column income Field fillna_empty) as [income'|e1] eqn:UI;
    [|now split].
  apply update_column_ok in UI as [-> FI].
  assert (NE : "Income Statement" <> "Balance Sheet") by discriminate.
  assert (NE' : "Balance Sheet" <> "Income Statement") by discriminate.
  assert (FI' : update_column (filled income) Field fillna_empty = Ok (filled income)).
  { rewrite update_column_filled by now rewrite in_columns_filled.
    now rewrite filled_idem. }
  destruct (update_column balance Field fillna_empty) as [balance'|e2] eqn:UB.
  - apply update_column_ok in UB as [-> FB].
    assert (FB' : update_column (filled balance) Field fillna_empty
                  = Ok (filled balance)).
    { rewrite update_column_filled by now rewrite in_columns_filled.
      now rewrite filled_idem. }
    set (fin1 := dict_set fin "Income Statement" (filled income)).
    assert (H1 : dict_find (dict_set fin1 "Balance Sheet" (filled balance))
                   "Income Statement" = Some (filled income)).
    { rewrite dict_find_set_other by assumption. unfold fin1.
      now rewrite dict_find_set_same, HI. }
    assert (H2 : dict_find (dict_set fin1 "Balance Sheet" (filled balance))
                   "Balance Sheet" = Some (filled balance)).
    { rewrite dict_find_set_same. unfold fin1.
      now rewrite dict_find_set_other, HB by assumption. }
    split.
    + unfold compute_ratios. rewrite H1, H2, HI, HB, FI', FB'.
      now rewrite (update_column_filled income FI), (update_column_filled balance FB).
    + now apply (analyze_trends_income fin _ income).
  - assert (H1 : dict_find (dict_set fin "Income Statement" (filled income))
                   "Income Statement" = Some (filled income))
      by now rewrite dict_find_set_same, HI.
    assert (H2 : dict_find (dict_set fin "Income Statement" (filled income))
                   "Balance Sheet" = Some balance)
      by now rewrite dict_find_set_other, HB by assumption.
    split.
    + unfold compute_ratios. rewrite H1, H2, HI, HB, FI', UB.
      now rewrite (update_column_filled income FI).
    + now apply (analyze_trends_income fin _ income).
Qed.

(** ** Further properties of the scorer *)

Lemma py_min_cap (a : Q) : (py_min a 1 == 1)%Q <-> (1 <= a)%Q.
Proof using.
  unfold py_min. destruct (Qle_bool a 1) eqn:E.
  - apply Qle_bool_iff in E. split; intros H; lra.
  - assert (H : ~ (a <= 1)%Q) by (intros H; apply Qle_bool_iff in H; congruence).
    split; intros _; [lra | reflexivity].
Qed.


Lemma score_ratios_cons (kv : string * Q) (t : dict Q) :
  let r := kv :: t in
  score_ratios r =
  (let sub_scores :=
     [("Profitability",
        ((dict_get r "Net Profit Margin" 0 * 100
          + dict_get r "Gross Margin" 0 * 100) / 2)%Q);
      ("Liquidity",
        ((py_min (dict_get r "Current Ratio" 0 / 2) 1 * 100
          + py_min (dict_get r "Quick Ratio" 0 / 1) 1 * 100) / 2)%Q);
      ("Leverage",
        ((1 - py_min (dict_get r "Debt to Equity Ratio" 0 / 3) 1) * 100)%Q);
      ("Efficiency",
        (py_min (dict_get r "Return on Assets (ROA)" 0 / (1 # 10)) 1 * 100)%Q)]
   in (sub_scores, (py_sum (dict_values sub_scores) / (4 # 1))%Q)).
Proof using. reflexivity. Qed.

(** Where the clamped sub-scores saturate: from a return on assets of
    0.1 Efficiency is 100, from a debt to equity ratio of 3 Leverage is
    0, and with a current ratio of at least 2 and a quick ratio of at
    least 1 Liquidity is 100. *)
Theorem score_ratios_saturation (ratios : dict Q) :
  ratios <> [] ->
  let sub_scores := fst (score_ratios ratios) in
  ((1 # 10 <= dict_get ratios "Return on Assets (ROA)" 0)%Q ->
   (dict_get sub_scores "Efficiency" 0 == 100)%Q) /\
  ((3 <= dict_get ratios "Debt to Equity Ratio" 0)%Q ->
   (dict_get sub_scores "Leverage" 0 == 0)%Q) /\
  ((2 <= dict_get ratios "Current Ratio" 0)%Q ->
   (1 <= dict_get ratios "Quick Ratio" 0)%Q ->
   (dict_get sub_scores "Liquidity" 0 == 100)%Q).
Proof using.
  intros NE. destruct ratios as [|kv t]; [contradiction|]. clear NE.
  cbv zeta. rewrite (score_ratios_cons kv t). cbv zeta.
  remember (kv :: t) as r eqn:Hr. clear Hr.
  cbn [fst dict_get String.eqb Ascii.eqb Bool.eqb].
  set (cr := dict_get r "Current Ratio" 0).
  set (qr := dict_get r "Quick Ratio" 0).
  set (dte := dict_get r "Debt to Equity Ratio" 0).
  set (roa := dict_get r "Return on Assets (ROA)" 0).
  pose proof (py_min_cap (cr / 2)) as C.
  pose proof (py_min_cap (qr / 1)) as K.
  pose proof (py_min_cap (dte / 3)) as D.
  pose proof (py_min_cap (roa / (1 # 10))) as R.
  assert (Ec : (2 <= cr)%Q -> (1 <= cr / 2)%Q).
  { clearbody cr. intros H.
    setoid_replace cr with (cr / 2 * 2)%Q in H by field. lra. }
  assert (Ek : (1 <= qr)%Q -> (1 <= qr / 1)%Q).
  { clearbody qr. setoid_replace (qr / 1)%Q with qr by field. trivial. }
  assert (Ed : (3 <= dte)%Q -> (1 <= dte / 3)%Q).
  { clearbody dte. intros H.
    setoid_replace dte with (dte / 3 * 3)%Q in H by field. lra. }
  assert (Er : (1 # 10 <= roa)%Q -> (1 <= roa / (1 # 10))%Q).
  { clearbody roa. intros H.
    setoid_replace roa with (roa / (1 # 10) * (1 # 10))%Q in H by field. lra. }
  split; [|split].
  - intros H. apply Er, R in H. rewrite H. reflexivity.
  - intros H. apply Ed, D in H. rewrite H. reflexivity.
  - intros H1 H2. apply Ec, C in H1. apply Ek, K in H2. rewrite H1, H2. reflexivity.
Qed.


(** ** Further properties of the consolidation *)

Lemma consolidate_financials_sheets (files files' : list workbook) :
  sheets_named "Income Statement" files = sheets_named "Income Statement" files' ->
  sheets_named "Balance Sheet" files = sheets_named "Balance Sheet" files' ->
  consolidate_financials files = consolidate_financials files'.
Proof using.
  intros HI HB. unfold consolidate_financials.
  now rewrite !collect_sheets_named, HI, HB.
Qed.

Lemma sheets_named_app (name : string) (l1 l2 : list workbook) :
  sheets_named name (l1 ++ l2) = sheets_named name l1 ++ sheets_named name l2.
Proof using. unfold sheets_named. apply flat_map_app. Qed.

(** A path that could not be read and a workbook with neither sheet
    leave the consolidation as it is without them, and the two
    statements are collected independently: a workbook holding both
    sheets counts as two workbooks holding one sheet each. *)
Theorem consolidate_financials_collects (l1 l2 : list workbook) :
  consolidate_financials (l1 ++ None :: l2) = consolidate_financials (l1 ++ l2) /\
  (forall sh,
     dict_find sh "Income Statement" = None ->
     dict_find sh "Balance Sheet" = None ->
     consolidate_financials (l1 ++ Some sh :: l2) = consolidate_financials (l1 ++ l2)) /\
  (forall sh i b,
     dict_find sh "Income Statement" = Some i ->
     dict_find sh "Balance Sheet" = Some b ->
     consolidate_financials (l1 ++ Some sh :: l2)
     = consolidate_financials
         (l1 ++ Some [("Income Statement", i)] :: Some [("Balance Sheet", b)] :: l2)).
Proof using.
  split; [|split].
  - apply consolidate_financials_sheets; now rewrite !sheets_named_app.
  - intros sh HI HB.
    apply consolidate_financials_sheets; rewrite !sheets_named_app;
      unfold sheets_named; cbn [flat_map]; now rewrite ?HI, ?HB.
  - intros sh i b HI HB.
    apply consolidate_financials_sheets; rewrite !sheets_named_app;
      unfold sheets_named; cbn [flat_map dict_find String.eqb Ascii.eqb Bool.eqb];
      now rewrite ?HI, ?HB.
Qed.

(** ** Further properties of the trend analysis *)

Lemma trend_margin_eq (revenue pat : Q) :
  (if nonzero revenue then q <- py_div pat revenue ;; Ok (q * 100)%Q else Ok 0%Q)
  = Ok (trend_margin revenue pat).
Proof using.
  unfold nonzero, py_div, trend_margin.
  destruct (Qeq_bool revenue 0); reflexivity.
Qed.

Lemma trend_entries_ok (income : DataFrame) (ys : list label) :
  in_columns Field income = true ->
  (forall y, In y ys -> in_columns y income = true) ->
  mapM (trend_entry income) ys
  = Ok (map (fun y => mkEntry y
                        (line_item income "Revenue from operations" y)
                        (line_item income "Profit/(Loss) for the year" y)
                        (trend_margin (line_item income "Revenue from operations" y)
                                      (line_item income "Profit/(Loss) for the year" y)))
            ys).
Proof using.
  intros HF HY. induction ys as [|y t IH]; simpl; [reflexivity|].
  unfold trend_entry at 1.
  rewrite !(get_value_line_item income _ y HF (HY y (or_introl eq_refl))).
  cbn [bind]. rewrite trend_margin_eq. cbn [bind].
  rewrite IH; [reflexivity|]. intros z Hz. apply HY. now right.
Qed.

(** On a statement with a [Field] column, whenever the years can be
    ordered the trend table holds, for each year, the two line items
    and the guarded margin. *)
Lemma analyze_trends_sorted (fin : dict DataFrame) (income : DataFrame)
      (ys : list label) :
  dict_find fin "Income Statement" = Some income ->
  in_columns Field income = true ->
  year_columns_of income <> [] ->
  sort_years (year_columns_of income) = Ok ys ->
  analyze_trends (Some fin) = Ok (trend_table_of income ys).
Proof using.
  intros HI HF NE HS. unfold analyze_trends. rewrite HI. cbv zeta.
  fold (year_columns_of income).
  destruct (year_columns_of income) as [|c t] eqn:EY; [contradiction|].
  rewrite <- EY in *. rewrite HS. cbn [bind].
  pose proof (sort_years_perm _ _ HS) as P.
  rewrite (trend_entries_ok income ys HF).
  2: { intros y Hy. apply (Permutation_in _ P) in Hy.
       unfold year_columns_of in Hy. apply filter_In in Hy as [Hy _].
       now apply existsb_In_label. }
  cbn [bind]. destruct ys as [|y0 t0].
  { apply Permutation_nil in P. congruence. }
  unfold trend_table_of. simpl. rewrite !map_map. simpl.
  do 2 f_equal. now rewrite map_id.
Qed.

Lemma mapM_year_key_total (years : list label) :
  (forall y, In y years -> label_int y <> None) ->
  exists keys, mapM year_key years = Ok keys.
Proof using.
  induction years as [|y t IH]; simpl; intros H; [eauto|].
  unfold year_key at 1.
  destruct (label_int y) as [k|] eqn:E.
  - destruct IH as [ks Hk]; [intros z Hz; apply H; now right|].
    rewrite Hk. cbn [bind]. eauto.
  - exfalso. now apply (H y (or_introl eq_refl)).
Qed.

(** [analyze_trends] on a statement that has a [Field] column and year
    columns.  When every year header is an integer, or text that reads
    as one, it returns the table of the line items with the years in
    ascending numeric order; when the headers are all text and one of
    them is no integer, the same table with the years in ascending
    order of their text. *)
Theorem analyze_trends_table (fin : dict DataFrame) (income : DataFrame) :
  dict_find fin "Income Statement" = Some income ->
  in_columns Field income = true ->
  year_columns_of income <> [] ->
  ((forall y, In y (year_columns_of income) -> label_int y <> None) ->
   exists ys,
     analyze_trends (Some fin) = Ok (trend_table_of income ys) /\
     Permutation ys (year_columns_of income) /\ StronglySorted year_le ys) /\
  (forallb is_text_label (year_columns_of income) = true ->
   (exists y, In y (year_columns_of income) /\ label_int y = None) ->
   exists ys,
     analyze_trends (Some fin) = Ok (trend_table_of income ys) /\
     Permutation ys (year_columns_of income) /\ StronglySorted text_le ys).
Proof using.
  intros HI HF NE. split.
  - intros HP. destruct (mapM_year_key_total _ HP) as [keys Hk].
    destruct (sort_years_numeric _ _ Hk) as (ys & ES & P & S).
    exists ys. split; [|now split]. now apply analyze_trends_sorted.
  - intros HT HN. destruct (sort_years_text _ HT HN) as (ys & ES & P & S).
    exists ys. split; [|now split]. now apply analyze_trends_sorted.
Qed.

(** ** Ratios and the order of the files *)

Lemma line_item_filled (df : DataFrame) (name : string) (year : label) :
  in_columns Field df = true -> in_columns year df = true -> name <> "" ->
  line_item (filled df) name year = line_item df name year.
Proof using.
  intros HF HY NE.
  pose proof (get_value_filled df name year NE) as G.
  rewrite (get_value_line_item df name year HF HY) in G.
  rewrite (get_value_line_item (filled df) name year) in G
    by now rewrite in_columns_filled.
  now injection G.
Qed.

Lemma in_columns_perm (a b : DataFrame) (l : label) :
  Permutation (columns a) (columns b) -> in_columns l a = in_columns l b.
Proof using. intros P. now apply existsb_perm. Qed.

Lemma resolve_year_perm (i1 i2 b1 b2 : DataFrame) (y : label) :
  Permutation (columns i1) (columns i2) -> Permutation (columns b1) (columns b2) ->
  resolve_year i1 b1 y = resolve_year i2 b2 y.
Proof using.
  intros SI SB. unfold resolve_year. cbv zeta.
  rewrite (in_columns_perm i1 i2 _ SI), (in_columns_perm b1 b2 _ SB).
  destruct (label_int y) as [z|]; [|reflexivity].
  now rewrite (in_columns_perm i1 i2 _ SI), (in_columns_perm b1 b2 _ SB).
Qed.

Lemma same_outcome_kind (c1 c2 : result (dict Q)) (d1 d2 : dict Q) :
  c1 = Ok d1 -> c2 = Ok d2 -> dict_keys d1 = dict_keys d2 ->
  d1 = [] \/ dict_keys d1 = ["Net Profit Margin"; "Return on Assets (ROA)";
                             "Debt to Equity Ratio"; "Current Ratio";
                             "Gross Margin"; "Quick Ratio"] ->
  match c1, c2 with
  | Ok d, Ok d' =>
      dict_keys d = dict_keys d' /\
      (d = [] \/ dict_keys d = ["Net Profit Margin"; "Return on Assets (ROA)";
                                "Debt to Equity Ratio"; "Current Ratio";
                                "Gross Margin"; "Quick Ratio"])
  | _, _ => False
  end.
Proof using. intros -> -> K S. now split. Qed.

(** The order in which the files are given changes neither whether
    the consolidation fails nor what kind of outcome the ratio engine
    has on it, for any fiscal year: it raises on neither, and it gives
    the empty outcome on both or the same six ratios by name on both.
    The columns of the consolidated statements may come in another
    order; the year is looked up by label. *)
Theorem compute_ratios_file_order (files files' : list workbook) (y : label) :
  Permutation files files' ->
  (consolidate_financials files = None <-> consolidate_financials files' = None) /\
  match compute_ratios (consolidate_financials files) y,
        compute_ratios (consolidate_financials files') y with
  | Ok d, Ok d' =>
      dict_keys d = dict_keys d' /\
      (d = [] \/ dict_keys d = ["Net Profit Margin"; "Return on Assets (ROA)";
                                "Debt to Equity Ratio"; "Current Ratio";
                                "Gross Margin"; "Quick Ratio"])
  | _, _ => False
  end.
Proof using.
  intros P.
  assert (PI : Permutation (sheets_named "Income Statement" files)
                           (sheets_named "Income Statement" files'))
    by (unfold sheets_named; now apply Permutation_flat_map).
  assert (PB : Permutation (sheets_named "Balance Sheet" files)
                           (sheets_named "Balance Sheet" files'))
    by (unfold sheets_named; now apply Permutation_flat_map).
  pose proof (consolidate_statement_perm _ _ PI) as CI.
  pose proof (consolidate_statement_perm _ _ PB) as CB.
  unfold consolidate_financials. rewrite !collect_sheets_named. cbn [fst snd].
  destruct (sheets_named "Income Statement" files) as [|i it] eqn:EI.
  { apply Permutation_nil in PI. rewrite PI.
    split; [now split|]. split; [reflexivity | now left]. }
  destruct (sheets_named "Income Statement" files') as [|i' it'] eqn:EI'.
  { apply Permutation_sym, Permutation_nil in PI. discriminate. }
  destruct (sheets_named "Balance Sheet" files) as [|b bt] eqn:EB.
  { apply Permutation_nil in PB. rewrite PB.
    split; [now split|]. split; [reflexivity | now left]. }
  destruct (sheets_named "Balance Sheet" files') as [|b' bt'] eqn:EB'.
  { apply Permutation_sym, Permutation_nil in PB. discriminate. }
  destruct (consolidate_statement (i :: it)) as [i1|e1] eqn:E1,
           (consolidate_statement (i' :: it')) as [i2|e2] eqn:E2;
    try contradiction; cbn [bind];
    [|split; [now split|]; split; [reflexivity | now left]].
  destruct (consolidate_statement (b :: bt)) as [b1|e3] eqn:E3,
           (consolidate_statement (b' :: bt')) as [b2|e4] eqn:E4;
    try contradiction; cbn [bind];
    [|split; [now split|]; split; [reflexivity | now left]].
  split; [split; discriminate|].
  destruct CI as [CI _], CB as [CB _].
  apply consolidate_statement_ok in E1 as F1, E3 as F3, E2 as F2, E4 as F4.
  assert (FI : in_columns Field i1 = true) by (rewrite F1; apply spec_statement_has_field).
  assert (FB : in_columns Field b1 = true) by (rewrite F3; apply spec_statement_has_field).
  assert (FI2 : in_columns Field i2 = true) by (rewrite F2; apply spec_statement_has_field).
  assert (FB2 : in_columns Field b2 = true) by (rewrite F4; apply spec_statement_has_field).
  pose proof (compute_ratios_resolution
                [("Income Statement", i1); ("Balance Sheet", b1)]
                i1 b1 y eq_refl eq_refl FI FB) as R1.
  pose proof (compute_ratios_resolution
                [("Income Statement", i2); ("Balance Sheet", b2)]
                i2 b2 y eq_refl eq_refl FI2 FB2) as R2.
  rewrite <- (resolve_year_perm i1 i2 b1 b2 y CI CB) in R2.
  destruct (resolve_year i1 b1 y) as [ly|].
  - apply (same_outcome_kind _ _ _ _ R1 R2); [reflexivity | right; reflexivity].
  - apply (same_outcome_kind _ _ _ _ R1 R2); [reflexivity | now left].
Qed.

(** ** The upload endpoint *)

Lemma split_last_dot_none (s : string) :
  split_last_dot s = None <-> contains_dot s = false.
Proof using.
  induction s as [|c r IH]; simpl; [now split|].
  destruct (split_last_dot r) as [[h t]|].
  - split; [discriminate|]. intros H. apply orb_false_iff in H as [_ H].
    apply IH in H. discriminate.
  - destruct (Ascii.eqb c ".") eqn:E; simpl.
    + split; discriminate.
    + split; intros _; [now apply IH | reflexivity].
Qed.

Lemma split_last_dot_some (s h t : string) :
  split_last_dot s = Some (h, t) -> s = (h ++ "." ++ t)%string /\ contains_dot t = false.
Proof using.
  revert h. induction s as [|c r IH]; simpl; intros h H; [discriminate|].
  destruct (split_last_dot r) as [[h' t']|] eqn:E.
  - injection H as <- <-. destruct (IH h' eq_refl) as [-> D]. now split.
  - destruct (Ascii.eqb c ".") eqn:EC; [|discriminate].
    injection H as <- <-. apply Ascii.eqb_eq in EC. subst c.
    split; [reflexivity|]. now apply split_last_dot_none.
Qed.

Lemma split_last_dot_app (stem ext : string) :
  contains_dot ext = false -> split_last_dot (stem ++ "." ++ ext)%string = Some (stem, ext).
Proof using.
  intros D. induction stem as [|c r IH]; simpl in *.
  - apply split_last_dot_none in D. now rewrite D.
  - now rewrite IH.
Qed.

Lemma lower_char_dot (c : ascii) :
  Ascii.eqb (lower_char c) "." = Ascii.eqb c ".".
Proof using.
  destruct c as [[] [] [] [] [] [] [] []]; reflexivity.
Qed.

Lemma contains_dot_lower (s : string) :
  contains_dot (lower s) = contains_dot s.
Proof using.
  induction s as [|c r IH]; simpl; [reflexivity|].
  now rewrite lower_char_dot, IH.
Qed.

Lemma contains_dot_app (stem ext : string) :
  contains_dot (stem ++ "." ++ ext)%string = true.
Proof using.
  induction stem as [|c r IH]; simpl in *; [reflexivity|].
  rewrite IH. apply orb_true_r.
Qed.

(** A file name is allowed exactly when it ends with a dot followed by
    [xlsx] in any letter case; in particular the part before the dot
    may be empty, and only the last extension counts. *)
Theorem allowed_file_spec (name : string) :
  allowed_file name = true <->
  exists stem ext, name = (stem ++ "." ++ ext)%string /\ lower ext = "xlsx".
Proof using.
  unfold allowed_file, rsplit_dot. split.
  - intros H. apply andb_true_iff in H as [_ H].
    destruct (split_last_dot name) as [[h t]|] eqn:E; [|discriminate].
    apply split_last_dot_some in E as [-> _]. cbn in H.
    rewrite orb_false_r in H. apply String.eqb_eq in H.
    now exists h, t.
  - intros (stem & ext & -> & L).
    rewrite contains_dot_app.
    assert (D : contains_dot ext = false)
      by now rewrite <- contains_dot_lower, L.
    rewrite (split_last_dot_app stem ext D). cbn.
    now rewrite L.
Qed.

Lemma allowed_file_nonempty (name : string) :
  allowed_file name = true -> String.eqb name "" = false.
Proof using. now destruct name. Qed.

Lemma dict_find_os_remove (fs : file_system) (p q : string) :
  dict_find (os_remove fs p) q = if String.eqb q p then None else dict_find fs q.
Proof using.
  unfold os_remove. induction fs as [|[k v] t IH]; simpl.
  - now destruct (String.eqb q p).
  - destruct (String.eqb p k) eqn:E; simpl.
    + apply String.eqb_eq in E. subst k. rewrite IH.
      now destruct (String.eqb q p).
    + destruct (String.eqb q k) eqn:E'; [|exact IH].
      apply String.eqb_eq in E'. subst k.
      now rewrite String.eqb_sym, E.
Qed.

Lemma dict_find_fs_write (fs : file_system) (p data q : string) :
  dict_find (fs_write fs p data) q
  = if String.eqb q p then Some data else dict_find fs q.
Proof using.
  unfold fs_write. cbn [dict_find]. rewrite dict_find_os_remove.
  now destruct (String.eqb q p).
Qed.

Lemma dict_find_remove_uploads (file_paths : list string) (fs : file_system)
      (q : string) :
  dict_find (remove_uploads fs file_paths) q
  = if existsb (String.eqb q) file_paths then None else dict_find fs q.
Proof using.
  unfold remove_uploads. revert fs.
  induction file_paths as [|p t IH]; intros fs; simpl; [reflexivity|].
  rewrite IH. unfold os_path_exists.
  destruct (String.eqb q p) eqn:E; simpl.
  - apply String.eqb_eq in E. subst p.
    destruct (existsb (String.eqb q) t); [reflexivity|].
    destruct (dict_find fs q) eqn:F.
    + now rewrite dict_find_os_remove, String.eqb_refl.
    + exact F.
  - destruct (existsb (String.eqb q) t); [reflexivity|].
    destruct (dict_find fs p); [|reflexivity].
    now rewrite dict_find_os_remove, E.
Qed.

Lemma upload_check (file : FileStorage) :
  negb (String.eqb (filename file) "") && allowed_file (filename file)
  = allowed_file (filename file).
Proof using.
  destruct (allowed_file (filename file)) eqn:A.
  - now rewrite (allowed_file_nonempty _ A).
  - apply andb_false_r.
Qed.

(** The loop saves a prefix of the files and stops at the first file
    that is not allowed or cannot be written. *)
Lemma save_uploads_prefix (files : list FileStorage) (fs : file_system)
      (acc : list string) :
  exists saved rest fs1 outcome leftover,
    files = saved ++ rest /\
    save_uploads fs files acc = (fs1, acc ++ map upload_path saved, outcome) /\
    (forall q, dict_find fs1 q
               = match leftover with
                 | Some (p, written) =>
                     if String.eqb q p then Some written
                     else match last_saved saved q with
                          | Some data => Some data
                          | None => dict_find fs q
                          end
                 | None =>
                     match last_saved saved q with
                     | Some data => Some data
                     | None => dict_find fs q
                     end
                 end) /\
    (forall f, In f saved ->
       allowed_file (filename f) = true /\ save_error (upload_path f) = None) /\
    match outcome with
    | AllSaved => rest = [] /\ leftover = None
    | NotAllowed =>
        leftover = None /\
        exists f r, rest = f :: r /\ allowed_file (filename f) = false
    | SaveRaised msg =>
        exists f r, rest = f :: r /\ allowed_file (filename f) = true /\
                    save_error (upload_path f) = Some msg /\
                    leftover = option_map (pair (upload_path f))
                                          (save_leaves (upload_path f) (stream f))
    end.
Proof using.
  revert fs acc. induction files as [|file t IH]; intros fs acc.
  - exists [], [], fs, AllSaved, None. simpl. rewrite app_nil_r.
    split; [reflexivity|]. split; [reflexivity|]. split; [reflexivity|].
    split; [intros f []|now split].
  - cbn [save_uploads]. rewrite upload_check.
    destruct (allowed_file (filename file)) eqn:A.
    2: { exists [], (file :: t), fs, NotAllowed, None. simpl. rewrite app_nil_r.
         split; [reflexivity|]. split; [reflexivity|]. split; [reflexivity|].
         split; [intros f []|]. split; [reflexivity|]. now exists file, t. }
    cbv zeta. fold (upload_path file).
    destruct (save_error (upload_path file)) as [msg|] eqn:S.
    { destruct (save_leaves (upload_path file) (stream file)) as [written|] eqn:W.
      - exists [], (file :: t), (fs_write fs (upload_path file) written),
          (SaveRaised msg), (Some (upload_path file, written)).
        simpl. rewrite app_nil_r.
        split; [reflexivity|]. split; [reflexivity|].
        split; [intros q; apply dict_find_fs_write|].
        split; [intros f []|]. exists file, t. now rewrite W.
      - exists [], (file :: t), fs, (SaveRaised msg), None.
        simpl. rewrite app_nil_r.
        split; [reflexivity|]. split; [reflexivity|]. split; [reflexivity|].
        split; [intros f []|]. exists file, t. now rewrite W. }
    destruct (IH (fs_write fs (upload_path file) (stream file))
                 (acc ++ [upload_path file]))
      as (saved & rest & fs1 & outcome & leftover & E & R & L & OK & O).
    exists (file :: saved), rest, fs1, outcome, leftover. split; [now rewrite E|].
    split; [rewrite R; now rewrite <- app_assoc|].
    split; [|split; [|exact O]].
    + intros q. rewrite L. cbn [last_saved].
      assert (X : match last_saved saved q with
                  | Some data => Some data
                  | None => dict_find (fs_write fs (upload_path file) (stream file)) q
                  end
                  = match
                      match last_saved saved q with
                      | Some data => Some data
                      | None => if String.eqb q (upload_path file)
                                then Some (stream file) else None
                      end
                    with
                    | Some data => Some data
                    | None => dict_find fs q
                    end).
      { destruct (last_saved saved q); [reflexivity|].
        rewrite dict_find_fs_write. now destruct (String.eqb q (upload_path file)). }
      rewrite X. reflexivity.
    + intros f [<-|Hf]; [now split | now apply OK].
Qed.

Lemma last_saved_In (files : list FileStorage) (f : FileStorage) :
  In f files -> exists data, last_saved files (upload_path f) = Some data.
Proof using.
  induction files as [|g t IH]; intros H; [destruct H|]. cbn [last_saved].
  destruct (last_saved t (upload_path f)) as [d|] eqn:E; [eauto|].
  destruct H as [->|H].
  - rewrite String.eqb_refl. eauto.
  - destruct (IH H) as [d Hd]. congruence.
Qed.

Lemma last_saved_none (files : list FileStorage) (p : string) :
  last_saved files p = None <-> existsb (String.eqb p) (map upload_path files) = false.
Proof using.
  induction files as [|g t IH]; simpl; [now split|].
  destruct (last_saved t p) as [d|].
  - split; [discriminate|]. intros H. apply orb_false_iff in H as [_ H].
    apply IH in H. discriminate.
  - destruct (String.eqb p (upload_path g)); simpl.
    + split; discriminate.
    + exact IH.
Qed.

(** When every file is allowed and can be written, the loop saves them
    all. *)
Lemma save_uploads_all (files : list FileStorage) (fs : file_system) :
  (forall f, In f files ->
     allowed_file (filename f) = true /\ save_error (upload_path f) = None) ->
  exists fs1,
    save_uploads fs files [] = (fs1, map upload_path files, AllSaved) /\
    forall q, dict_find fs1 q
              = match last_saved files q with
                | Some data => Some data
                | None => dict_find fs q
                end.
Proof using.
  intros OK.
  destruct (save_uploads_prefix files fs [])
    as (saved & rest & fs1 & outcome & leftover & E & R & L & _ & O).
  destruct outcome as [| |msg].
  - destruct O as [-> ->]. rewrite app_nil_r in E. subst saved. now exists fs1.
  - destruct O as (_ & f & r & -> & A).
    destruct (OK f) as [A' _]; [rewrite E; apply in_elt|]. congruence.
  - destruct O as (f & r & -> & _ & S & _).
    destruct (OK f) as [_ S']; [rewrite E; apply in_elt|]. congruence.
Qed.

Lemma read_uploaded (files : list FileStorage) (fs fs1 : file_system) :
  (forall q, dict_find fs1 q
             = match last_saved files q with
               | Some data => Some data
               | None => dict_find fs q
               end) ->
  map (read_financials fs1) (map upload_path files)
  = map (uploaded_workbook files) files.
Proof using.
  intros L. rewrite map_map. apply map_ext_in. intros f Hf.
  unfold read_financials, uploaded_workbook. rewrite L.
  destruct (last_saved_In files f Hf) as [d ->]. reflexivity.
Qed.

(** The two ways a request ends: accepted and analysed, or answered
    with an error message after a prefix of its files was saved.  In
    both, the files saved are removed; a file that a failing save
    wrote stays, unless an earlier file was saved under its path. *)
Lemma analyze_file_cases (fs : file_system) (req : option (list FileStorage)) :
  exists saved leftover,
    (forall q, dict_find (fst (analyze_file fs req)) q
               = left_on_disk (dict_find fs q) (map upload_path saved) leftover q) /\
    ((exists files,
        req = Some files /\ accepted files /\ saved = files /\ leftover = None /\
        snd (analyze_file fs req)
        = analysis_response (run_analysis (map (uploaded_workbook files) files)))
     \/
     ((forall files, req = Some files ->
         ~ accepted files /\ exists rest, files = saved ++ rest) /\
      (leftover = None \/
       exists files f rest msg,
         req = Some files /\ files = saved ++ f :: rest /\
         save_error (upload_path f) = Some msg /\
         leftover = option_map (pair (upload_path f))
                               (save_leaves (upload_path f) (stream f))) /\
      exists msg,
        snd (analyze_file fs req) = mkResponse 400 (error_result msg) \/
        snd (analyze_file fs req) = mkResponse 500 (error_result msg))).
Proof using.
  unfold analyze_file. destruct req as [files|].
  2: { exists [], None. split; [reflexivity|]. right. split; [discriminate|].
       split; [now left|]. eexists. left. reflexivity. }
  destruct files as [|f0 t].
  { exists [], None. split; [reflexivity|]. right. split.
    - intros files [= <-]. split; [now intros [H _] | now exists []].
    - split; [now left|]. eexists. left. reflexivity. }
  destruct (String.eqb (filename f0) "") eqn:E0.
  { exists [], None. split; [reflexivity|]. right. split.
    - intros files [= <-]. split; [|now exists (f0 :: t)].
      intros (_ & _ & OK). destruct (OK f0 (or_introl eq_refl)) as [A _].
      apply allowed_file_nonempty in A. congruence.
    - split; [now left|]. eexists. left. reflexivity. }
  destruct (MAX_FILES <? List.length (f0 :: t))%nat eqn:EM.
  { exists [], None. split; [reflexivity|]. right. split.
    - intros files [= <-]. split; [|now exists (f0 :: t)].
      intros (_ & Len & _). apply Nat.ltb_lt in EM. lia.
    - split; [now left|]. eexists. left. reflexivity. }
  apply Nat.ltb_ge in EM.
  destruct (save_uploads_prefix (f0 :: t) fs [])
    as (saved & rest & fs1 & outcome & leftover & E & R & L & OK & O).
  rewrite R. cbn [app fst snd]. exists saved, leftover. split.
  { intros q. rewrite dict_find_remove_uploads. unfold left_on_disk.
    destruct (existsb (String.eqb q) (map upload_path saved)) eqn:X; [reflexivity|].
    rewrite L. apply last_saved_none in X. rewrite X.
    destruct leftover as [[p written]|]; reflexivity. }
  destruct outcome as [| |msg].
  - destruct O as [-> ->]. rewrite app_nil_r in E. subst saved. left.
    exists (f0 :: t). split; [reflexivity|]. split.
    { split; [discriminate|]. split; assumption. }
    split; [reflexivity|]. split; [reflexivity|].
    rewrite (read_uploaded (f0 :: t) fs fs1 L). reflexivity.
  - right. destruct O as (-> & f & r & -> & A). split.
    + intros files [= <-]. split; [|now exists (f :: r)].
      intros (_ & _ & OK'). destruct (OK' f) as [A' _]; [rewrite E; apply in_elt|].
      congruence.
    + split; [now left|]. eexists. left. reflexivity.
  - right. destruct O as (f & r & -> & _ & S & ->). split.
    + intros files [= <-]. split; [|now exists (f :: r)].
      intros (_ & _ & OK'). destruct (OK' f) as [_ S']; [rewrite E; apply in_elt|].
      congruence.
    + split.
      * right. exists (f0 :: t), f, r, msg. now rewrite E.
      * eexists. right. reflexivity.
Qed.

Lemma has_error_error_result (msg : string) : has_error (error_result msg) = true.
Proof using. reflexivity. Qed.

Lemma analysis_response_status (result : dict value) :
  (status (analysis_response result) = 200%nat <->
   jsonify_error result = None /\ has_error result = false) /\
  (status (analysis_response result) = 200 \/
   status (analysis_response result) = 500)%nat /\
  (has_error (body (analysis_response result)) = true <->
   status (analysis_response result) <> 200%nat).
Proof using.
  unfold analysis_response.
  destruct (jsonify_error result) as [msg|]; cbn [status body].
  - split; [split; [discriminate | now intros [? _]]|].
    split; [now right|]. split; [discriminate | reflexivity].
  - destruct (has_error result) eqn:H; cbn [status body].
    + split; [split; [discriminate | now intros [_ ?]]|].
      split; [now right|]. split; [discriminate | now rewrite H].
    + split; [now split|]. split; [now left|]. rewrite H.
      split; [discriminate | now intros C].
Qed.

(** The handler answers with status 200, 400 or 500, and the body has
    an ["error"] entry exactly when the status is not 200.  The status
    is 200 exactly when the request is accepted (one to five files, all
    with allowed names, all written) and the analysis of the saved
    files gives a result without ["error"] that can be serialised. *)
Theorem analyze_file_status (fs : file_system) (req : option (list FileStorage)) :
  let resp := snd (analyze_file fs req) in
  (status resp = 200 \/ status resp = 400 \/ status resp = 500)%nat /\
  (has_error (body resp) = true <-> status resp <> 200%nat) /\
  (status resp = 200%nat <->
   exists files,
     req = Some files /\ accepted files /\
     let result := run_analysis (map (uploaded_workbook files) files) in
     jsonify_error result = None /\ has_error result = false /\ body resp = result).
Proof using.
  cbv zeta.
  destruct (analyze_file_cases fs req)
    as (saved & leftover & _ & [(files & -> & A & _ & _ & R)|(N & _ & msg & [R|R])]);
    rewrite R.
  - destruct (analysis_response_status
                (run_analysis (map (uploaded_workbook files) files)))
      as (S200 & S & HE).
    split; [destruct S; auto|]. split; [exact HE|]. split.
    + intros H. exists files. split; [reflexivity|]. split; [exact A|].
      apply S200 in H as [J E]. split; [exact J|]. split; [exact E|].
      unfold analysis_response. now rewrite J, E.
    + intros (files' & [= <-] & _ & J & E & _). apply S200. now split.
  - cbn [status body]. split; [auto|].
    split; [split; [discriminate | reflexivity]|].
    split; [discriminate|].
    intros (files & E & A & _). now destruct (N files E).
  - cbn [status body]. split; [auto|].
    split; [split; [discriminate | reflexivity]|].
    split; [discriminate|].
    intros (files & E & A & _). now destruct (N files E).
Qed.

Lemma existsb_eqb_In (q : string) (l : list string) :
  existsb (String.eqb q) l = true <-> In q l.
Proof using.
  rewrite existsb_exists. split.
  - intros (x & Hx & E). apply String.eqb_eq in E. now subst.
  - intros H. exists q. split; [assumption | apply String.eqb_refl].
Qed.

(** The loop on a request whose file [f] cannot be written, after the
    files before it were saved. *)
Lemma save_uploads_raised (saved : list FileStorage) (f : FileStorage)
      (rest : list FileStorage) (msg : string) (fs : file_system) (acc : list string) :
  (forall g, In g saved ->
     allowed_file (filename g) = true /\ save_error (upload_path g) = None) ->
  allowed_file (filename f) = true ->
  save_error (upload_path f) = Some msg ->
  exists fs1,
    save_uploads fs (saved ++ f :: rest) acc
    = (match save_leaves (upload_path f) (stream f) with
       | Some written => fs_write fs1 (upload_path f) written
       | None => fs1
       end, acc ++ map upload_path saved, SaveRaised msg).
Proof using.
  revert fs acc. induction saved as [|g t IH]; intros fs acc OK A S.
  - exists fs. cbn [app save_uploads map]. rewrite upload_check, A. cbv zeta.
    fold (upload_path f). rewrite S, app_nil_r. reflexivity.
  - destruct (OK g (or_introl eq_refl)) as [Ag Sg].
    destruct (IH (fs_write fs (upload_path g) (stream g)) (acc ++ [upload_path g]))
      as [fs1 E]; [intros h Hh; apply OK; now right | assumption | assumption |].
    exists fs1. cbn [app save_uploads map]. rewrite upload_check, Ag. cbv zeta.
    fold (upload_path g). rewrite Sg, E. now rewrite <- app_assoc.
Qed.

(** What a request leaves on disk.  After any request each path is
    absent, or holds what it held before, or holds what a [file.save]
    that raised had written to it.  A path under which no file of the
    request is saved holds what it held before.  After an accepted
    request every path a file was saved under is absent, also when a
    file was there before.  When [file.save] raises for a file after
    writing part of it, and no earlier file of the request was saved
    under the same path, what it wrote stays on disk: the path was
    never added to the list the clean-up goes through. *)
Theorem analyze_file_cleanup (fs : file_system) (req : option (list FileStorage)) :
  let fs' := fst (analyze_file fs req) in
  (forall p,
     dict_find fs' p = None \/ dict_find fs' p = dict_find fs p \/
     exists files f written,
       req = Some files /\ In f files /\ p = upload_path f /\
       save_error p <> None /\ save_leaves p (stream f) = Some written /\
       dict_find fs' p = Some written) /\
  (req = None -> fs' = fs) /\
  (forall files, req = Some files ->
     (forall p, (forall f, In f files -> upload_path f <> p) ->
        dict_find fs' p = dict_find fs p) /\
     (accepted files -> forall f, In f files -> dict_find fs' (upload_path f) = None) /\
     (forall saved f rest msg written,
        files = saved ++ f :: rest ->
        (List.length files <= MAX_FILES)%nat ->
        (forall g, In g saved ->
           allowed_file (filename g) = true /\ save_error (upload_path g) = None /\
           upload_path g <> upload_path f) ->
        allowed_file (filename f) = true ->
        save_error (upload_path f) = Some msg ->
        save_leaves (upload_path f) (stream f) = Some written ->
        dict_find fs' (upload_path f) = Some written)).
Proof using.
  cbv zeta.
  destruct (analyze_file_cases fs req) as (saved & leftover & L & C).
  split; [|split].
  - intros p. rewrite L. unfold left_on_disk.
    destruct (existsb (String.eqb p) (map upload_path saved)); [now left|].
    destruct leftover as [[q written]|]; [|now right; left].
    destruct (String.eqb p q) eqn:E; [|now right; left].
    apply String.eqb_eq in E. subst q. right. right.
    destruct C as [(files & _ & _ & _ & [=] & _)|(_ & [[=]|LO] & _)].
    destruct LO as (files & f & rest & msg & -> & -> & S & LO).
    destruct (save_leaves (upload_path f) (stream f)) as [w|] eqn:W; [|discriminate].
    injection LO as -> ->.
    exists (saved ++ f :: rest), f, w. split; [reflexivity|].
    split; [apply in_elt|]. split; [reflexivity|].
    split; [congruence|]. now split.
  - intros ->. reflexivity.
  - intros files ->. split; [|split].
    + intros p NP. rewrite L. unfold left_on_disk.
      destruct (existsb (String.eqb p) (map upload_path saved)) eqn:X.
      * apply existsb_eqb_In, in_map_iff in X as (f & <- & Hf).
        exfalso. apply (NP f); [|reflexivity].
        destruct C as [(files' & [= <-] & _ & -> & _)|(N & _)]; [assumption|].
        destruct (N files eq_refl) as (_ & rest & ->). apply in_or_app. now left.
      * destruct leftover as [[q written]|]; [|reflexivity].
        destruct (String.eqb p q) eqn:E; [|reflexivity].
        apply String.eqb_eq in E. subst q. exfalso.
        destruct C as [(files' & _ & _ & _ & [=] & _)|(_ & [[=]|LO] & _)].
        destruct LO as (files' & f & rest & msg & [= <-] & -> & S & LO).
        destruct (save_leaves (upload_path f) (stream f)); [|discriminate].
        injection LO as -> _. apply (NP f); [apply in_elt | reflexivity].
    + intros A f Hf. rewrite L. unfold left_on_disk.
      destruct C as [(files' & [= <-] & _ & -> & _)|(N & _)].
      * assert (X : existsb (String.eqb (upload_path f)) (map upload_path files) = true)
          by (apply existsb_eqb_In, in_map; assumption).
        now rewrite X.
      * now destruct (N files eq_refl).
    + intros sv f rest msg written -> Len OK A S W. clear L C.
      assert (OK' : forall g, In g sv ->
                      allowed_file (filename g) = true /\
                      save_error (upload_path g) = None)
        by (intros g Hg; destruct (OK g Hg) as (? & ? & _); now split).
      destruct (save_uploads_raised sv f rest msg fs [] OK' A S) as [fs1 E].
      unfold analyze_file.
      assert (F : match sv ++ f :: rest with
                  | [] => true
                  | first :: _ => String.eqb (filename first) ""
                  end = false).
      { destruct sv as [|g t]; cbn [app].
        - now apply allowed_file_nonempty.
        - apply allowed_file_nonempty. now apply (OK' g (or_introl eq_refl)). }
      rewrite F.
      assert (M : (MAX_FILES <? List.length (sv ++ f :: rest))%nat = false)
        by now apply Nat.ltb_ge.
      rewrite M, E, W. cbn [app fst snd].
      rewrite dict_find_remove_uploads.
      assert (X : existsb (String.eqb (upload_path f)) (map upload_path sv) = false).
      { destruct (existsb (String.eqb (upload_path f)) (map upload_path sv)) eqn:X;
          [|reflexivity].
        apply existsb_eqb_In, in_map_iff in X as (g & Eg & Hg).
        now destruct (OK g Hg) as (_ & _ & NE). }
      rewrite X, dict_find_fs_write. now rewrite String.eqb_refl.
Qed.

Lemma last_saved_NoDup (files : list FileStorage) (f : FileStorage) :
  NoDup (map upload_path files) -> In f files ->
  last_saved files (upload_path f) = Some (stream f).
Proof using.
  induction files as [|g t IH]; intros ND H; [destruct H|].
  cbn [map] in ND. apply NoDup_cons_iff in ND as [NI ND]. cbn [last_saved].
  destruct H as [->|H].
  - destruct (last_saved t (upload_path f)) as [d|] eqn:E.
    + exfalso. apply NI. apply existsb_eqb_In.
      destruct (existsb (String.eqb (upload_path f)) (map upload_path t)) eqn:X;
        [reflexivity|].
      apply last_saved_none in X. congruence.
    + now rewrite String.eqb_refl.
  - now rewrite (IH ND H).
Qed.

(** What an accepted request analyses.  The response is that of the
    analysis of the workbooks parsed from the saved files, whatever
    was on disk before.  Each file is read as it was uploaded when the
    files are saved under different paths; two files saved under the
    same path are both read as the second. *)
Theorem analyze_file_reads_uploads (fs : file_system) (files : list FileStorage) :
  accepted files ->
  snd (analyze_file fs (Some files))
  = analysis_response (run_analysis (map (uploaded_workbook files) files)) /\
  (NoDup (map upload_path files) ->
   map (uploaded_workbook files) files = map (fun f => read_excel (stream f)) files) /\
  (forall a b, files = [a; b] -> upload_path a = upload_path b ->
     map (uploaded_workbook files) files
     = [read_excel (stream b); read_excel (stream b)]).
Proof using.
  intros A. split; [|split].
  - destruct (analyze_file_cases fs (Some files))
      as (saved & leftover & _ & [(files' & [= <-] & _ & _ & _ & R)|(N & _)]);
      [exact R|].
    now destruct (N files eq_refl).
  - intros ND. apply map_ext_in. intros f Hf. unfold uploaded_workbook.
    now rewrite (last_saved_NoDup files f ND Hf).
  - intros a b -> E. unfold uploaded_workbook. cbn [map last_saved].
    rewrite E, !String.eqb_refl. reflexivity.
Qed.

(** ** The detected year and the ratio stage *)

Lemma digit_not_blank (c : ascii) :
  is_digit c = true ->
  int_space c = false /\ (nat_of_ascii c <? 128)%nat = true.
Proof using.
  destruct c as [[] [] [] [] [] [] [] []]; try discriminate; now split.
Qed.

Lemma digits_of_uint (d : Decimal.uint) :
  forallb is_digit (list_ascii_of_string (NilEmpty.string_of_uint d)) = true.
Proof using. induction d; simpl; try reflexivity; exact IHd. Qed.

Lemma digits_ascii (s : string) :
  forallb is_digit (list_ascii_of_string s) = true -> is_ascii s = true.
Proof using.
  unfold is_ascii. induction s as [|c r IH]; simpl; [reflexivity|].
  intros H. apply andb_true_iff in H as [D H].
  now rewrite (proj2 (digit_not_blank c D)), (IH H).
Qed.

Lemma int_rstrip_digits (s : string) :
  forallb is_digit (list_ascii_of_string s) = true -> int_rstrip s = s.
Proof using.
  induction s as [|c r IH]; simpl; [reflexivity|].
  intros H. apply andb_true_iff in H as [D H]. rewrite (IH H).
  destruct r; [|reflexivity]. now rewrite (proj1 (digit_not_blank c D)).
Qed.

Lemma digitpart_digits (s : string) :
  forallb is_digit (list_ascii_of_string s) = true -> digitpart true s = Some s.
Proof using.
  induction s as [|c r IH]; simpl; [reflexivity|].
  intros H. apply andb_true_iff in H as [D H]. now rewrite D, (IH H).
Qed.

Lemma parse_digits_of_uint (d : Decimal.uint) :
  d <> Decimal.Nil ->
  parse_digits (NilEmpty.string_of_uint d) = Some (Z.of_uint d) /\
  exists c r, NilEmpty.string_of_uint d = String c r /\ is_digit c = true /\
              forallb is_digit (list_ascii_of_string r) = true.
Proof using.
  intros NN. pose proof (digits_of_uint d) as D.
  pose proof (NilZero.usu d NN) as U.
  assert (S : NilZero.string_of_uint d = NilEmpty.string_of_uint d) by now destruct d.
  rewrite S in U.
  destruct (NilEmpty.string_of_uint d) as [|c r] eqn:E.
  { destruct d; try contradiction; discriminate. }
  simpl in D. apply andb_true_iff in D as [Dc Dr]. split.
  - unfold parse_digits. cbn [digitpart]. rewrite Dc, (digitpart_digits r Dr).
    cbn [option_map]. now rewrite U.
  - now exists c, r.
Qed.

Lemma int_ascii_digits (c : ascii) (r : string) :
  is_digit c = true -> forallb is_digit (list_ascii_of_string r) = true ->
  int_ascii (String c r) = parse_digits (String c r).
Proof using.
  intros Dc Dr. unfold int_ascii.
  cbn [int_lstrip]. rewrite (proj1 (digit_not_blank c Dc)).
  rewrite int_rstrip_digits by (simpl; now rewrite Dc, Dr).
  destruct c as [[] [] [] [] [] [] [] []]; try discriminate; reflexivity.
Qed.

(** [int(str(z))] is [z]. *)
Lemma py_int_str (z : Z) : py_int (py_str_int z) = Some z.
Proof using.
  unfold py_int, py_str_int.
  destruct z as [|p|p]; [reflexivity| |]; cbn [Z.to_int NilZero.string_of_int];
    pose proof (DecimalPos.Unsigned.to_uint_nonnil p) as NN;
    assert (S : NilZero.string_of_uint (Pos.to_uint p)
                = NilEmpty.string_of_uint (Pos.to_uint p))
      by (now destruct (Pos.to_uint p));
    rewrite S;
    destruct (parse_digits_of_uint _ NN) as (P & c & r & E & Dc & Dr);
    pose proof (digits_ascii _ (digits_of_uint (Pos.to_uint p))) as A.
  - rewrite A. rewrite E in *. rewrite (int_ascii_digits c r Dc Dr), P.
    unfold Z.of_uint. now rewrite DecimalPos.Unsigned.of_to.
  - assert (A' : is_ascii (String "-" (NilEmpty.string_of_uint (Pos.to_uint p))) = true)
      by (unfold is_ascii in *; cbn [list_ascii_of_string forallb]; now rewrite A).
    rewrite A'. unfold int_ascii. cbn [int_lstrip].
    change (int_space "-") with false. cbv iota.
    assert (R : int_rstrip (String "-" (NilEmpty.string_of_uint (Pos.to_uint p)))
                = String "-" (NilEmpty.string_of_uint (Pos.to_uint p))).
    { cbn [int_rstrip]. rewrite int_rstrip_digits by apply digits_of_uint.
      rewrite E. reflexivity. }
    rewrite R, P. cbn [option_map]. unfold Z.of_uint.
    now rewrite DecimalPos.Unsigned.of_to.
Qed.

(** [run_analysis] hands the text of an Income Statement year column
    to [compute_ratios].  When that column is also a column of the
    Balance Sheet the year is validated and the six ratios are read
    from that column, or from the column named by its text: an integer
    header is found again through [int(str(col))].  When the Balance
    Sheet has the year neither as text nor as integer, the result is
    the error about the auto-detected year. *)
Theorem detected_year_ratio_stage
        (fin : dict DataFrame) (income balance : DataFrame) (col : label) :
  dict_find fin "Income Statement" = Some income ->
  dict_find fin "Balance Sheet" = Some balance ->
  in_columns Field income = true ->
  in_columns Field balance = true ->
  in_columns col income = true ->
  let y := label_str col in
  (in_columns col balance = true ->
   exists ly,
     (ly = col \/ ly = LStr y) /\
     compute_ratios (Some fin) (LStr y)
     = Ok (ratio_set (filled income) (filled balance) ly)) /\
  (in_columns (LStr y) balance = false ->
   (forall z, label_int col = Some z -> in_columns (LInt z) balance = false) ->
   analyze_year fin y
   = Ok (error_result ("Failed to compute ratios for auto-detected year '"
                       ++ y ++ "'. Check data integrity."))).
Proof using.
  intros HI HB FI FB CI. cbv zeta.
  pose proof (compute_ratios_resolution fin income balance (LStr (label_str col))
                HI HB FI FB) as R.
  assert (PI : label_int (LStr (label_str col)) = label_int col \/
               exists s, col = LStr s).
  { destruct col as [s|z]; [right; eauto | left; apply py_int_str]. }
  split.
  - intros CB. unfold resolve_year in R. cbv zeta in R. cbn [label_str] in R.
    destruct (in_columns (LStr (label_str col)) income
              && in_columns (LStr (label_str col)) balance) eqn:E.
    + exists (LStr (label_str col)). split; [now right | exact R].
    + destruct col as [s|z].
      * cbn [label_str] in E. now rewrite CI, CB in E.
      * cbn [label_int label_str] in R. rewrite py_int_str, CI, CB in R.
        exists (LInt z). split; [now left | exact R].
  - intros NS NI. unfold analyze_year. rewrite R.
    assert (N : resolve_year income balance (LStr (label_str col)) = None).
    { unfold resolve_year. cbv zeta. cbn [label_str]. rewrite NS, andb_false_r.
      destruct (label_int (LStr (label_str col))) as [z|] eqn:EZ; [|reflexivity].
      rewrite NI, andb_false_r; [reflexivity|].
      destruct PI as [P|[s ->]]; [now symmetry | exact EZ]. }
    rewrite N. reflexivity.
Qed.

(** ** Line items of a consolidated statement *)





(** ** Edge cases of the trend analysis *)

Lemma insert_sorted_label_raise (x : label) (l : list label) (e : exn) :
  insert_sorted label_lt x l = Raise e -> e = TypeError.
Proof using.
  induction l as [|y t IH]; simpl; [discriminate|].
  destruct (label_lt x y) as [b|e'] eqn:L; cbn [bind].
  - destruct b; [discriminate|].
    destruct (insert_sorted label_lt x t) as [t'|e'] eqn:I; cbn [bind];
      [discriminate|].
    intros [= <-]. now apply IH.
  - intros [= <-]. destruct x, y; simpl in L; congruence.
Qed.

Lemma py_sorted_label_raise (l : list label) (e : exn) :
  py_sorted label_lt l = Raise e -> e = TypeError.
Proof using.
  unfold py_sorted.
  assert (G : forall acc : result (list label),
             (forall e', acc = Raise e' -> e' = TypeError) ->
             fold_left (fun acc x => s <- acc ;; insert_sorted label_lt x s) l acc
             = Raise e -> e = TypeError).
  { induction l as [|x t IH]; intros acc Hacc; simpl.
    - apply Hacc.
    - apply IH. intros e'. destruct acc as [s|e0]; cbn [bind].
      + apply insert_sorted_label_raise.
      + apply Hacc. }
  apply G. discriminate.
Qed.

Lemma mapM_year_key_cases (years : list label) :
  (exists keys, mapM year_key years = Ok keys) \/
  mapM year_key years = Raise ValueError.
Proof using.
  induction years as [|y t IH]; simpl; [left; eauto|].
  assert (YK : year_key y = match label_int y with
                            | Some z => Ok z
                            | None => Raise ValueError
                            end) by reflexivity.
  rewrite YK. destruct (label_int y) as [k|]; cbn [bind]; [|now right].
  destruct IH as [[ks ->]| ->]; cbn [bind]; [left; eauto | now right].
Qed.

(** Ordering the years either succeeds or raises [TypeError]. *)
Lemma sort_years_cases (years : list label) :
  (exists ys, sort_years years = Ok ys) \/ sort_years years = Raise TypeError.
Proof using.
  destruct (mapM_year_key_cases years) as [[keys K]|K].
  - destruct (sort_years_numeric years keys K) as (ys & E & _). left. eauto.
  - unfold sort_years. rewrite K.
    destruct (py_sorted label_lt years) as [ys|e] eqn:E; [left; eauto|].
    right. now rewrite (py_sorted_label_raise years e E).
Qed.

Lemma trend_entries_no_field (income : DataFrame) (y : label) (ys : list label) :
  in_columns Field income = false ->
  mapM (trend_entry income) (y :: ys) = Raise KeyError.
Proof using.
  intros NF. cbn [mapM]. unfold trend_entry at 1, get_value at 1, column at 1.
  apply col_index_none in NF. now rewrite NF.
Qed.

(** The edge cases of [analyze_trends].  It returns the empty table
    exactly when there is no Income Statement or the statement has no
    year column.  The only exceptions it raises are [TypeError], from
    ordering the years, and [KeyError]; it raises [KeyError] exactly
    when the years can be ordered and the statement, with at least one
    year column, has no [Field] column. *)
Theorem analyze_trends_edge_cases (fin : dict DataFrame) :
  (analyze_trends (Some fin) = Ok empty_trend <->
   dict_find fin "Income Statement" = None \/
   exists income, dict_find fin "Income Statement" = Some income /\
                  year_columns_of income = []) /\
  (forall e, analyze_trends (Some fin) = Raise e -> e = TypeError \/ e = KeyError) /\
  (analyze_trends (Some fin) = Raise KeyError <->
   exists income ys,
     dict_find fin "Income Statement" = Some income /\
     year_columns_of income <> [] /\
     sort_years (year_columns_of income) = Ok ys /\
     in_columns Field income = false).
Proof using.
  destruct (dict_find fin "Income Statement") as [income|] eqn:HI.
  2: { unfold analyze_trends. rewrite HI. split; [split; auto|].
       split; [discriminate|]. split; [discriminate|].
       now intros (i & ys & [=] & _). }
  destruct (year_columns_of income) as [|c t] eqn:EY.
  { unfold analyze_trends. rewrite HI. cbv zeta.
    fold (year_columns_of income). rewrite EY.
    split; [split; [right; exists income; auto | reflexivity]|].
    split; [discriminate|]. split; [discriminate|].
    intros (i & ys & [= <-] & NE & _). congruence. }
  assert (NE : year_columns_of income <> []) by (rewrite EY; discriminate).
  assert (NotEmpty : analyze_trends (Some fin) <> Ok empty_trend).
  { intros H. pose proof (analyze_trends_years fin income empty_trend HI H) as P.
    cbn [trend_years empty_trend] in P. apply Permutation_nil in P. congruence. }
  assert (Body : analyze_trends (Some fin)
                 = (sorted_years <- sort_years (year_columns_of income) ;;
                    trend_data <- mapM (trend_entry income) sorted_years ;;
                    match trend_data with
                    | [] => Ok empty_trend
                    | _ =>
                        Ok (mkTrend (map entry_year trend_data)
                              [("Revenue (in currency)", map entry_revenue trend_data);
                               ("Net Profit (in currency)",
                                map entry_net_profit trend_data);
                               ("Net Margin (%)", map entry_net_margin trend_data)])
                    end)).
  { unfold analyze_trends. rewrite HI. cbv zeta.
    fold (year_columns_of income). rewrite EY. reflexivity. }
  clear EY.
  split.
  { split; [intros H; contradiction|].
    intros [H|(i & [= <-] & H)]; [discriminate | contradiction]. }
  destruct (sort_years_cases (year_columns_of income)) as [[ys ES]|ES].
  - pose proof (sort_years_perm _ _ ES) as P.
    destruct (in_columns Field income) eqn:FI.
    + rewrite (analyze_trends_sorted fin income ys HI FI NE ES).
      split; [discriminate|]. split; [discriminate|].
      intros (i & ys' & [= <-] & _ & _ & F). congruence.
    + assert (R : analyze_trends (Some fin) = Raise KeyError).
      { rewrite Body, ES. cbn [bind]. destruct ys as [|y0 t0].
        - apply Permutation_nil in P. contradiction.
        - now rewrite (trend_entries_no_field income y0 t0 FI). }
      rewrite R. split; [intros e [= <-]; now right|].
      split; [intros _|reflexivity]. now exists income, ys.
  - rewrite Body, ES. cbn [bind].
    split; [intros e [= <-]; now left|]. split; [discriminate|].
    intros (i & ys & [= <-] & _ & S & _). congruence.
Qed.






(** ** Trends and ratios agree *)

Lemma trend_margin_guarded (revenue pat : Q) :
  trend_margin revenue pat = (guarded_ratio pat revenue * 100)%Q.
Proof using.
  unfold trend_margin, guarded_ratio. now destruct (Qeq_bool revenue 0).
Qed.

Lemma in_combine_map {A B : Type} (f : A -> B) (l : list A) (a : A) (b : B) :
  In (a, b) (combine l (map f l)) -> b = f a.
Proof using.
  induction l as [|x t IH]; simpl; [intros []|].
  intros [[= <- <-]|H]; [reflexivity | now apply IH].
Qed.

(** The trend table and the ratios agree on the net margin: for the
    year the ratios are computed for, the [Net Margin (%)] of the
    trend table is 100 times the [Net Profit Margin] ratio, and the
    year is one of the years of the table. *)
Theorem net_margin_consistent
        (fin : dict DataFrame) (income balance : DataFrame) (y ly : label)
        (trend : TrendTable) :
  dict_find fin "Income Statement" = Some income ->
  dict_find fin "Balance Sheet" = Some balance ->
  in_columns Field income = true ->
  in_columns Field balance = true ->
  resolve_year income balance y = Some ly ->
  ly <> Field ->
  analyze_trends (Some fin) = Ok trend ->
  exists ratios margins,
    compute_ratios (Some fin) y = Ok ratios /\
    dict_find (trend_rows trend) "Net Margin (%)" = Some margins /\
    In ly (trend_years trend) /\
    forall m, In (ly, m) (combine (trend_years trend) margins) ->
              m = (dict_get ratios "Net Profit Margin" 0 * 100)%Q.
Proof using.
  intros HI HB FI FB R NF HT.
  pose proof (compute_ratios_resolution fin income balance y HI HB FI FB) as C.
  rewrite R in C.
  pose proof (resolve_year_in_both income balance y ly R) as [YI _].
  assert (Y : In ly (year_columns_of income)).
  { apply filter_In. split; [now apply existsb_In_label|].
    apply negb_true_iff. destruct (label_eqb ly Field) eqn:E; [|reflexivity].
    apply label_eqb_eq in E. contradiction. }
  assert (NE : year_columns_of income <> []) by (intros E; rewrite E in Y; destruct Y).
  pose proof (analyze_trends_order fin income trend HI HT) as S.
  pose proof (analyze_trends_sorted fin income (trend_years trend) HI FI NE S) as T.
  rewrite HT in T. injection T as T.
  exists (ratio_set (filled income) (filled balance) ly).
  exists (map (fun y0 => trend_margin (line_item income "Revenue from operations" y0)
                                      (line_item income "Profit/(Loss) for the year" y0))
              (trend_years trend)).
  split; [exact C|]. split; [now rewrite T at 1|]. split.
  - apply (Permutation_in _ (Permutation_sym (sort_years_perm _ _ S))). exact Y.
  - intros m Hm. apply in_combine_map in Hm. subst m.
    rewrite trend_margin_guarded. unfold ratio_set. cbv zeta. cbn [dict_get String.eqb Ascii.eqb Bool.eqb].
    now rewrite !line_item_filled by (assumption || discriminate).
Qed.

End Pipeline.

(** ** Closed instances *)



Lemma compute_ratios_year_validation_witness :
  resolve_year no_unicode_int income_2024 balance_2024 (LStr "2024") = Some (LInt 2024) /\
  resolve_year no_unicode_int income_2024 balance_2024 (LInt 2024) = Some (LInt 2024) /\
  compute_ratios no_unicode_int no_number (Some financials_2024) (LStr "2024") <> Ok [].
Proof.
  exact (proj2 (proj2 (proj2
           (compute_ratios_year_validation no_unicode_int no_number financials_2024
              income_2024 balance_2024 (LStr "2024")
              eq_refl eq_refl eq_refl eq_refl)))
         eq_refl eq_refl).
Defined.

Lemma get_value_first_match_witness :
  exists q : Q,
    get_value no_number duplicate_rows "Revenue from operations" (LInt 2024) = Ok q /\
    q = 5%Q.
Proof.
  destruct (get_value_first_match no_number duplicate_rows
              "Revenue from operations" (LInt 2024) eq_refl eq_refl)
    as (q & E & _ & H).
  exists q. split; [exact E|].
  exact (H _ _ eq_refl).
Defined.

(** C7, as stated, fails: two rows carry the label, and the lookup
    returns the value of the first of them, not 0. *)
Lemma get_value_duplicate_rows_counterexample :
  List.length (matching_rows duplicate_rows "Revenue from operations") = 2%nat /\
  get_value no_number duplicate_rows "Revenue from operations" (LInt 2024) = Ok 5%Q /\
  ~ (5 == 0)%Q.
Proof.
  split; [reflexivity|]. split; [reflexivity|]. discriminate.
Qed.

Lemma score_ratios_formulas_witness :
  exists p l v e o : Q,
    score_ratios loss_ratios =
      ([("Profitability", p); ("Liquidity", l); ("Leverage", v); ("Efficiency", e)], o) /\
    (p == -15)%Q.
Proof.
  destruct (score_ratios_formulas loss_ratios ltac:(discriminate))
    as (p & l & v & e & o & E & P & _).
  exists p, l, v, e, o. split; [exact E|].
  rewrite P. reflexivity.
Defined.



(** C8, at the failing input: with the year headers 2023 (a number) and
    "FY22" (text) the numeric sort is abandoned, and the fallback
    [sorted(years)] compares an int with a string.  [analyze_trends]
    raises [TypeError] instead of ordering the columns by their text,
    and [run_analysis] ends with its error result. *)
Lemma analyze_trends_mixed_labels_raise :
  sort_years no_unicode_int [LInt 2023; LStr "FY22"] = Raise TypeError /\
  (exists fin, consolidate_financials [mixed_workbook] = Some fin /\
     analyze_trends no_unicode_int no_number (Some fin) = Raise TypeError) /\
  run_analysis no_unicode_int year_float no_number fixed_insights class_name
    [mixed_workbook] =
    error_result
      "An error occurred during analysis: TypeError. Check the Excel file formats.".
Proof.
  split; [reflexivity|]. split.
  - eexists. split; reflexivity.
  - reflexivity.
Qed.

(** The two orderings the specification gives as examples. *)
Example sort_years_numeric_headers :
  sort_years no_unicode_int [LInt 2023; LInt 2021; LInt 2022]
  = Ok [LInt 2021; LInt 2022; LInt 2023].
Proof. reflexivity. Qed.

Example sort_years_text_headers :
  sort_years no_unicode_int [LStr "FY23"; LStr "FY21"] = Ok [LStr "FY21"; LStr "FY23"].
Proof. reflexivity. Qed.


(** C9, at the failing input: the year headers are the texts [nan] and
    [2024].  Both parse as floats, [max] keeps the NaN it saw first,
    and [run_analysis] reports the ratios of the year [nan]: the year
    detected is not a number, and not the largest of the years that
    parse. *)
Lemma run_analysis_nan_header_detected :
  let result :=
    run_analysis no_unicode_int year_float no_number fixed_insights class_name
      [nan_header_workbook] in
  exists fin income,
    consolidate_financials [nan_header_workbook] = Some fin /\
    dict_find fin "Income Statement" = Some income /\
    year_columns_of income = [LStr "nan"; LStr "2024"] /\
    label_float year_float (LStr "2024") = Some (FNum 2024) /\
    label_float year_float (LStr "nan") = Some FNaN /\
    dict_find result "detected_fiscal_year" = Some (VStr "nan") /\
    ~ is_latest_year year_float (year_columns_of income) "nan".
Proof.
  cbv zeta. eexists. eexists.
  split; [vm_compute; reflexivity|]. split; [vm_compute; reflexivity|].
  split; [vm_compute; reflexivity|]. split; [reflexivity|]. split; [reflexivity|].
  split; [vm_compute; reflexivity|].
  intros (col & k & Hc & Hy & P & Hmax).
  assert (E : col = LStr "nan").
  { vm_compute in Hc. destruct Hc as [<-|[<-|[]]]; [reflexivity | discriminate]. }
  subst col. injection P as <-.
  assert (G : float_le (FNum 2024) FNaN = true).
  { apply (Hmax (LStr "2024")); [vm_compute; auto | reflexivity]. }
  discriminate.
Qed.



Lemma consolidate_financials_fails_iff_witness :
  sheets_named "Balance Sheet" [Some [("Income Statement", income_2024)]] = [] /\
  consolidate_financials [Some [("Income Statement", income_2024)]] = None.
Proof.
  split; [reflexivity|].
  assert (HI : forall df,
             In df (sheets_named "Income Statement"
                      [Some [("Income Statement", income_2024)]]) ->
             sheet_ok df = true)
    by (intros df [<-|[]]; reflexivity).
  assert (HB : forall df,
             In df (sheets_named "Balance Sheet"
                      [Some [("Income Statement", income_2024)]]) ->
             sheet_ok df = true)
    by (intros df []).
  apply (proj1 (consolidate_financials_fails_iff _ HI HB)).
  right. reflexivity.
Defined.

(** C6, as stated, fails: the Income Statement sheet has its header
    and no data row; the consolidated Income Statement has zero rows
    and the consolidation does not fail. *)
Lemma consolidate_header_only_counterexample :
  exists fin income,
    consolidate_financials [header_only_workbook] = Some fin /\
    dict_find fin "Income Statement" = Some income /\
    rows income = [].
Proof.
  do 2 eexists. repeat split; reflexivity.
Qed.

Lemma consolidate_financials_file_order_witness :
  group_amounts [padded_income; plain_income] "Revenue" (LInt 2024) = [10%Q; 7%Q] /\
  group_amounts [plain_income; padded_income] "Revenue" (LInt 2024) = [7%Q; 10%Q] /\
  match consolidate_financials [padded_workbook; plain_workbook],
        consolidate_financials [plain_workbook; padded_workbook] with
  | Some f1, Some f2 =>
      exists i1 b1 i2 b2,
        f1 = [("Income Statement", i1); ("Balance Sheet", b1)] /\
        f2 = [("Income Statement", i2); ("Balance Sheet", b2)] /\
        same_sums [padded_income; plain_income] [plain_income; padded_income] i1 i2 /\
        same_sums [balance_2024; balance_2024] [balance_2024; balance_2024] b1 b2 /\
        (columns padded_income = columns plain_income -> columns i1 = columns i2) /\
        (columns balance_2024 = columns balance_2024 -> columns b1 = columns b2)
  | None, None => True
  | _, _ => False
  end.
Proof.
  split; [reflexivity|]. split; [reflexivity|].
  exact (consolidate_financials_file_order
           [("Income Statement", padded_income); ("Balance Sheet", balance_2024)]
           [("Income Statement", plain_income); ("Balance Sheet", balance_2024)]
           padded_income balance_2024 plain_income balance_2024
           eq_refl eq_refl eq_refl eq_refl).
Defined.

(** C10, as stated, fails: one workbook reports 2023, the other 2024;
    the year columns of the consolidated Income Statement come in the
    order of the files, so the two tables differ. *)
Lemma consolidate_file_order_counterexample :
  exists f1 f2 i1 i2,
    consolidate_financials [workbook_2023; workbook_2024] = Some f1 /\
    consolidate_financials [workbook_2024; workbook_2023] = Some f2 /\
    dict_find f1 "Income Statement" = Some i1 /\
    dict_find f2 "Income Statement" = Some i2 /\
    columns i1 = [Field; LInt 2023; LInt 2024] /\
    columns i2 = [Field; LInt 2024; LInt 2023] /\
    i1 <> i2.
Proof.
  do 4 eexists. repeat split; try reflexivity.
  intros H. apply (f_equal columns) in H. vm_compute in H. discriminate.
Qed.

(** A complete run: one workbook, its year column the int 2024. *)
Example run_analysis_2024 :
  let result :=
    run_analysis no_unicode_int year_float no_number fixed_insights class_name
      [workbook_2024] in
  dict_keys result
  = ["ratios"; "sub_scores"; "overall_score"; "trends"; "ai_insights";
     "detected_fiscal_year"] /\
  dict_find result "detected_fiscal_year" = Some (VStr "2024") /\
  dict_find result "error" = None.
Proof. repeat split. Qed.

(** The spec's scenario: revenue 1000 and profit 100 give a Net Profit
    Margin of 0.10; current liabilities 0 give a Current Ratio of 0. *)
Example compute_ratios_2024 :
  exists d,
    compute_ratios no_unicode_int no_number (Some financials_2024) (LStr "2024") = Ok d /\
    (dict_get d "Net Profit Margin" 0 == 1 # 10)%Q /\
    dict_get d "Current Ratio" 1 = 0%Q.
Proof. eexists. repeat split. Qed.

(** An empty ratio set is scored as no sub-score and the overall 0. *)
Example score_ratios_empty : score_ratios [] = ([], 0%Q).
Proof. reflexivity. Qed.

Lemma score_ratios_saturation_witness :
  (dict_get (fst (score_ratios capped_ratios)) "Liquidity" 0 == 100)%Q.
Proof.
  apply (proj2 (proj2 (score_ratios_saturation capped_ratios ltac:(discriminate))));
    vm_compute; discriminate.
Defined.


Lemma consolidate_financials_collects_witness :
  consolidate_financials [workbook_2024]
  = consolidate_financials
      [Some [("Income Statement", income_2024)]; Some [("Balance Sheet", balance_2024)]].
Proof.
  exact (proj2 (proj2 (consolidate_financials_collects [] []))
           [("Income Statement", income_2024); ("Balance Sheet", balance_2024)]
           income_2024 balance_2024 eq_refl eq_refl).
Defined.

Lemma analyze_trends_table_witness :
  exists ys,
    analyze_trends no_unicode_int no_number (Some financials_2024)
    = Ok (trend_table_of no_number income_2024 ys) /\
    Permutation ys (year_columns_of income_2024) /\
    StronglySorted (year_le no_unicode_int) ys.
Proof.
  apply (proj1 (analyze_trends_table no_unicode_int no_number financials_2024 income_2024
                  eq_refl eq_refl ltac:(discriminate))).
  intros y [<-|[]]. discriminate.
Defined.

Lemma compute_ratios_file_order_witness :
  match compute_ratios no_unicode_int no_number
          (consolidate_financials [workbook_2023; workbook_2024]) (LStr "2024"),
        compute_ratios no_unicode_int no_number
          (consolidate_financials [workbook_2024; workbook_2023]) (LStr "2024") with
  | Ok d, Ok d' =>
      dict_keys d = dict_keys d' /\
      (d = [] \/ dict_keys d = ["Net Profit Margin"; "Return on Assets (ROA)";
                                "Debt to Equity Ratio"; "Current Ratio";
                                "Gross Margin"; "Quick Ratio"])
  | _, _ => False
  end.
Proof.
  exact (proj2 (compute_ratios_file_order no_unicode_int no_number
                  [workbook_2023; workbook_2024]
                  [workbook_2024; workbook_2023] (LStr "2024") (perm_swap _ _ _))).
Defined.

Lemma analyze_file_reads_uploads_witness :
  accepted keep_name save_succeeds same_name_uploads /\
  map (uploaded_workbook keep_name sample_read_excel same_name_uploads) same_name_uploads
  = [workbook_2024; workbook_2024].
Proof.
  assert (A : accepted keep_name save_succeeds same_name_uploads).
  { split; [discriminate|]. split; [vm_compute; lia|].
    intros f [<-|[<-|[]]]; split; reflexivity. }
  split; [exact A|].
  exact (proj2 (proj2 (analyze_file_reads_uploads no_unicode_int year_float no_number
                         fixed_insights
                         class_name keep_name sample_read_excel save_succeeds
                         nothing_written flask_jsonify_error [] same_name_uploads A))
           _ _ eq_refl eq_refl).
Defined.

Lemma detected_year_ratio_stage_witness :
  exists ly,
    (ly = LInt 2024 \/ ly = LStr "2024") /\
    compute_ratios no_unicode_int no_number (Some financials_2024) (LStr "2024")
    = Ok (ratio_set no_number (filled income_2024) (filled balance_2024) ly).
Proof.
  exact (proj1 (detected_year_ratio_stage no_unicode_int no_number fixed_insights
                  financials_2024 income_2024 balance_2024 (LInt 2024)
                  eq_refl eq_refl eq_refl eq_refl eq_refl) eq_refl).
Defined.



Lemma analyze_file_status_witness :
  let handler :=
    analyze_file no_unicode_int year_float no_number fixed_insights class_name keep_name
      sample_read_excel save_succeeds nothing_written flask_jsonify_error [] in
  status (snd (handler (Some text_year_uploads))) = 200%nat /\
  status (snd (handler (Some same_name_uploads))) <> 200%nat.
Proof.
  cbv zeta. split.
  - apply (proj2 (proj2 (proj2 (analyze_file_status no_unicode_int year_float no_number
                                  fixed_insights class_name keep_name sample_read_excel
                                  save_succeeds nothing_written flask_jsonify_error []
                                  (Some text_year_uploads))))).
    exists text_year_uploads. split; [reflexivity|]. split.
    + split; [discriminate|]. split; [vm_compute; lia|].
      intros f [<-|[]]. split; reflexivity.
    + cbv zeta. split; [vm_compute; reflexivity|]. split; vm_compute; reflexivity.
  - intros H.
    apply (proj1 (proj2 (proj2 (analyze_file_status no_unicode_int year_float no_number
                                  fixed_insights class_name keep_name sample_read_excel
                                  save_succeeds nothing_written flask_jsonify_error []
                                  (Some same_name_uploads))))) in H.
    destruct H as (files & E & _ & J & _). injection E as <-.
    vm_compute in J. discriminate.
Defined.

Lemma analyze_file_cleanup_witness :
  let fs' :=
    fst (analyze_file no_unicode_int year_float no_number fixed_insights class_name keep_name
           sample_read_excel full_on_second half_written flask_jsonify_error []
           (Some two_uploads)) in
  dict_find fs' "uploads/second.xlsx" = Some "year".
Proof.
  refine (proj2 (proj2 (proj2 (proj2 (analyze_file_cleanup no_unicode_int year_float
                                        no_number fixed_insights class_name keep_name
                                        sample_read_excel full_on_second half_written
                                        flask_jsonify_error [] (Some two_uploads)))
                          two_uploads eq_refl))
            [mkFile "first.xlsx" "year 2023"] (mkFile "second.xlsx" "year 2024") []
            "[Errno 28] No space left on device" "year" eq_refl _ _ eq_refl eq_refl
            eq_refl).
  - vm_compute. lia.
  - intros g [<-|[]]. split; [reflexivity|]. split; [reflexivity|]. discriminate.
Defined.

Lemma allowed_file_spec_witness :
  allowed_file "Q4 report.v2.XlSx" = true /\ allowed_file "report.xlsx.bak" = false.
Proof.
  split.
  - apply (proj2 (allowed_file_spec "Q4 report.v2.XlSx")).
    exists "Q4 report.v2", "XlSx". split; reflexivity.
  - reflexivity.
Defined.

Lemma analyze_trends_edge_cases_witness :
  analyze_trends no_unicode_int no_number
    (Some [("Income Statement", mkDF [LInt 2024] [[CNum 1000]])])
  = Raise KeyError.
Proof.
  apply (proj2 (proj2 (analyze_trends_edge_cases no_unicode_int no_number
                         [("Income Statement", mkDF [LInt 2024] [[CNum 1000]])]))).
  exists (mkDF [LInt 2024] [[CNum 1000]]), [LInt 2024].
  split; [reflexivity|]. split; [discriminate|]. split; reflexivity.
Defined.


Lemma net_margin_consistent_witness :
  exists trend ratios margins,
    analyze_trends no_unicode_int no_number (Some financials_2024) = Ok trend /\
    compute_ratios no_unicode_int no_number (Some financials_2024) (LStr "2024")
    = Ok ratios /\
    dict_find (trend_rows trend) "Net Margin (%)" = Some margins /\
    In (LInt 2024) (trend_years trend) /\
    forall m, In (LInt 2024, m) (combine (trend_years trend) margins) ->
              m = (dict_get ratios "Net Profit Margin" 0 * 100)%Q.
Proof.
  eexists.
  assert (T : analyze_trends no_unicode_int no_number (Some financials_2024) = Ok ?[t])
    by (vm_compute; reflexivity).
  destruct (net_margin_consistent no_unicode_int no_number financials_2024
              income_2024 balance_2024
              (LStr "2024") (LInt 2024) _ eq_refl eq_refl eq_refl eq_refl eq_refl
              ltac:(discriminate) T)
    as (ratios & margins & H).
  exists ratios, margins. split; [exact T | exact H].
Defined.
